(** * Address Conflict Detection (lwIP acd.c, OpENer variant)

    A shallow embedding of [components/lwip/lwip/src/core/ipv4/acd.c]:
    the per-address state machine driven by [acd_tmr], the ARP
    classification of [acd_arp_reply], the restart / defend / passive
    handlers, the client registry kept on the interface, and the
    jitter macros.  Every external call the C code makes (ARP sends,
    the conflict callback, the two EtherNet/IP capture hooks) is logged
    in source order together with the context the callee can observe
    at that moment.  The callees themselves (the ARP transport, the
    upper-layer client behind the callback, the diagnostic sink) lie
    outside this file: a call is recorded, what the callee does in turn
    is not modelled, and the result of an ARP send, which the C code
    only logs, is ignored. *)

From Stdlib Require Import ZArith List Bool Lia.
From stdpp Require Import base option list gmap.
Import ListNotations.
Local Open Scope Z_scope.

(** ** Machine integers *)

Module CInt.

(** Conversion to an unsigned [w]-bit type. *)
Definition wrap (w x : Z) : Z := x mod 2 ^ w.

Definition u16 (x : Z) : Z := wrap 16 x.
Definition u32 (x : Z) : Z := wrap 32 x.

(** C's [/] on [int] truncates toward zero. *)
Definition cdiv (a b : Z) : Z := Z.quot a b.

End CInt.
Import CInt.

(** ** Addresses *)

(** Modelled from the spec: [ip4_addr_t] and its predicates live in
    lwIP's ip4_addr.h, which is not part of the sources at hand.  An
    address a.b.c.d is the 32-bit number a*2^24 + b*2^16 + c*2^8 + d. *)
Definition ip4_addr_t : Type := Z.

Definition IPADDR_ANY : ip4_addr_t := 0.

Definition ip4_addr_eq (a b : ip4_addr_t) : bool := a =? b.
Definition ip4_addr_isany_val (a : ip4_addr_t) : bool := a =? IPADDR_ANY.

(** [ip_addr_isany] takes a pointer; NULL counts as "any". *)
Definition ip_addr_isany (a : option ip4_addr_t) : bool :=
  match a with
  | None => true
  | Some x => ip4_addr_isany_val x
  end.

(** 169.254.0.0/16 *)
Definition ip4_addr_islinklocal (a : ip4_addr_t) : bool :=
  Z.land a 0xffff0000 =? 0xa9fe0000.

Definition ip4 (a b c d : Z) : ip4_addr_t :=
  Z.lor (Z.lor (Z.shiftl a 24) (Z.shiftl b 16)) (Z.lor (Z.shiftl c 8) d).

(** A six byte hardware address ([ETH_HWADDR_LEN] = 6). *)
Record eth_addr : Type := EthAddr {
  addr0 : Z; addr1 : Z; addr2 : Z; addr3 : Z; addr4 : Z; addr5 : Z
}.

(** [eth_addr_eq] is a [memcmp] over the six bytes. *)
Definition eth_addr_eq (a b : eth_addr) : bool :=
  (addr0 a =? addr0 b) && (addr1 a =? addr1 b) && (addr2 a =? addr2 b) &&
  (addr3 a =? addr3 b) && (addr4 a =? addr4 b) && (addr5 a =? addr5 b).

Definition eth_bytes (a : eth_addr) : list Z :=
  [addr0 a; addr1 a; addr2 a; addr3 a; addr4 a; addr5 a].

(** Modelled from the spec: [struct etharp_hdr] is declared in lwIP's
    prot/etharp.h, which is not part of the sources at hand; the fields
    are the ones [acd_arp_reply] reads plus the fixed ARP preamble. *)
Record etharp_hdr : Type := EtharpHdr {
  hwtype : Z;
  proto : Z;
  hwlen : Z;
  protolen : Z;
  opcode : Z;
  shwaddr : eth_addr;
  sipaddr : ip4_addr_t;
  dhwaddr : eth_addr;
  dipaddr : ip4_addr_t
}.

Definition be16 (x : Z) : list Z := [Z.shiftr x 8 mod 256; x mod 256].
Definition be32 (x : Z) : list Z :=
  [Z.shiftr x 24 mod 256; Z.shiftr x 16 mod 256; Z.shiftr x 8 mod 256; x mod 256].

(** The header as the bytes on the wire, [(const uint8_t * )hdr]. *)
Definition etharp_hdr_raw (h : etharp_hdr) : list Z :=
  be16 (hwtype h) ++ be16 (proto h) ++ [hwlen h; protolen h] ++ be16 (opcode h) ++
  eth_bytes (shwaddr h) ++ be32 (sipaddr h) ++
  eth_bytes (dhwaddr h) ++ be32 (dipaddr h).

Definition SIZEOF_ETHARP_HDR : Z := 28.

(** ** Enumerations *)

Inductive acd_state_enum_t : Type :=
| ACD_STATE_OFF
| ACD_STATE_PROBE_WAIT
| ACD_STATE_PROBING
| ACD_STATE_ANNOUNCE_WAIT
| ACD_STATE_ANNOUNCING
| ACD_STATE_ONGOING
| ACD_STATE_PASSIVE_ONGOING
| ACD_STATE_RATE_LIMIT.

Inductive acd_callback_enum_t : Type :=
| ACD_IP_OK
| ACD_RESTART_CLIENT
| ACD_DECLINE.

Inductive err_t : Type :=
| ERR_OK
| ERR_VAL
| ERR_ARG.

Global Instance acd_state_eq_dec : EqDecision acd_state_enum_t.
Proof. solve_decision. Defined.

Global Instance acd_callback_eq_dec : EqDecision acd_callback_enum_t.
Proof. solve_decision. Defined.

Global Instance err_eq_dec : EqDecision err_t.
Proof. solve_decision. Defined.

(** ** Build configuration *)

(** The Kconfig values ([CONFIG_OPENER_ACD_...]) and the constants of
    lwIP's prot/acd.h and opt.h.  They are compile-time macros whose
    defining files are not part of the sources at hand, so the model
    takes them as a parameter. *)
Record acd_config : Type := AcdConfig {
  ACD_TMR_INTERVAL : Z;
  CONFIG_OPENER_ACD_PROBE_WAIT_MS : Z;
  CONFIG_OPENER_ACD_PROBE_MIN_MS : Z;
  CONFIG_OPENER_ACD_PROBE_MAX_MS : Z;
  CONFIG_OPENER_ACD_PROBE_NUM : Z;
  CONFIG_OPENER_ACD_ANNOUNCE_WAIT_MS : Z;
  CONFIG_OPENER_ACD_ANNOUNCE_INTERVAL_MS : Z;
  CONFIG_OPENER_ACD_ANNOUNCE_NUM : Z;
  (** [None] when the macro is not defined. *)
  CONFIG_OPENER_ACD_PERIODIC_DEFEND_INTERVAL_MS : option Z;
  MAX_CONFLICTS : Z;
  RATE_LIMIT_INTERVAL : Z;
  DEFEND_INTERVAL : Z
}.

(** Modelled from the spec: the defaults of section 4.1 (tick of
    100 ms, probe wait 0, probe 1000..2000 ms, three probes, announce
    wait and interval 2000 ms, two announces, ten conflicts, rate limit
    60 s, defend interval 10 s, periodic defence every defend
    interval). *)
Definition default_config : acd_config := {|
  ACD_TMR_INTERVAL := 100;
  CONFIG_OPENER_ACD_PROBE_WAIT_MS := 0;
  CONFIG_OPENER_ACD_PROBE_MIN_MS := 1000;
  CONFIG_OPENER_ACD_PROBE_MAX_MS := 2000;
  CONFIG_OPENER_ACD_PROBE_NUM := 3;
  CONFIG_OPENER_ACD_ANNOUNCE_WAIT_MS := 2000;
  CONFIG_OPENER_ACD_ANNOUNCE_INTERVAL_MS := 2000;
  CONFIG_OPENER_ACD_ANNOUNCE_NUM := 2;
  CONFIG_OPENER_ACD_PERIODIC_DEFEND_INTERVAL_MS := Some 10000;
  MAX_CONFLICTS := 10;
  RATE_LIMIT_INTERVAL := 60;
  DEFEND_INTERVAL := 10
|}.

Definition with_probe_wait (ms : Z) (c : acd_config) : acd_config := {|
  ACD_TMR_INTERVAL := ACD_TMR_INTERVAL c;
  CONFIG_OPENER_ACD_PROBE_WAIT_MS := ms;
  CONFIG_OPENER_ACD_PROBE_MIN_MS := CONFIG_OPENER_ACD_PROBE_MIN_MS c;
  CONFIG_OPENER_ACD_PROBE_MAX_MS := CONFIG_OPENER_ACD_PROBE_MAX_MS c;
  CONFIG_OPENER_ACD_PROBE_NUM := CONFIG_OPENER_ACD_PROBE_NUM c;
  CONFIG_OPENER_ACD_ANNOUNCE_WAIT_MS := CONFIG_OPENER_ACD_ANNOUNCE_WAIT_MS c;
  CONFIG_OPENER_ACD_ANNOUNCE_INTERVAL_MS := CONFIG_OPENER_ACD_ANNOUNCE_INTERVAL_MS c;
  CONFIG_OPENER_ACD_ANNOUNCE_NUM := CONFIG_OPENER_ACD_ANNOUNCE_NUM c;
  CONFIG_OPENER_ACD_PERIODIC_DEFEND_INTERVAL_MS :=
    CONFIG_OPENER_ACD_PERIODIC_DEFEND_INTERVAL_MS c;
  MAX_CONFLICTS := MAX_CONFLICTS c;
  RATE_LIMIT_INTERVAL := RATE_LIMIT_INTERVAL c;
  DEFEND_INTERVAL := DEFEND_INTERVAL c
|}.

(** ** The per-address context *)

(** The conflict callback is a function pointer; the model keeps its
    identity only. *)
Definition acd_conflict_callback_t : Type := positive.

(** Modelled from the spec: [struct acd] is declared in lwIP's acd.h,
    which is not part of the sources at hand.  The counters are 16 bit
    wide as in the data model of section 3; [next] is kept by the
    interface's list below. *)
Record acd : Type := Acd {
  ipaddr : ip4_addr_t;
  state : acd_state_enum_t;
  sent_num : Z;
  ttw : Z;
  lastconflict : Z;
  num_conflicts : Z;
  acd_conflict_callback : acd_conflict_callback_t
}.

Definition set_ipaddr (v : ip4_addr_t) (a : acd) : acd :=
  Acd v (state a) (sent_num a) (ttw a) (lastconflict a) (num_conflicts a)
      (acd_conflict_callback a).
Definition set_state (v : acd_state_enum_t) (a : acd) : acd :=
  Acd (ipaddr a) v (sent_num a) (ttw a) (lastconflict a) (num_conflicts a)
      (acd_conflict_callback a).
Definition set_sent_num (v : Z) (a : acd) : acd :=
  Acd (ipaddr a) (state a) v (ttw a) (lastconflict a) (num_conflicts a)
      (acd_conflict_callback a).
Definition set_ttw (v : Z) (a : acd) : acd :=
  Acd (ipaddr a) (state a) (sent_num a) v (lastconflict a) (num_conflicts a)
      (acd_conflict_callback a).
Definition set_lastconflict (v : Z) (a : acd) : acd :=
  Acd (ipaddr a) (state a) (sent_num a) (ttw a) v (num_conflicts a)
      (acd_conflict_callback a).
Definition set_num_conflicts (v : Z) (a : acd) : acd :=
  Acd (ipaddr a) (state a) (sent_num a) (ttw a) (lastconflict a) v
      (acd_conflict_callback a).
Definition set_acd_conflict_callback (v : acd_conflict_callback_t) (a : acd) : acd :=
  Acd (ipaddr a) (state a) (sent_num a) (ttw a) (lastconflict a) (num_conflicts a) v.

(** All counters within their 16 bit type. *)
Definition acd_wf (a : acd) : Prop :=
  0 <= sent_num a < 65536 /\ 0 <= ttw a < 65536 /\
  0 <= lastconflict a < 65536 /\ 0 <= num_conflicts a < 65536.

(** ** External calls and the effect monad *)

Inductive call : Type :=
| etharp_acd_probe (ip : ip4_addr_t)
| etharp_acd_announce (ip : ip4_addr_t)
| conflict_callback (fn : acd_conflict_callback_t) (what : acd_callback_enum_t)
| CipTcpIpSetLastAcdMac (mac : eth_addr)
| CipTcpIpSetLastAcdRawData (data : list Z) (length : Z).

(** One logged call: what was called and the context as the callee
    sees it at that moment. *)
Record obs : Type := Obs { what_call : call; seen : acd }.

Definition trace : Type := list obs.

(** Code that runs on one context: reads and writes its fields and
    makes external calls. *)
Definition M (A : Type) : Type := acd -> A * acd * trace.

Global Instance M_ret : MRet M := fun A x a => (x, a, []).
Global Instance M_bind : MBind M := fun A B k m a =>
  let r := m a in
  let r' := k (r.1.1) (r.1.2) in
  (r'.1.1, r'.1.2, r.2 ++ r'.2).

Definition get : M acd := fun a => (a, a, []).
Definition modify (f : acd -> acd) : M unit := fun a => (tt, f a, []).
Definition extern (c : call) : M unit := fun a => (tt, a, [Obs c a]).

Definition exec {A} (m : M A) (a : acd) : acd := (m a).1.2.
Definition result {A} (m : M A) (a : acd) : A := (m a).1.1.
Definition log {A} (m : M A) (a : acd) : trace := (m a).2.

Definition calls (t : trace) : list call := map what_call t.

Definition callback (what : acd_callback_enum_t) : M unit :=
  fun a => extern (conflict_callback (acd_conflict_callback a) what) a.

Definition when (b : bool) (m : M unit) : M unit := if b then m else mret tt.

(** [acd->f = e], [e] read in the current context. *)
Definition assign (set : Z -> acd -> acd) (e : acd -> Z) : M unit :=
  modify (fun a => set (e a) a).

(** ** The interface *)

(** A [struct acd *]. *)
Abbreviation acd_ptr := positive.

(** [netif->acd_list] is an intrusive singly linked list; the model
    keeps the chain of [next] pointers as the list of the contexts'
    addresses, head first. *)
Record netif : Type := Netif {
  hwaddr : eth_addr;
  acd_list : list acd_ptr
}.

(** ** Timing and jitter macros *)

Section Timing.

Variable cfg : acd_config.

Definition ACD_TICKS_PER_SECOND : Z := cdiv 1000 (ACD_TMR_INTERVAL cfg).

Definition OPENER_ACD_MS_TO_TICKS (ms : Z) : Z :=
  if ms =? 0 then 0
  else u16 (cdiv (ms + (ACD_TMR_INTERVAL cfg - 1)) (ACD_TMR_INTERVAL cfg)).

Definition OPENER_ACD_PROBE_WAIT_TICKS : Z :=
  OPENER_ACD_MS_TO_TICKS (CONFIG_OPENER_ACD_PROBE_WAIT_MS cfg).
Definition OPENER_ACD_PROBE_MIN_TICKS : Z :=
  OPENER_ACD_MS_TO_TICKS (CONFIG_OPENER_ACD_PROBE_MIN_MS cfg).
Definition OPENER_ACD_PROBE_MAX_TICKS : Z :=
  OPENER_ACD_MS_TO_TICKS (CONFIG_OPENER_ACD_PROBE_MAX_MS cfg).
Definition OPENER_ACD_ANNOUNCE_INTERVAL_TICKS : Z :=
  OPENER_ACD_MS_TO_TICKS (CONFIG_OPENER_ACD_ANNOUNCE_INTERVAL_MS cfg).
Definition OPENER_ACD_ANNOUNCE_WAIT_TICKS : Z :=
  OPENER_ACD_MS_TO_TICKS (CONFIG_OPENER_ACD_ANNOUNCE_WAIT_MS cfg).

Definition PROBE_NUM : Z := CONFIG_OPENER_ACD_PROBE_NUM cfg.
Definition ANNOUNCE_NUM : Z := CONFIG_OPENER_ACD_ANNOUNCE_NUM cfg.

(** The divisor of the [%] in [ACD_RANDOM_PROBE_WAIT]. *)
Definition probe_wait_modulus : Z :=
  if OPENER_ACD_PROBE_WAIT_TICKS >? 0 then OPENER_ACD_PROBE_WAIT_TICKS else 1.

(** The divisor of the [%] in [ACD_RANDOM_PROBE_INTERVAL]. *)
Definition probe_interval_modulus : Z :=
  OPENER_ACD_PROBE_MAX_TICKS - OPENER_ACD_PROBE_MIN_TICKS.

(** [rnd] is the value of [LWIP_ACD_RAND(netif, acd)], a [u32_t]. *)
Definition ACD_RANDOM_PROBE_WAIT (rnd : Z) : Z :=
  if CONFIG_OPENER_ACD_PROBE_WAIT_MS cfg =? 0 then 0
  else u32 rnd mod probe_wait_modulus.

Definition ACD_RANDOM_PROBE_INTERVAL (rnd : Z) : Z :=
  if OPENER_ACD_PROBE_MAX_TICKS >? OPENER_ACD_PROBE_MIN_TICKS
  then u32 (u32 rnd mod probe_interval_modulus + OPENER_ACD_PROBE_MIN_TICKS)
  else OPENER_ACD_PROBE_MIN_TICKS.

Definition ACD_ANNOUNCE_WAIT_TICKS_VALUE : Z := OPENER_ACD_ANNOUNCE_WAIT_TICKS.

Definition ACD_ANNOUNCE_INTERVAL_TICKS_VALUE : Z :=
  if OPENER_ACD_ANNOUNCE_INTERVAL_TICKS >? 0
  then OPENER_ACD_ANNOUNCE_INTERVAL_TICKS else 1.

Definition ACD_PERIODIC_DEFEND_INTERVAL_TICKS : Z :=
  match CONFIG_OPENER_ACD_PERIODIC_DEFEND_INTERVAL_MS cfg with
  | Some ms => OPENER_ACD_MS_TO_TICKS ms
  | None => DEFEND_INTERVAL cfg * ACD_TICKS_PER_SECOND
  end.

End Timing.

(** The built-in [LWIP_ACD_RAND], used when neither [LWIP_RAND] nor
    [LWIP_AUTOIP_RAND] is defined. *)
Definition LWIP_ACD_RAND (nif : netif) (a : acd) : Z :=
  u32 (Z.lor
         (Z.lor
            (Z.lor (Z.shiftl (u32 (Z.land (addr5 (hwaddr nif)) 0xff)) 24)
                   (Z.shiftl (u32 (Z.land (addr3 (hwaddr nif)) 0xff)) 16))
            (Z.shiftl (u32 (Z.land (addr2 (hwaddr nif)) 0xff)) 8))
         (u32 (Z.land (addr4 (hwaddr nif)) 0xff))
       + sent_num a).

(** ** The state machine *)

Section Engine.

Variable cfg : acd_config.
Variable nif : netif.

(** The expansion of [LWIP_ACD_RAND(netif, acd)] in this build: the
    built-in [LWIP_ACD_RAND nif], or an external generator. *)
Variable RAND : acd -> Z.

Definition acd_stop : M err_t :=
  modify (set_state ACD_STATE_OFF);;
  mret ERR_OK.

Definition acd_start (ip : ip4_addr_t) : M err_t :=
  modify (set_sent_num 0);;
  modify (set_lastconflict 0);;
  modify (set_ipaddr ip);;
  modify (set_state ACD_STATE_PROBE_WAIT);;
  assign set_ttw (fun a => u16 (ACD_RANDOM_PROBE_WAIT cfg (RAND a)));;
  mret ERR_OK.

Definition acd_tmr_probe : M unit :=
  a ← get;
  when (ttw a =? 0) (
    modify (set_state ACD_STATE_PROBING);;
    extern (etharp_acd_probe (ipaddr a));;
    assign set_sent_num (fun a => u16 (sent_num a + 1));;
    a ← get;
    if sent_num a >=? PROBE_NUM cfg then
      modify (set_state ACD_STATE_ANNOUNCE_WAIT);;
      modify (set_sent_num 0);;
      modify (set_ttw (u16 (ACD_ANNOUNCE_WAIT_TICKS_VALUE cfg)))
    else
      assign set_ttw (fun a => u16 (ACD_RANDOM_PROBE_INTERVAL cfg (RAND a)))).

Definition acd_tmr_announce : M unit :=
  a ← get;
  when (ttw a =? 0) (
    when (sent_num a =? 0) (
      modify (set_state ACD_STATE_ANNOUNCING);;
      modify (set_num_conflicts 0));;
    extern (etharp_acd_announce (ipaddr a));;
    modify (set_ttw (u16 (ACD_ANNOUNCE_INTERVAL_TICKS_VALUE cfg)));;
    assign set_sent_num (fun a => u16 (sent_num a + 1));;
    a ← get;
    when (sent_num a >=? ANNOUNCE_NUM cfg) (
      modify (set_state ACD_STATE_ONGOING);;
      modify (set_sent_num 0);;
      modify (set_ttw (u16 (ACD_PERIODIC_DEFEND_INTERVAL_TICKS cfg)));;
      callback ACD_IP_OK)).

Definition acd_tmr_ongoing : M unit :=
  a ← get;
  when (match CONFIG_OPENER_ACD_PERIODIC_DEFEND_INTERVAL_MS cfg with
        | Some ms => (ms >? 0) && (ttw a =? 0)
        | None => ttw a =? 0
        end) (
    extern (etharp_acd_probe (ipaddr a));;
    modify (set_ttw (u16 (ACD_PERIODIC_DEFEND_INTERVAL_TICKS cfg)))).

Definition acd_tmr_rate_limit : M unit :=
  a ← get;
  when (ttw a =? 0) (
    acd_stop;;
    callback ACD_RESTART_CLIENT).

(** The two guarded decrements at the head of the loop body of
    [acd_tmr]. *)
Definition acd_tmr_countdown : M unit :=
  a ← get;
  when (lastconflict a >? 0) (assign set_lastconflict (fun a => u16 (lastconflict a - 1)));;
  a ← get;
  when (ttw a >? 0) (assign set_ttw (fun a => u16 (ttw a - 1))).

(** The [switch (acd->state)] of [acd_tmr]. *)
Definition acd_tmr_switch : M unit :=
  a ← get;
  match state a with
  | ACD_STATE_PROBE_WAIT | ACD_STATE_PROBING => acd_tmr_probe
  | ACD_STATE_ANNOUNCE_WAIT | ACD_STATE_ANNOUNCING => acd_tmr_announce
  | ACD_STATE_ONGOING => acd_tmr_ongoing
  | ACD_STATE_PASSIVE_ONGOING => mret tt
  | ACD_STATE_RATE_LIMIT => acd_tmr_rate_limit
  | ACD_STATE_OFF => mret tt
  end.

(** The body of the [ACD_FOREACH] loop of [acd_tmr]. *)
Definition acd_tmr_one : M unit :=
  acd_tmr_countdown;;
  acd_tmr_switch.

Definition acd_restart : M unit :=
  assign set_num_conflicts (fun a => u16 (num_conflicts a + 1));;
  callback ACD_DECLINE;;
  a ← get;
  if num_conflicts a >=? MAX_CONFLICTS cfg then
    modify (set_state ACD_STATE_RATE_LIMIT);;
    modify (set_ttw (u16 (RATE_LIMIT_INTERVAL cfg * ACD_TICKS_PER_SECOND cfg)))
  else
    acd_stop;;
    callback ACD_RESTART_CLIENT.

Definition acd_handle_arp_conflict : M unit :=
  a ← get;
  if decide (state a = ACD_STATE_PASSIVE_ONGOING) then
    acd_stop;;
    callback ACD_DECLINE
  else if lastconflict a >? 0 then
    acd_restart
  else
    extern (etharp_acd_announce (ipaddr a));;
    modify (set_lastconflict (u16 (DEFEND_INTERVAL cfg * ACD_TICKS_PER_SECOND cfg))).

(** RFC 5227 2.1.1, the condition of the probing states. *)
Definition probe_conflict (hdr : etharp_hdr) (a : acd) : bool :=
  (ip4_addr_eq (sipaddr hdr) (ipaddr a) &&
   negb (eth_addr_eq (hwaddr nif) (shwaddr hdr)))
  || (ip4_addr_isany_val (sipaddr hdr) &&
      ip4_addr_eq (dipaddr hdr) (ipaddr a) &&
      negb (eth_addr_eq (hwaddr nif) (shwaddr hdr))).

(** RFC 5227 2.4, the condition of the later states. *)
Definition ongoing_conflict (hdr : etharp_hdr) (a : acd) : bool :=
  ip4_addr_eq (sipaddr hdr) (ipaddr a) &&
  negb (eth_addr_eq (hwaddr nif) (shwaddr hdr)).

Definition capture (hdr : etharp_hdr) : M unit :=
  extern (CipTcpIpSetLastAcdMac (shwaddr hdr));;
  extern (CipTcpIpSetLastAcdRawData (etharp_hdr_raw hdr) SIZEOF_ETHARP_HDR).

(** The body of the second [ACD_FOREACH] loop of [acd_arp_reply]
    (the first loop only writes a debug line). *)
Definition acd_arp_reply_one (hdr : etharp_hdr) : M unit :=
  a ← get;
  match state a with
  | ACD_STATE_OFF | ACD_STATE_RATE_LIMIT => mret tt
  | ACD_STATE_PROBE_WAIT | ACD_STATE_PROBING | ACD_STATE_ANNOUNCE_WAIT =>
      when (probe_conflict hdr a) (
        capture hdr;;
        acd_restart)
  | ACD_STATE_ANNOUNCING | ACD_STATE_ONGOING | ACD_STATE_PASSIVE_ONGOING =>
      when (ongoing_conflict hdr a) (
        capture hdr;;
        acd_handle_arp_conflict)
  end.

Definition acd_put_in_passive_mode : M unit :=
  a ← get;
  match state a with
  | ACD_STATE_OFF | ACD_STATE_PASSIVE_ONGOING => mret tt
  | ACD_STATE_PROBE_WAIT | ACD_STATE_PROBING | ACD_STATE_ANNOUNCE_WAIT
  | ACD_STATE_RATE_LIMIT =>
      acd_stop;;
      callback ACD_DECLINE
  | ACD_STATE_ANNOUNCING | ACD_STATE_ONGOING =>
      modify (set_state ACD_STATE_PASSIVE_ONGOING)
  end.

(** The body of the [ACD_FOREACH] loop of [acd_netif_ip_addr_changed],
    reached once neither address is "any". *)
Definition acd_netif_ip_addr_changed_body (old_addr new_addr : ip4_addr_t) : M unit :=
  a ← get;
  when (ip4_addr_eq (ipaddr a) old_addr) (
    when (ip4_addr_islinklocal old_addr && negb (ip4_addr_islinklocal new_addr))
      acd_put_in_passive_mode).

End Engine.

(** ** The registry: contexts in memory, listed on the interface *)

(** Contexts are owned by their clients and referenced by address;
    [w_mem] is the memory holding them.  A [None] result stands for a
    dereference of an address that holds no context. *)
Record world : Type := World {
  w_netif : netif;
  w_mem : gmap acd_ptr acd
}.

Definition wtrace : Type := list (acd_ptr * obs).

(** Run code on the context stored at [p]. *)
Definition on_ctx {A} (p : acd_ptr) (m : M A) (mem : gmap acd_ptr acd)
  : option (A * gmap acd_ptr acd * wtrace) :=
  a ← mem !! p;
  Some ((m a).1.1, <[p := (m a).1.2]> mem, map (pair p) (m a).2).

(** [ACD_FOREACH(acd, list) body] *)
Fixpoint acd_foreach (body : M unit) (l : list acd_ptr) (mem : gmap acd_ptr acd)
  : option (gmap acd_ptr acd * wtrace) :=
  match l with
  | [] => Some (mem, [])
  | p :: l' =>
      r ← on_ctx p body mem;
      r' ← acd_foreach body l' (r.1.2);
      Some (r'.1, r.2 ++ r'.2)
  end.

(** The search loop of [acd_add]: is [p] one of the listed contexts? *)
Fixpoint acd_on_list (p : acd_ptr) (l : list acd_ptr) : bool :=
  match l with
  | [] => false
  | q :: l' => if decide (q = p) then true else acd_on_list p l'
  end.

Definition acd_add (w : world) (p : acd_ptr) (cb : acd_conflict_callback_t)
  : option (err_t * world) :=
  a ← w_mem w !! p;
  let mem1 := <[p := set_acd_conflict_callback cb a]> (w_mem w) in
  if acd_on_list p (acd_list (w_netif w)) then
    Some (ERR_OK, World (w_netif w) mem1)
  else
    Some (ERR_OK,
          World (Netif (hwaddr (w_netif w)) (p :: acd_list (w_netif w))) mem1).

(** [acd_stop] as the clients call it: on a pointer, which may be NULL. *)
Definition acd_stop_at (w : world) (p : option acd_ptr) : option (err_t * world) :=
  match p with
  | None => Some (ERR_OK, w)
  | Some q =>
      r ← on_ctx q acd_stop (w_mem w);
      Some (r.1.1, World (w_netif w) (r.1.2))
  end.

Definition acd_start_at (cfg : acd_config) (RAND : acd -> Z) (w : world)
    (p : acd_ptr) (ip : ip4_addr_t) : option (err_t * world) :=
  r ← on_ctx p (acd_start cfg RAND ip) (w_mem w);
  Some (r.1.1, World (w_netif w) (r.1.2)).

Definition acd_network_changed_link_down (w : world) : option world :=
  r ← acd_foreach (acd_stop;; mret tt) (acd_list (w_netif w)) (w_mem w);
  Some (World (w_netif w) (r.1)).

(** [acd_tmr] on one interface (the body of [NETIF_FOREACH]). *)
Definition acd_tmr (cfg : acd_config) (RAND : acd -> Z) (w : world)
  : option (world * wtrace) :=
  r ← acd_foreach (acd_tmr_one cfg RAND) (acd_list (w_netif w)) (w_mem w);
  Some (World (w_netif w) (r.1), r.2).

Definition acd_arp_reply (cfg : acd_config) (w : world) (hdr : etharp_hdr)
  : option (world * wtrace) :=
  r ← acd_foreach (acd_arp_reply_one cfg (w_netif w) hdr)
        (acd_list (w_netif w)) (w_mem w);
  Some (World (w_netif w) (r.1), r.2).

Definition acd_netif_ip_addr_changed (w : world) (old_addr new_addr : option ip4_addr_t)
  : option (world * wtrace) :=
  if ip_addr_isany old_addr || ip_addr_isany new_addr then Some (w, [])
  else
    match old_addr, new_addr with
    | Some o, Some n =>
        r ← acd_foreach (acd_netif_ip_addr_changed_body o n)
              (acd_list (w_netif w)) (w_mem w);
        Some (World (w_netif w) (r.1), r.2)
    | _, _ => None
    end.

(** ** Runs of one context *)

(** [n] timer ticks; tick [i] expands [LWIP_ACD_RAND] to [rnd i]. *)
Fixpoint acd_ticks (cfg : acd_config) (rnd : nat -> acd -> Z) (n : nat) (a : acd)
  : acd * list trace :=
  match n with
  | O => (a, [])
  | S k =>
      let s := acd_tmr_one cfg (rnd O) a in
      let s' := acd_ticks cfg (fun i => rnd (S i)) k (s.1.2) in
      (s'.1, s.2 :: s'.2)
  end.

(** What can reach a context between client calls: a timer tick or an
    inbound ARP packet. *)
Inductive input : Type :=
| Tick (r : acd -> Z)
| Arp (hdr : etharp_hdr).

Definition acd_input (cfg : acd_config) (nif : netif) (i : input) : M unit :=
  match i with
  | Tick r => acd_tmr_one cfg r
  | Arp hdr => acd_arp_reply_one cfg nif hdr
  end.

Fixpoint acd_feed (cfg : acd_config) (nif : netif) (ins : list input) (a : acd)
  : acd * list trace :=
  match ins with
  | [] => (a, [])
  | i :: rest =>
      let s := acd_input cfg nif i a in
      let s' := acd_feed cfg nif rest (s.1.2) in
      (s'.1, s.2 :: s'.2)
  end.

Definition is_tick (i : input) : bool :=
  match i with Tick _ => true | Arp _ => false end.

Definition tick_count (ins : list input) : nat := length (List.filter is_tick ins).

(** ** Reading a log *)

Definition callback_of (c : call) : option acd_callback_enum_t :=
  match c with
  | conflict_callback _ what => Some what
  | _ => None
  end.

Definition callbacks (t : trace) : list acd_callback_enum_t :=
  omap (fun o => callback_of (what_call o)) t.

Definition is_announce (c : call) : bool :=
  match c with etharp_acd_announce _ => true | _ => false end.

Definition is_capture (c : call) : bool :=
  match c with
  | CipTcpIpSetLastAcdMac _ | CipTcpIpSetLastAcdRawData _ _ => true
  | _ => false
  end.

Definition announces (t : trace) : list call := List.filter is_announce (calls t).

Definition count_cb (what : acd_callback_enum_t) (ts : list trace) : nat :=
  length (List.filter (fun c => bool_decide (c = what)) (callbacks (concat ts))).

(** ** Auxiliary notions used by the statements *)

(** A guarded decrement, [if (x > 0) x--]. *)
Definition tick_dec (x : Z) : Z := if x >? 0 then x - 1 else x.

(** The states in which [acd_tmr] reloads [ttw] once it has run out. *)
Definition reloads_ttw (s : acd_state_enum_t) : bool :=
  match s with
  | ACD_STATE_PROBE_WAIT | ACD_STATE_PROBING
  | ACD_STATE_ANNOUNCE_WAIT | ACD_STATE_ANNOUNCING
  | ACD_STATE_ONGOING => true
  | _ => false
  end.

(** ** Sample data for the concrete scenarios *)

Definition sample_ip : ip4_addr_t := ip4 192 168 1 50.

Definition sample_netif : netif :=
  Netif (EthAddr 0x30 0xed 0xa0 0xe3 0x34 0xc1) [1%positive].

Definition foreign_mac : eth_addr := EthAddr 0xaa 0xbb 0xcc 0xdd 0xee 0x01.

(** An ARP reply from [foreign_mac] claiming [sample_ip]. *)
Definition sample_conflict_hdr : etharp_hdr :=
  EtharpHdr 1 0x0800 6 4 2 foreign_mac sample_ip
            (EthAddr 0x30 0xed 0xa0 0xe3 0x34 0xc1) sample_ip.

Definition sample_acd (st : acd_state_enum_t) (lc nc : Z) : acd :=
  Acd sample_ip st 1 5 lc nc 7%positive.

(** [k] rounds of a client starting detection for [ip] and a
    conflicting frame [hdr] arriving during the probe wait. *)
Fixpoint start_conflict_cycles (cfg : acd_config) (nif : netif) (RAND : acd -> Z)
    (ip : ip4_addr_t) (hdr : etharp_hdr) (k : nat) (a : acd) : acd :=
  match k with
  | O => a
  | S k' =>
      start_conflict_cycles cfg nif RAND ip hdr k'
        (exec (acd_arp_reply_one cfg nif hdr) (exec (acd_start cfg RAND ip) a))
  end.

(** The operations that may touch a context. *)
Inductive acd_op : Type :=
| OpStart (RAND : acd -> Z) (ip : ip4_addr_t)
| OpStop
| OpTick (RAND : acd -> Z)
| OpArp (hdr : etharp_hdr)
| OpPassive.

Definition acd_apply (cfg : acd_config) (nif : netif) (op : acd_op) : M unit :=
  match op with
  | OpStart RAND ip => acd_start cfg RAND ip;; mret tt
  | OpStop => acd_stop;; mret tt
  | OpTick RAND => acd_tmr_one cfg RAND
  | OpArp hdr => acd_arp_reply_one cfg nif hdr
  | OpPassive => acd_put_in_passive_mode
  end.

(** The calls one pass of [ACD_FOREACH] makes for the context at [p]. *)
Definition ctx_log (body : M unit) (mem : gmap acd_ptr acd) (p : acd_ptr) : wtrace :=
  match mem !! p with
  | Some a => map (pair p) (log body a)
  | None => []
  end.

(** The part of an interface-wide log that concerns the context at [p]. *)
Definition log_of (p : acd_ptr) (t : wtrace) : wtrace :=
  List.filter (fun e => bool_decide (e.1 = p)) t.

(** Every listed context is in memory and listed once. *)
Definition registry_ok (w : world) : Prop :=
  NoDup (acd_list (w_netif w)) /\
  forall p, p ∈ acd_list (w_netif w) -> is_Some (w_mem w !! p).

(** Sample registries: one listed context; one listed context plus one
    that is in memory but was never added. *)
Definition ll_ip : ip4_addr_t := ip4 169 254 10 20.
Definition routable_ip : ip4_addr_t := ip4 192 168 1 60.

Definition sample_world : world :=
  World sample_netif {[ 1%positive := sample_acd ACD_STATE_ONGOING 0 0 ]}.

Definition ll_world : world :=
  World sample_netif
        {[ 1%positive := Acd ll_ip ACD_STATE_ONGOING 0 50 0 0 7%positive ]}.

Definition misuse_world : world :=
  World sample_netif
        (<[ 2%positive := sample_acd ACD_STATE_ONGOING 0 0 ]>
           {[ 1%positive := sample_acd ACD_STATE_PROBING 0 0 ]}).

(** ** Progress measure of the probe and announce phases *)

(** Ticks until [ttw] has run out: the tick that finds [ttw] at 0 or 1
    acts. *)
Definition fire_in (a : acd) : Z := Z.max 1 (ttw a).

(** Least and greatest number of ticks from [a] to ONGOING under the
    defaults: probe intervals of 10 to 19 ticks, announce wait and
    announce interval of 20 ticks. *)
Definition eta_lo (a : acd) : Z :=
  fire_in a +
  match state a with
  | ACD_STATE_PROBE_WAIT => 60
  | ACD_STATE_PROBING => if sent_num a =? 1 then 50 else 40
  | ACD_STATE_ANNOUNCE_WAIT => 20
  | _ => 0
  end.

Definition eta_hi (a : acd) : Z :=
  fire_in a +
  match state a with
  | ACD_STATE_PROBE_WAIT => 78
  | ACD_STATE_PROBING => if sent_num a =? 1 then 59 else 40
  | ACD_STATE_ANNOUNCE_WAIT => 20
  | _ => 0
  end.

(** The contexts met between [acd_start] and ONGOING. *)
Definition probing_inv (a : acd) : Prop :=
  acd_wf a /\
  match state a with
  | ACD_STATE_PROBE_WAIT => sent_num a = 0
  | ACD_STATE_PROBING => sent_num a = 1 \/ sent_num a = 2
  | ACD_STATE_ANNOUNCE_WAIT => sent_num a = 0
  | ACD_STATE_ANNOUNCING => sent_num a = 1
  | _ => False
  end.

(** ** Removal from the registry *)

(** The loop of [acd_remove]: unlink the first node equal to [p];
    [None] when the loop runs off the end of the list. *)
Fixpoint acd_unlink (p : acd_ptr) (l : list acd_ptr) : option (list acd_ptr) :=
  match l with
  | [] => None
  | q :: l' => if decide (q = p) then Some l' else cons q <$> acd_unlink p l'
  end.

(** [acd_remove].  The second component tells whether the
    [LWIP_ASSERT("acd_remove(): acd not on list", 0)] after the loop was
    reached; [LWIP_ASSERT] itself is a macro of lwIP's debug.h, which is
    not part of the sources at hand, so the model only records that it
    was reached. *)
Definition acd_remove (w : world) (p : acd_ptr) : world * bool :=
  match acd_unlink p (acd_list (w_netif w)) with
  | Some l' => (World (Netif (hwaddr (w_netif w)) l') (w_mem w), false)
  | None => (w, true)
  end.

(** ** Reading a log, continued *)

(** The state a callback's receiver finds the context in: IP_OK comes
    with ONGOING, RESTART_CLIENT with OFF. *)
Definition callback_state_ok (o : obs) : bool :=
  match what_call o with
  | conflict_callback _ ACD_IP_OK =>
      bool_decide (state (seen o) = ACD_STATE_ONGOING)
  | conflict_callback _ ACD_RESTART_CLIENT =>
      bool_decide (state (seen o) = ACD_STATE_OFF)
  | _ => true
  end.

(** A call made on behalf of [a]: sends carry its address, callbacks go
    to its callback. *)
Definition call_for (a : acd) (c : call) : Prop :=
  match c with
  | etharp_acd_probe ip | etharp_acd_announce ip => ip = ipaddr a
  | conflict_callback fn _ => fn = acd_conflict_callback a
  | _ => True
  end.

Definition is_send (c : call) : bool :=
  match c with
  | etharp_acd_probe _ | etharp_acd_announce _ => true
  | _ => false
  end.

Definition sends (t : trace) : list call := List.filter is_send (calls t).


(** Periodic defence is compiled in and switched on. *)
Definition periodic_defence_enabled (cfg : acd_config) : Prop :=
  match CONFIG_OPENER_ACD_PERIODIC_DEFEND_INTERVAL_MS cfg with
  | Some ms => 0 < ms
  | None => True
  end.

Definition with_periodic_defend (ms : option Z) (c : acd_config) : acd_config := {|
  ACD_TMR_INTERVAL := ACD_TMR_INTERVAL c;
  CONFIG_OPENER_ACD_PROBE_WAIT_MS := CONFIG_OPENER_ACD_PROBE_WAIT_MS c;
  CONFIG_OPENER_ACD_PROBE_MIN_MS := CONFIG_OPENER_ACD_PROBE_MIN_MS c;
  CONFIG_OPENER_ACD_PROBE_MAX_MS := CONFIG_OPENER_ACD_PROBE_MAX_MS c;
  CONFIG_OPENER_ACD_PROBE_NUM := CONFIG_OPENER_ACD_PROBE_NUM c;
  CONFIG_OPENER_ACD_ANNOUNCE_WAIT_MS := CONFIG_OPENER_ACD_ANNOUNCE_WAIT_MS c;
  CONFIG_OPENER_ACD_ANNOUNCE_INTERVAL_MS := CONFIG_OPENER_ACD_ANNOUNCE_INTERVAL_MS c;
  CONFIG_OPENER_ACD_ANNOUNCE_NUM := CONFIG_OPENER_ACD_ANNOUNCE_NUM c;
  CONFIG_OPENER_ACD_PERIODIC_DEFEND_INTERVAL_MS := ms;
  MAX_CONFLICTS := MAX_CONFLICTS c;
  RATE_LIMIT_INTERVAL := RATE_LIMIT_INTERVAL c;
  DEFEND_INTERVAL := DEFEND_INTERVAL c
|}.

(** A probe from [foreign_mac] for [sample_ip]: sender 0.0.0.0. *)
Definition sample_probe_hdr : etharp_hdr :=
  EtharpHdr 1 0x0800 6 4 1 foreign_mac IPADDR_ANY (EthAddr 0 0 0 0 0 0) sample_ip.

(** A frame sent from the interface's own hardware address. *)
Definition own_frame_hdr : etharp_hdr :=
  EtharpHdr 1 0x0800 6 4 1 (hwaddr sample_netif) sample_ip
            (EthAddr 0 0 0 0 0 0) sample_ip.

(** The calls still to come before ONGOING under the defaults (three
    probes, two announces, then IP_OK), read off [state] and
    [sent_num]. *)
Definition calls_to_ongoing (a : acd) : list call :=
  let p := etharp_acd_probe (ipaddr a) in
  let n := etharp_acd_announce (ipaddr a) in
  let ok := conflict_callback (acd_conflict_callback a) ACD_IP_OK in
  match state a with
  | ACD_STATE_PROBE_WAIT => [p; p; p; n; n; ok]
  | ACD_STATE_PROBING => if sent_num a =? 1 then [p; p; n; n; ok] else [p; n; n; ok]
  | ACD_STATE_ANNOUNCE_WAIT => [n; n; ok]
  | ACD_STATE_ANNOUNCING => [n; ok]
  | _ => []
  end.

(** * Properties *)

Module CIntFacts.

Lemma u16_range x : 0 <= u16 x < 65536.
Proof. unfold u16, wrap. change (2 ^ 16) with 65536. apply Z.mod_pos_bound. lia. Qed.

Lemma u32_range x : 0 <= u32 x < 4294967296.
Proof. unfold u32, wrap. change (2 ^ 32) with 4294967296. apply Z.mod_pos_bound. lia. Qed.

Lemma u16_id x : 0 <= x < 65536 -> u16 x = x.
Proof. intros H. unfold u16, wrap. change (2 ^ 16) with 65536. apply Z.mod_small; lia. Qed.

Lemma u32_id x : 0 <= x < 4294967296 -> u32 x = x.
Proof. intros H. unfold u32, wrap. change (2 ^ 32) with 4294967296. apply Z.mod_small; lia. Qed.

End CIntFacts.
Import CIntFacts.

(** ** Proof automation *)

Ltac unfold_M :=
  cbv beta iota zeta delta
      [exec result log acd_tmr_one acd_tmr_countdown acd_tmr_switch
       acd_tmr_probe acd_tmr_announce acd_tmr_ongoing
       acd_tmr_rate_limit acd_stop acd_start acd_restart acd_handle_arp_conflict
       acd_arp_reply_one acd_put_in_passive_mode acd_netif_ip_addr_changed_body
       acd_input capture callback when assign modify extern get
       mbind mret M_bind M_ret fst snd app
       set_ipaddr set_state set_sent_num set_ttw set_lastconflict set_num_conflicts
       set_acd_conflict_callback
       ipaddr state sent_num ttw lastconflict num_conflicts acd_conflict_callback].

Ltac split_if :=
  match goal with
  | |- context [if ?c then _ else _] =>
      lazymatch c with
      | context [if _ then _ else _] => fail
      | context [match _ with _ => _ end] => fail
      | _ => destruct c eqn:?
      end
  end.

Ltac run_M := unfold_M; repeat (split_if; unfold_M).

Ltac zbool :=
  repeat match goal with
  | H : (_ =? _) = true |- _ => apply Z.eqb_eq in H
  | H : (_ =? _) = false |- _ => apply Z.eqb_neq in H
  | H : (_ >? _) = true |- _ => rewrite Z.gtb_ltb, Z.ltb_lt in H
  | H : (_ >? _) = false |- _ => rewrite Z.gtb_ltb, Z.ltb_ge in H
  | H : (_ >=? _) = true |- _ => rewrite Z.geb_leb, Z.leb_le in H
  | H : (_ >=? _) = false |- _ => rewrite Z.geb_leb, Z.leb_gt in H
  | H : (_ && _) = true |- _ => apply andb_true_iff in H; destruct H
  | H : (_ || _) = false |- _ => apply orb_false_iff in H; destruct H
  | H : negb _ = true |- _ => apply negb_true_iff in H
  | H : negb _ = false |- _ => apply negb_false_iff in H
  end.

Ltac open_acd a :=
  let ip := fresh "ip" in let st := fresh "st" in let sn := fresh "sn" in
  let tw := fresh "tw" in let lc := fresh "lc" in let nc := fresh "nc" in
  let cb := fresh "cb" in
  destruct a as [ip st sn tw lc nc cb]; cbn [ipaddr state sent_num ttw lastconflict
    num_conflicts acd_conflict_callback] in *.

(** ** One tick *)

Lemma tick_dec_range x : 0 <= x < 65536 -> 0 <= tick_dec x < 65536.
Proof. unfold tick_dec. destruct (x >? 0) eqn:E; zbool; lia. Qed.

Lemma tick_dec_le x : 0 <= x -> 0 <= tick_dec x <= x.
Proof. unfold tick_dec. destruct (x >? 0) eqn:E; zbool; lia. Qed.

Lemma countdown_eq a :
  acd_wf a ->
  acd_tmr_countdown a =
  (tt, set_ttw (tick_dec (ttw a)) (set_lastconflict (tick_dec (lastconflict a)) a), []).
Proof.
  intros (Hs & Ht & Hl & Hn). open_acd a.
  unfold tick_dec. run_M; zbool; rewrite ?u16_id by lia; reflexivity.
Qed.

Lemma tick_eq cfg RAND a :
  acd_wf a ->
  acd_tmr_one cfg RAND a =
  acd_tmr_switch cfg RAND
    (set_ttw (tick_dec (ttw a)) (set_lastconflict (tick_dec (lastconflict a)) a)).
Proof.
  intros Hwf. unfold acd_tmr_one. cbv beta iota zeta delta [mbind M_bind].
  rewrite countdown_eq by assumption. cbn [fst snd app].
  destruct (acd_tmr_switch _ _ _) as [[[] a'] t]. reflexivity.
Qed.

Lemma switch_idle cfg RAND a :
  ttw a <> 0 -> acd_tmr_switch cfg RAND a = (tt, a, []).
Proof.
  intros H. open_acd a.
  destruct (CONFIG_OPENER_ACD_PERIODIC_DEFEND_INTERVAL_MS cfg) eqn:EP;
    destruct st; run_M; zbool; try rewrite EP; run_M; zbool;
    try reflexivity; try lia.
Qed.

Lemma tick_idle cfg RAND a :
  acd_wf a -> 2 <= ttw a ->
  acd_tmr_one cfg RAND a =
  (tt, set_ttw (ttw a - 1) (set_lastconflict (tick_dec (lastconflict a)) a), []).
Proof.
  intros Hwf H2. rewrite tick_eq by assumption.
  assert (tick_dec (ttw a) = ttw a - 1) as ->.
  { unfold tick_dec. destruct (ttw a >? 0) eqn:E; zbool; lia. }
  apply switch_idle. cbn. lia.
Qed.

Lemma switch_wf cfg RAND a : acd_wf a -> acd_wf (exec (acd_tmr_switch cfg RAND) a).
Proof.
  intros (Hs & Ht & Hl & Hn). open_acd a.
  destruct (CONFIG_OPENER_ACD_PERIODIC_DEFEND_INTERVAL_MS cfg) eqn:EP;
    destruct st; run_M; try rewrite EP; run_M;
    unfold acd_wf; cbn; repeat split; try apply u16_range; lia.
Qed.

Lemma tick_wf cfg RAND a : acd_wf a -> acd_wf (exec (acd_tmr_one cfg RAND) a).
Proof.
  intros Hwf. unfold exec. rewrite tick_eq by assumption.
  apply switch_wf. destruct Hwf as (Hs & Ht & Hl & Hn).
  unfold acd_wf; cbn. auto using tick_dec_range.
Qed.

Lemma switch_lastconflict cfg RAND a :
  lastconflict (exec (acd_tmr_switch cfg RAND) a) = lastconflict a.
Proof.
  open_acd a.
  destruct (CONFIG_OPENER_ACD_PERIODIC_DEFEND_INTERVAL_MS cfg) eqn:EP;
    destruct st; run_M; try rewrite EP; run_M; reflexivity.
Qed.

Lemma switch_ttw cfg RAND a :
  ttw (exec (acd_tmr_switch cfg RAND) a) = ttw a \/
  (ttw a = 0 /\ reloads_ttw (state a) = true).
Proof.
  open_acd a.
  destruct (CONFIG_OPENER_ACD_PERIODIC_DEFEND_INTERVAL_MS cfg) eqn:EP;
    destruct st; run_M; try rewrite EP; run_M; zbool; cbn; auto.
Qed.

Lemma ticks_idle cfg n : forall rnd a,
  acd_wf a -> Z.of_nat n < ttw a ->
  let r := acd_ticks cfg rnd n a in
  ttw r.1 = ttw a - Z.of_nat n /\ state r.1 = state a /\ acd_wf r.1 /\
  sent_num r.1 = sent_num a /\ num_conflicts r.1 = num_conflicts a /\
  concat r.2 = [].
Proof.
  induction n as [|n IH]; intros rnd a Hwf Hlt.
  - cbn. repeat split; try apply Hwf; lia.
  - cbn [acd_ticks]. rewrite tick_idle by (try assumption; lia). cbn [fst snd].
    set (a1 := set_ttw _ _).
    assert (Hwf1 : acd_wf a1).
    { destruct Hwf as (Hs & Ht & Hl & Hn). unfold a1, acd_wf. cbn.
      pose proof (tick_dec_range _ Hl). repeat split; lia. }
    specialize (IH (fun i => rnd (S i)) a1 Hwf1). cbv zeta in IH.
    destruct IH as (E1 & E2 & E3 & E4 & E5 & E6).
    { unfold a1. cbn. lia. }
    cbv zeta. cbn [fst snd concat app]. rewrite E1, E2, E4, E5, E6.
    unfold a1. cbn. split; [lia|]. auto.
Qed.

(** C7: the timer never lets [ttw] underflow.  The guarded decrement
    subtracts one only from a strictly positive [ttw] and leaves 0 at 0
    (no wrap to 65535); after a whole tick [ttw] is the decremented
    value, hence not larger than before, unless the decrement reached 0
    in a state whose branch reloads it; over [n] ticks that stay short
    of the reload point [ttw] falls by exactly [n], with no call made.
    [lastconflict] is decremented by one per tick while nonzero and
    stays at 0 otherwise. *)
Theorem ttw_never_underflows cfg RAND (a : acd) :
  acd_wf a ->
  let d := exec acd_tmr_countdown a in
  let a' := exec (acd_tmr_one cfg RAND) a in
  (0 < ttw a -> ttw d = ttw a - 1) /\
  (ttw a = 0 -> ttw d = 0) /\
  0 <= ttw a' < 65536 /\
  (ttw a' = ttw d \/ (ttw d = 0 /\ reloads_ttw (state a) = true)) /\
  (ttw a' <= ttw a \/ (ttw d = 0 /\ reloads_ttw (state a) = true)) /\
  (forall rnd n, Z.of_nat n < ttw a ->
     ttw (acd_ticks cfg rnd n a).1 = ttw a - Z.of_nat n /\
     concat (acd_ticks cfg rnd n a).2 = []) /\
  (0 < lastconflict a -> lastconflict a' = lastconflict a - 1) /\
  (lastconflict a = 0 -> lastconflict a' = 0).
Proof.
  intros Hwf d a'.
  assert (Hd : d = set_ttw (tick_dec (ttw a))
                     (set_lastconflict (tick_dec (lastconflict a)) a)).
  { unfold d, exec. now rewrite countdown_eq. }
  assert (Ha' : a' = exec (acd_tmr_switch cfg RAND) d).
  { unfold a', exec. rewrite tick_eq by assumption. now rewrite Hd. }
  pose proof (tick_wf cfg RAND a Hwf) as (_ & Ht' & _).
  fold a' in Ht'.
  pose proof (switch_ttw cfg RAND d) as Hsw. rewrite <- Ha' in Hsw.
  assert (Hst : state d = state a) by (rewrite Hd; reflexivity).
  assert (Htd : ttw d = tick_dec (ttw a)) by (rewrite Hd; reflexivity).
  assert (Hlc : lastconflict a' = tick_dec (lastconflict a)).
  { rewrite Ha', switch_lastconflict, Hd. reflexivity. }
  destruct Hwf as (Hs & Ht & Hl & Hn).
  pose proof (tick_dec_le (ttw a) (proj1 Ht)) as Hle.
  rewrite Hst in Hsw.
  repeat split.
  - intros Hpos. rewrite Htd. unfold tick_dec.
    destruct (ttw a >? 0) eqn:E; zbool; lia.
  - intros H0. rewrite Htd, H0. reflexivity.
  - apply Ht'.
  - apply Ht'.
  - exact Hsw.
  - destruct Hsw as [-> | Hr]; [left; lia | right; exact Hr].
  - apply (ticks_idle cfg n rnd a); unfold acd_wf; auto.
  - apply (ticks_idle cfg n rnd a); unfold acd_wf; auto.
  - intros Hpos. rewrite Hlc. unfold tick_dec.
    destruct (lastconflict a >? 0) eqn:E; zbool; lia.
  - intros H0. rewrite Hlc, H0. reflexivity.
Qed.

Lemma ttw_never_underflows_witness :
  acd_wf (sample_acd ACD_STATE_PROBING 0 0) /\
  ttw (exec acd_tmr_countdown (sample_acd ACD_STATE_PROBING 0 0)) = 4 /\
  0 <= ttw (exec (acd_tmr_one default_config (fun _ => 7))
                 (sample_acd ACD_STATE_PROBING 0 0)) < 65536.
Proof.
  assert (Hwf : acd_wf (sample_acd ACD_STATE_PROBING 0 0))
    by (unfold acd_wf; cbn; lia).
  split; [exact Hwf|].
  pose proof (ttw_never_underflows default_config (fun _ => 7)
                (sample_acd ACD_STATE_PROBING 0 0) Hwf) as H.
  cbv zeta in H. destruct H as (H1 & _ & H3 & _).
  split; [rewrite H1; [reflexivity | cbn; lia] | exact H3].
Defined.

(** ** Conflict handling on one context *)

Lemma eth_addr_eq_spec a b : eth_addr_eq a b = true <-> a = b.
Proof.
  destruct a, b. unfold eth_addr_eq. cbn. split.
  - intros H. repeat (apply andb_true_iff in H; destruct H as [H ?]).
    zbool. congruence.
  - intros H. injection H as -> -> -> -> -> ->.
    now rewrite !Z.eqb_refl.
Qed.

Lemma eth_addr_neq_spec a b : eth_addr_eq a b = false <-> b <> a.
Proof.
  rewrite <- not_true_iff_false, eth_addr_eq_spec. split; intros H E; now apply H.
Qed.

Lemma probe_conflict_spec nif hdr a :
  probe_conflict nif hdr a = true <->
  (sipaddr hdr = ipaddr a /\ shwaddr hdr <> hwaddr nif) \/
  (sipaddr hdr = IPADDR_ANY /\ dipaddr hdr = ipaddr a /\ shwaddr hdr <> hwaddr nif).
Proof.
  unfold probe_conflict, ip4_addr_eq, ip4_addr_isany_val.
  rewrite orb_true_iff, !andb_true_iff, !negb_true_iff, !Z.eqb_eq, eth_addr_neq_spec.
  tauto.
Qed.

Lemma ongoing_conflict_spec nif hdr a :
  ongoing_conflict nif hdr a = true <->
  sipaddr hdr = ipaddr a /\ shwaddr hdr <> hwaddr nif.
Proof.
  unfold ongoing_conflict, ip4_addr_eq.
  rewrite andb_true_iff, negb_true_iff, Z.eqb_eq, eth_addr_neq_spec. tauto.
Qed.

Lemma restart_below cfg a :
  u16 (num_conflicts a + 1) < MAX_CONFLICTS cfg ->
  acd_restart cfg a =
  (tt,
   set_state ACD_STATE_OFF (set_num_conflicts (u16 (num_conflicts a + 1)) a),
   [Obs (conflict_callback (acd_conflict_callback a) ACD_DECLINE)
        (set_num_conflicts (u16 (num_conflicts a + 1)) a);
    Obs (conflict_callback (acd_conflict_callback a) ACD_RESTART_CLIENT)
        (set_state ACD_STATE_OFF (set_num_conflicts (u16 (num_conflicts a + 1)) a))]).
Proof.
  intros H. open_acd a. run_M; zbool; [lia | reflexivity].
Qed.

Lemma restart_limit cfg a :
  MAX_CONFLICTS cfg <= u16 (num_conflicts a + 1) ->
  acd_restart cfg a =
  (tt,
   set_ttw (u16 (RATE_LIMIT_INTERVAL cfg * ACD_TICKS_PER_SECOND cfg))
     (set_state ACD_STATE_RATE_LIMIT
        (set_num_conflicts (u16 (num_conflicts a + 1)) a)),
   [Obs (conflict_callback (acd_conflict_callback a) ACD_DECLINE)
        (set_num_conflicts (u16 (num_conflicts a + 1)) a)]).
Proof.
  intros H. open_acd a. run_M; zbool; [reflexivity | lia].
Qed.

Lemma arp_probe_phase cfg nif hdr a :
  state a = ACD_STATE_PROBE_WAIT \/ state a = ACD_STATE_PROBING \/
  state a = ACD_STATE_ANNOUNCE_WAIT ->
  acd_arp_reply_one cfg nif hdr a =
  if probe_conflict nif hdr a
  then (tt, exec (acd_restart cfg) a,
        Obs (CipTcpIpSetLastAcdMac (shwaddr hdr)) a ::
        Obs (CipTcpIpSetLastAcdRawData (etharp_hdr_raw hdr) SIZEOF_ETHARP_HDR) a ::
        log (acd_restart cfg) a)
  else (tt, a, []).
Proof.
  intros Hst. open_acd a.
  destruct Hst as [-> | [-> | ->]];
    destruct (probe_conflict _ _ _) eqn:E;
    unfold acd_arp_reply_one; cbv beta iota zeta delta [mbind M_bind get fst snd state];
    rewrite E; cbn; try reflexivity; unfold exec, log;
    destruct (acd_restart cfg _) as [[[] ?] ?]; reflexivity.
Qed.

Lemma arp_ongoing_phase cfg nif hdr a :
  state a = ACD_STATE_ANNOUNCING \/ state a = ACD_STATE_ONGOING \/
  state a = ACD_STATE_PASSIVE_ONGOING ->
  acd_arp_reply_one cfg nif hdr a =
  if ongoing_conflict nif hdr a
  then (tt, exec (acd_handle_arp_conflict cfg) a,
        Obs (CipTcpIpSetLastAcdMac (shwaddr hdr)) a ::
        Obs (CipTcpIpSetLastAcdRawData (etharp_hdr_raw hdr) SIZEOF_ETHARP_HDR) a ::
        log (acd_handle_arp_conflict cfg) a)
  else (tt, a, []).
Proof.
  intros Hst. open_acd a.
  destruct Hst as [-> | [-> | ->]];
    destruct (ongoing_conflict _ _ _) eqn:E;
    unfold acd_arp_reply_one; cbv beta iota zeta delta [mbind M_bind get fst snd state];
    rewrite E; cbn; try reflexivity; unfold exec, log;
    destruct (acd_handle_arp_conflict cfg _) as [[[] ?] ?]; reflexivity.
Qed.

Lemma arp_ignored cfg nif hdr a :
  state a = ACD_STATE_OFF \/ state a = ACD_STATE_RATE_LIMIT ->
  acd_arp_reply_one cfg nif hdr a = (tt, a, []).
Proof. intros Hst. open_acd a. destruct Hst as [-> | ->]; reflexivity. Qed.

Lemma handle_conflict_passive cfg a :
  state a = ACD_STATE_PASSIVE_ONGOING ->
  acd_handle_arp_conflict cfg a =
  (tt, set_state ACD_STATE_OFF a,
   [Obs (conflict_callback (acd_conflict_callback a) ACD_DECLINE)
        (set_state ACD_STATE_OFF a)]).
Proof. intros Hst. open_acd a. subst. reflexivity. Qed.

Lemma handle_conflict_defend cfg a :
  state a = ACD_STATE_ANNOUNCING \/ state a = ACD_STATE_ONGOING ->
  lastconflict a = 0 ->
  acd_handle_arp_conflict cfg a =
  (tt, set_lastconflict (u16 (DEFEND_INTERVAL cfg * ACD_TICKS_PER_SECOND cfg)) a,
   [Obs (etharp_acd_announce (ipaddr a)) a]).
Proof. intros Hst H0. open_acd a. subst. destruct Hst as [-> | ->]; reflexivity. Qed.

Lemma handle_conflict_retreat cfg a :
  state a = ACD_STATE_ANNOUNCING \/ state a = ACD_STATE_ONGOING ->
  0 < lastconflict a ->
  acd_handle_arp_conflict cfg a = acd_restart cfg a.
Proof.
  intros Hst H0. open_acd a.
  assert (E : (lc >? 0) = true) by (rewrite Z.gtb_ltb; now apply Z.ltb_lt).
  destruct Hst as [-> | ->];
    unfold acd_handle_arp_conflict;
    cbv beta iota zeta delta [mbind M_bind get fst snd state lastconflict];
    (destruct (decide _) as [Hd | _]; [discriminate Hd|]); rewrite E;
    destruct (acd_restart cfg _) as [[[] ?] ?]; reflexivity.
Qed.

(** C2: in PROBE_WAIT, PROBING and ANNOUNCE_WAIT a frame is treated as
    a conflict exactly when its sender address is the candidate and its
    sender MAC is not ours, or its sender address is 0.0.0.0, its
    target is the candidate and its sender MAC is not ours.  A frame
    that is no conflict changes nothing and calls nothing.  On a
    conflict the conflict counter is incremented (as a 16 bit
    counter) and the callback gets DECLINE; while the new count is
    below MAX_CONFLICTS the state is then set to OFF and the callback
    gets RESTART_CLIENT, in this order and with nothing else after the
    two capture calls. *)
Theorem probe_phase_conflict cfg nif hdr (a : acd) :
  state a = ACD_STATE_PROBE_WAIT \/ state a = ACD_STATE_PROBING \/
  state a = ACD_STATE_ANNOUNCE_WAIT ->
  let conflict :=
    (sipaddr hdr = ipaddr a /\ shwaddr hdr <> hwaddr nif) \/
    (sipaddr hdr = IPADDR_ANY /\ dipaddr hdr = ipaddr a /\
     shwaddr hdr <> hwaddr nif) in
  let r := acd_arp_reply_one cfg nif hdr a in
  let n' := u16 (num_conflicts a + 1) in
  (probe_conflict nif hdr a = true <-> conflict) /\
  (~ conflict -> r = (tt, a, [])) /\
  (conflict ->
     num_conflicts r.1.2 = n' /\
     (0 <= num_conflicts a < 65535 -> n' = num_conflicts a + 1) /\
     hd_error (callbacks r.2) = Some ACD_DECLINE /\
     (n' < MAX_CONFLICTS cfg ->
        state r.1.2 = ACD_STATE_OFF /\
        callbacks r.2 = [ACD_DECLINE; ACD_RESTART_CLIENT] /\
        r.2 =
        [Obs (CipTcpIpSetLastAcdMac (shwaddr hdr)) a;
         Obs (CipTcpIpSetLastAcdRawData (etharp_hdr_raw hdr) SIZEOF_ETHARP_HDR) a;
         Obs (conflict_callback (acd_conflict_callback a) ACD_DECLINE)
             (set_num_conflicts n' a);
         Obs (conflict_callback (acd_conflict_callback a) ACD_RESTART_CLIENT)
             (set_state ACD_STATE_OFF (set_num_conflicts n' a))])).
Proof.
  intros Hst conflict r n'.
  pose proof (probe_conflict_spec nif hdr a) as Hspec. fold conflict in Hspec.
  pose proof (arp_probe_phase cfg nif hdr a Hst) as Hr. fold r in Hr.
  split; [exact Hspec|]. split.
  - intros Hn. destruct (probe_conflict nif hdr a); [|exact Hr].
    exfalso. apply Hn, Hspec. reflexivity.
  - intros Hc. apply Hspec in Hc. rewrite Hc in Hr. rewrite Hr. cbn [fst snd].
    assert (Hnum : num_conflicts (exec (acd_restart cfg) a) = n').
    { destruct (Z_lt_le_dec n' (MAX_CONFLICTS cfg)) as [Hlt | Hge].
      - unfold exec. rewrite restart_below by exact Hlt. reflexivity.
      - unfold exec. rewrite restart_limit by exact Hge. reflexivity. }
    split; [exact Hnum|]. split.
    { intros Hrange. unfold n'. apply u16_id. lia. }
    split.
    { destruct (Z_lt_le_dec n' (MAX_CONFLICTS cfg)) as [Hlt | Hge].
      - unfold log. rewrite restart_below by exact Hlt. reflexivity.
      - unfold log. rewrite restart_limit by exact Hge. reflexivity. }
    intros Hlt. unfold exec, log. rewrite restart_below by exact Hlt.
    cbn [fst snd]. repeat split.
Qed.

Lemma probe_phase_conflict_witness :
  (state (sample_acd ACD_STATE_PROBING 0 0) = ACD_STATE_PROBE_WAIT \/
   state (sample_acd ACD_STATE_PROBING 0 0) = ACD_STATE_PROBING \/
   state (sample_acd ACD_STATE_PROBING 0 0) = ACD_STATE_ANNOUNCE_WAIT) /\
  state (acd_arp_reply_one default_config sample_netif sample_conflict_hdr
           (sample_acd ACD_STATE_PROBING 0 0)).1.2 = ACD_STATE_OFF /\
  callbacks (acd_arp_reply_one default_config sample_netif sample_conflict_hdr
               (sample_acd ACD_STATE_PROBING 0 0)).2 =
    [ACD_DECLINE; ACD_RESTART_CLIENT].
Proof.
  assert (Hst : state (sample_acd ACD_STATE_PROBING 0 0) = ACD_STATE_PROBE_WAIT \/
                state (sample_acd ACD_STATE_PROBING 0 0) = ACD_STATE_PROBING \/
                state (sample_acd ACD_STATE_PROBING 0 0) = ACD_STATE_ANNOUNCE_WAIT)
    by (right; left; reflexivity).
  split; [exact Hst|].
  pose proof (probe_phase_conflict default_config sample_netif sample_conflict_hdr
                (sample_acd ACD_STATE_PROBING 0 0) Hst) as H.
  cbv zeta in H. destruct H as (_ & _ & H).
  destruct H as (_ & _ & _ & H).
  - left. split; [reflexivity | discriminate].
  - destruct H as (H1 & H2 & _); [vm_compute; reflexivity|].
    split; [exact H1 | exact H2].
Defined.

(** C3: a frame whose sender address is the candidate and whose sender
    MAC is not ours, received in ANNOUNCING or ONGOING: with
    [lastconflict] at 0 exactly one announce for the candidate is sent,
    [lastconflict] becomes DEFEND_INTERVAL in ticks, no callback is
    made and nothing else changes; with [lastconflict] still nonzero
    the restart sequence runs instead (counter incremented, DECLINE,
    then OFF and RESTART_CLIENT below MAX_CONFLICTS, else RATE_LIMIT)
    and no announce is sent.  In PASSIVE_ONGOING the state becomes OFF,
    the callback gets DECLINE and no announce is sent. *)
Theorem ongoing_conflict_defence cfg nif hdr (a : acd) :
  sipaddr hdr = ipaddr a -> shwaddr hdr <> hwaddr nif ->
  0 <= lastconflict a ->
  let r := acd_arp_reply_one cfg nif hdr a in
  let n' := u16 (num_conflicts a + 1) in
  (state a = ACD_STATE_ANNOUNCING \/ state a = ACD_STATE_ONGOING ->
     (lastconflict a = 0 ->
        r.1.2 = set_lastconflict (u16 (DEFEND_INTERVAL cfg * ACD_TICKS_PER_SECOND cfg)) a /\
        state r.1.2 = state a /\
        announces r.2 = [etharp_acd_announce (ipaddr a)] /\
        callbacks r.2 = []) /\
     (lastconflict a <> 0 ->
        r.1.2 = exec (acd_restart cfg) a /\
        num_conflicts r.1.2 = n' /\
        announces r.2 = [] /\
        (n' < MAX_CONFLICTS cfg ->
           state r.1.2 = ACD_STATE_OFF /\
           callbacks r.2 = [ACD_DECLINE; ACD_RESTART_CLIENT]) /\
        (MAX_CONFLICTS cfg <= n' ->
           state r.1.2 = ACD_STATE_RATE_LIMIT /\
           callbacks r.2 = [ACD_DECLINE]))) /\
  (state a = ACD_STATE_PASSIVE_ONGOING ->
     r.1.2 = set_state ACD_STATE_OFF a /\
     callbacks r.2 = [ACD_DECLINE] /\
     announces r.2 = []).
Proof.
  intros Hip Hmac Hlc r n'.
  assert (Hc : ongoing_conflict nif hdr a = true).
  { apply ongoing_conflict_spec. split; assumption. }
  split.
  - intros Hst.
    assert (Hr : r = _) by (apply arp_ongoing_phase; tauto).
    rewrite Hc in Hr. split.
    + intros H0. rewrite Hr. unfold exec, log.
      rewrite handle_conflict_defend by assumption. cbn [fst snd].
      repeat split.
    + intros Hnz. assert (Hpos : 0 < lastconflict a) by lia.
      rewrite Hr. unfold exec, log.
      rewrite handle_conflict_retreat by assumption. cbn [fst snd].
      split; [reflexivity|].
      destruct (Z_lt_le_dec n' (MAX_CONFLICTS cfg)) as [Hlt | Hge].
      * rewrite restart_below by exact Hlt. cbn [fst snd].
        repeat split; intros; try reflexivity; unfold n' in *; lia.
      * rewrite restart_limit by exact Hge. cbn [fst snd].
        repeat split; intros; try reflexivity; unfold n' in *; lia.
  - intros Hst.
    assert (Hr : r = _) by (apply arp_ongoing_phase; tauto).
    rewrite Hc in Hr. rewrite Hr. unfold exec, log.
    rewrite handle_conflict_passive by assumption. cbn [fst snd].
    repeat split.
Qed.

Lemma ongoing_conflict_defence_witness :
  (sipaddr sample_conflict_hdr = ipaddr (sample_acd ACD_STATE_ONGOING 0 0) /\
   shwaddr sample_conflict_hdr <> hwaddr sample_netif /\
   0 <= lastconflict (sample_acd ACD_STATE_ONGOING 0 0)) /\
  state (acd_arp_reply_one default_config sample_netif sample_conflict_hdr
           (sample_acd ACD_STATE_ONGOING 0 0)).1.2 = ACD_STATE_ONGOING /\
  lastconflict (acd_arp_reply_one default_config sample_netif sample_conflict_hdr
                  (sample_acd ACD_STATE_ONGOING 0 0)).1.2 = 100 /\
  announces (acd_arp_reply_one default_config sample_netif sample_conflict_hdr
               (sample_acd ACD_STATE_ONGOING 0 0)).2 =
    [etharp_acd_announce sample_ip].
Proof.
  assert (H1 : sipaddr sample_conflict_hdr =
               ipaddr (sample_acd ACD_STATE_ONGOING 0 0)) by reflexivity.
  assert (H2 : shwaddr sample_conflict_hdr <> hwaddr sample_netif) by discriminate.
  assert (H3 : 0 <= lastconflict (sample_acd ACD_STATE_ONGOING 0 0)) by (cbn; lia).
  split; [auto|].
  pose proof (ongoing_conflict_defence default_config sample_netif
                sample_conflict_hdr (sample_acd ACD_STATE_ONGOING 0 0) H1 H2 H3) as H.
  cbv zeta in H. destruct H as (H & _).
  destruct H as (H & _); [right; reflexivity|].
  destruct H as (Ha & Hb & Hc & _); [reflexivity|].
  split; [exact Hb|]. split; [|exact Hc].
  rewrite Ha. reflexivity.
Defined.

(** ** Rate limiting *)

Lemma feed_app cfg nif l1 : forall l2 a,
  acd_feed cfg nif (l1 ++ l2) a =
  ((acd_feed cfg nif l2 (acd_feed cfg nif l1 a).1).1,
   (acd_feed cfg nif l1 a).2 ++ (acd_feed cfg nif l2 (acd_feed cfg nif l1 a).1).2).
Proof.
  induction l1 as [|i l1 IH]; intros l2 a.
  - cbn. now destruct (acd_feed cfg nif l2 a).
  - cbn [app acd_feed]. rewrite IH. reflexivity.
Qed.

Lemma tick_rate_limit_fire cfg RAND a :
  acd_wf a -> state a = ACD_STATE_RATE_LIMIT -> ttw a <= 1 ->
  acd_tmr_one cfg RAND a =
  (tt,
   set_state ACD_STATE_OFF
     (set_ttw 0 (set_lastconflict (tick_dec (lastconflict a)) a)),
   [Obs (conflict_callback (acd_conflict_callback a) ACD_RESTART_CLIENT)
        (set_state ACD_STATE_OFF
           (set_ttw 0 (set_lastconflict (tick_dec (lastconflict a)) a)))]).
Proof.
  intros Hwf Hst Hle. rewrite tick_eq by assumption.
  assert (tick_dec (ttw a) = 0) as ->.
  { destruct Hwf as (_ & Ht & _). unfold tick_dec.
    destruct (ttw a >? 0) eqn:E; zbool; lia. }
  open_acd a. subst. reflexivity.
Qed.

Lemma rate_limit_feed cfg nif ins : forall a,
  acd_wf a -> state a = ACD_STATE_RATE_LIMIT ->
  Z.of_nat (tick_count ins) < Z.max 1 (ttw a) ->
  let r := acd_feed cfg nif ins a in
  acd_wf r.1 /\ state r.1 = ACD_STATE_RATE_LIMIT /\
  ttw r.1 = ttw a - Z.of_nat (tick_count ins) /\
  acd_conflict_callback r.1 = acd_conflict_callback a /\
  concat r.2 = [].
Proof.
  induction ins as [|i ins IH]; intros a Hwf Hst Hlt.
  - cbn. repeat split; try apply Hwf; try assumption. lia.
  - destruct i as [rnd | hdr].
    + change (tick_count (Tick rnd :: ins)) with (S (tick_count ins)) in *.
      cbn [acd_feed acd_input].
      assert (H2 : 2 <= ttw a) by lia.
      rewrite tick_idle by assumption. cbn [fst snd].
      set (a1 := set_ttw _ _).
      assert (Hwf1 : acd_wf a1).
      { destruct Hwf as (Hs & Ht & Hl & Hn). unfold a1, acd_wf. cbn.
        pose proof (tick_dec_range _ Hl). repeat split; lia. }
      specialize (IH a1 Hwf1 Hst). cbv zeta in IH.
      destruct IH as (E1 & E2 & E3 & E4 & E5).
      { unfold a1. cbn. lia. }
      cbv zeta. cbn [fst snd concat app]. rewrite E3, E4.
      unfold a1. cbn. repeat split; try assumption; try apply E1. lia.
    + change (tick_count (Arp hdr :: ins)) with (tick_count ins) in *.
      cbn [acd_feed acd_input]. rewrite arp_ignored by (right; exact Hst).
      cbn [fst snd]. specialize (IH a Hwf Hst Hlt). cbv zeta in IH.
      cbv zeta. cbn [concat app]. exact IH.
Qed.

(** C4: when a restart brings the conflict counter to MAX_CONFLICTS or
    more, the context enters RATE_LIMIT with [ttw] set to
    RATE_LIMIT_INTERVAL in ticks and only DECLINE is delivered.  Fed
    with any mix of timer ticks and ARP frames, it stays in RATE_LIMIT
    and makes no call at all as long as fewer ticks than that count
    (at least one) have arrived; the tick that completes the count sets
    the state to OFF and delivers RESTART_CLIENT, and nothing else. *)
Theorem rate_limit_interval cfg nif (a : acd) :
  acd_wf a ->
  MAX_CONFLICTS cfg <= u16 (num_conflicts a + 1) ->
  let b := exec (acd_restart cfg) a in
  let k := u16 (RATE_LIMIT_INTERVAL cfg * ACD_TICKS_PER_SECOND cfg) in
  state b = ACD_STATE_RATE_LIMIT /\
  ttw b = k /\
  callbacks (log (acd_restart cfg) a) = [ACD_DECLINE] /\
  (forall ins, Z.of_nat (tick_count ins) < Z.max 1 k ->
     state (acd_feed cfg nif ins b).1 = ACD_STATE_RATE_LIMIT /\
     concat (acd_feed cfg nif ins b).2 = []) /\
  (forall ins rnd, Z.of_nat (tick_count ins) = Z.max 1 k - 1 ->
     state (acd_feed cfg nif (ins ++ [Tick rnd]) b).1 = ACD_STATE_OFF /\
     callbacks (concat (acd_feed cfg nif (ins ++ [Tick rnd]) b).2) =
       [ACD_RESTART_CLIENT] /\
     calls (concat (acd_feed cfg nif (ins ++ [Tick rnd]) b).2) =
       [conflict_callback (acd_conflict_callback a) ACD_RESTART_CLIENT]).
Proof.
  intros Hwf Hmax b k.
  assert (Hb : b = set_ttw k (set_state ACD_STATE_RATE_LIMIT
                 (set_num_conflicts (u16 (num_conflicts a + 1)) a))).
  { unfold b, exec. rewrite restart_limit by exact Hmax. reflexivity. }
  assert (Hwfb : acd_wf b).
  { rewrite Hb. destruct Hwf as (Hs & Ht & Hl & Hn). unfold acd_wf. cbn.
    repeat split; try apply u16_range; lia. }
  assert (Hstb : state b = ACD_STATE_RATE_LIMIT) by (rewrite Hb; reflexivity).
  assert (Httw : ttw b = k) by (rewrite Hb; reflexivity).
  split; [exact Hstb|]. split; [exact Httw|]. split.
  { unfold log. rewrite restart_limit by exact Hmax. reflexivity. }
  split.
  - intros ins Hlt.
    pose proof (rate_limit_feed cfg nif ins b Hwfb Hstb) as H.
    rewrite Httw in H. specialize (H Hlt). cbv zeta in H. tauto.
  - intros ins rnd Hcnt.
    pose proof (rate_limit_feed cfg nif ins b Hwfb Hstb) as H.
    rewrite Httw in H. cbv zeta in H.
    destruct H as (W1 & W2 & W3 & W4 & W5); [lia|].
    rewrite feed_app. cbn [fst snd acd_feed acd_input].
    rewrite tick_rate_limit_fire by (try assumption; lia).
    cbn [fst snd]. rewrite concat_app, W5. cbn [app concat].
    rewrite W4, Hb. repeat split.
Qed.

Lemma rate_limit_interval_witness :
  (acd_wf (sample_acd ACD_STATE_PROBING 0 9) /\
   MAX_CONFLICTS default_config <=
     u16 (num_conflicts (sample_acd ACD_STATE_PROBING 0 9) + 1)) /\
  state (exec (acd_restart default_config) (sample_acd ACD_STATE_PROBING 0 9)) =
    ACD_STATE_RATE_LIMIT /\
  ttw (exec (acd_restart default_config) (sample_acd ACD_STATE_PROBING 0 9)) = 600 /\
  state (acd_feed default_config sample_netif
           [Tick (fun _ => 3); Arp sample_conflict_hdr; Tick (fun _ => 4)]
           (exec (acd_restart default_config)
                 (sample_acd ACD_STATE_PROBING 0 9))).1 =
    ACD_STATE_RATE_LIMIT.
Proof.
  assert (Hwf : acd_wf (sample_acd ACD_STATE_PROBING 0 9))
    by (unfold acd_wf; cbn; lia).
  assert (Hmax : MAX_CONFLICTS default_config <=
                 u16 (num_conflicts (sample_acd ACD_STATE_PROBING 0 9) + 1))
    by (vm_compute; discriminate).
  split; [split; assumption|].
  pose proof (rate_limit_interval default_config sample_netif
                (sample_acd ACD_STATE_PROBING 0 9) Hwf Hmax) as H.
  cbv zeta in H. destruct H as (H1 & H2 & _ & H4 & _).
  split; [exact H1|]. split; [exact H2|].
  apply H4. vm_compute. reflexivity.
Defined.

(** ** Jitter *)

Lemma ms_to_ticks_range cfg ms : 0 <= OPENER_ACD_MS_TO_TICKS cfg ms < 65536.
Proof.
  unfold OPENER_ACD_MS_TO_TICKS. destruct (ms =? 0); [lia | apply u16_range].
Qed.

Lemma probe_wait_modulus_pos cfg : 0 < probe_wait_modulus cfg.
Proof.
  unfold probe_wait_modulus.
  destruct (OPENER_ACD_PROBE_WAIT_TICKS cfg >? 0) eqn:E; zbool; lia.
Qed.

Lemma start_eq cfg RAND ip a :
  acd_start cfg RAND ip a =
  (ERR_OK,
   Acd ip ACD_STATE_PROBE_WAIT 0
       (u16 (ACD_RANDOM_PROBE_WAIT cfg
               (RAND (Acd ip ACD_STATE_PROBE_WAIT 0 (ttw a) 0 (num_conflicts a)
                          (acd_conflict_callback a)))))
       0 (num_conflicts a) (acd_conflict_callback a),
   []).
Proof. open_acd a. reflexivity. Qed.

(** C9: the built-in random source depends on nothing but the
    interface's hardware address and the context's [sent_num], and so
    do the initial wait and the probe interval derived from it; the
    divisor of the [%] in the initial wait is strictly positive for
    every configuration, the divisor of the [%] in the probe interval
    is strictly positive whenever that [%] is evaluated, on these
    operands C's [%] is the mathematical remainder, and a configured
    probe wait of 0 ms gives an initial wait of 0 ticks without any
    [%]. *)
Theorem random_wait_safe cfg nif nif' (a a' : acd) :
  hwaddr nif = hwaddr nif' -> sent_num a = sent_num a' ->
  LWIP_ACD_RAND nif a = LWIP_ACD_RAND nif' a' /\
  ACD_RANDOM_PROBE_WAIT cfg (LWIP_ACD_RAND nif a) =
    ACD_RANDOM_PROBE_WAIT cfg (LWIP_ACD_RAND nif' a') /\
  ACD_RANDOM_PROBE_INTERVAL cfg (LWIP_ACD_RAND nif a) =
    ACD_RANDOM_PROBE_INTERVAL cfg (LWIP_ACD_RAND nif' a') /\
  (forall ip ip',
     ttw (exec (acd_start cfg (LWIP_ACD_RAND nif) ip) a) =
     ttw (exec (acd_start cfg (LWIP_ACD_RAND nif') ip') a')) /\
  0 < probe_wait_modulus cfg /\
  (OPENER_ACD_PROBE_MAX_TICKS cfg > OPENER_ACD_PROBE_MIN_TICKS cfg ->
     0 < probe_interval_modulus cfg) /\
  (forall rnd,
     u32 rnd mod probe_wait_modulus cfg = Z.rem (u32 rnd) (probe_wait_modulus cfg)) /\
  (forall rnd,
     OPENER_ACD_PROBE_MAX_TICKS cfg > OPENER_ACD_PROBE_MIN_TICKS cfg ->
     u32 rnd mod probe_interval_modulus cfg =
       Z.rem (u32 rnd) (probe_interval_modulus cfg)) /\
  (CONFIG_OPENER_ACD_PROBE_WAIT_MS cfg = 0 ->
     forall RAND ip,
       ACD_RANDOM_PROBE_WAIT cfg (RAND a) = 0 /\
       ttw (exec (acd_start cfg RAND ip) a) = 0).
Proof.
  intros Hhw Hsn.
  assert (Hr : LWIP_ACD_RAND nif a = LWIP_ACD_RAND nif' a').
  { unfold LWIP_ACD_RAND. now rewrite Hhw, Hsn. }
  pose proof (probe_wait_modulus_pos cfg) as Hpos.
  split; [exact Hr|]. split; [now rewrite Hr|]. split; [now rewrite Hr|].
  split.
  { intros ip ip'. unfold exec. rewrite !start_eq. cbn [fst snd ttw].
    unfold LWIP_ACD_RAND. cbn [sent_num]. now rewrite Hhw. }
  split; [exact Hpos|]. split.
  { unfold probe_interval_modulus. lia. }
  split.
  { intros rnd. symmetry. apply Z.rem_mod_nonneg; [apply u32_range | exact Hpos]. }
  split.
  { intros rnd Hgt. symmetry. apply Z.rem_mod_nonneg; [apply u32_range|].
    unfold probe_interval_modulus. lia. }
  intros H0 RAND ip.
  assert (E : forall r, ACD_RANDOM_PROBE_WAIT cfg r = 0).
  { intros r. unfold ACD_RANDOM_PROBE_WAIT. now rewrite H0. }
  split; [apply E|].
  unfold exec. rewrite start_eq. cbn [fst snd ttw]. now rewrite E.
Qed.

Lemma random_wait_safe_witness :
  (hwaddr sample_netif = hwaddr (Netif (hwaddr sample_netif) []) /\
   sent_num (sample_acd ACD_STATE_PROBING 0 0) =
   sent_num (sample_acd ACD_STATE_OFF 3 4)) /\
  LWIP_ACD_RAND sample_netif (sample_acd ACD_STATE_PROBING 0 0) =
  LWIP_ACD_RAND (Netif (hwaddr sample_netif) []) (sample_acd ACD_STATE_OFF 3 4) /\
  0 < probe_wait_modulus default_config.
Proof.
  split; [split; reflexivity|].
  pose proof (random_wait_safe default_config sample_netif
                (Netif (hwaddr sample_netif) [])
                (sample_acd ACD_STATE_PROBING 0 0) (sample_acd ACD_STATE_OFF 3 4)
                eq_refl eq_refl) as H.
  destruct H as (H1 & _ & _ & _ & H5 & _).
  split; [exact H1 | exact H5].
Defined.

(** ** What each operation does to the conflict counter *)

Lemma countdown_log a : log acd_tmr_countdown a = [].
Proof. open_acd a. run_M; reflexivity. Qed.

Lemma countdown_frame a :
  let d := exec acd_tmr_countdown a in
  ipaddr d = ipaddr a /\ state d = state a /\ sent_num d = sent_num a /\
  num_conflicts d = num_conflicts a /\
  acd_conflict_callback d = acd_conflict_callback a.
Proof. open_acd a. run_M; repeat split. Qed.

Lemma tick_split cfg RAND a :
  acd_tmr_one cfg RAND a = acd_tmr_switch cfg RAND (exec acd_tmr_countdown a).
Proof.
  unfold acd_tmr_one. cbv beta iota zeta delta [mbind M_bind].
  pose proof (countdown_log a) as Hl. unfold log in Hl. rewrite Hl.
  unfold exec. cbn [app].
  destruct (acd_tmr_switch _ _ _) as [[[] a'] t]. reflexivity.
Qed.

Lemma switch_num_conflicts cfg RAND a :
  num_conflicts (exec (acd_tmr_switch cfg RAND) a) = num_conflicts a \/
  (num_conflicts (exec (acd_tmr_switch cfg RAND) a) = 0 /\
   (state a = ACD_STATE_ANNOUNCE_WAIT \/ state a = ACD_STATE_ANNOUNCING) /\
   sent_num a = 0 /\
   exists s rest,
     log (acd_tmr_switch cfg RAND) a = Obs (etharp_acd_announce (ipaddr a)) s :: rest /\
     state s = ACD_STATE_ANNOUNCING /\ num_conflicts s = 0).
Proof.
  open_acd a.
  destruct (CONFIG_OPENER_ACD_PERIODIC_DEFEND_INTERVAL_MS cfg) eqn:EP;
    destruct st; run_M; try rewrite EP; run_M; zbool; cbn;
    try (left; reflexivity);
    right; (split; [reflexivity|]); (split; [tauto|]); (split; [assumption|]);
    eexists; eexists; (split; [reflexivity|]); split; reflexivity.
Qed.

Lemma restart_num_conflicts cfg a :
  num_conflicts (exec (acd_restart cfg) a) = u16 (num_conflicts a + 1).
Proof.
  destruct (Z_lt_le_dec (u16 (num_conflicts a + 1)) (MAX_CONFLICTS cfg)) as [H | H];
    unfold exec; [rewrite restart_below | rewrite restart_limit]; auto.
Qed.

Lemma arp_num_conflicts cfg nif hdr a :
  num_conflicts (exec (acd_arp_reply_one cfg nif hdr) a) = num_conflicts a \/
  num_conflicts (exec (acd_arp_reply_one cfg nif hdr) a) = u16 (num_conflicts a + 1).
Proof.
  destruct (state a) eqn:Hst; unfold exec.
  - rewrite arp_ignored by tauto. now left.
  - rewrite arp_probe_phase by tauto.
    destruct (probe_conflict nif hdr a); [right; apply restart_num_conflicts | now left].
  - rewrite arp_probe_phase by tauto.
    destruct (probe_conflict nif hdr a); [right; apply restart_num_conflicts | now left].
  - rewrite arp_probe_phase by tauto.
    destruct (probe_conflict nif hdr a); [right; apply restart_num_conflicts | now left].
  - rewrite arp_ongoing_phase by tauto.
    destruct (ongoing_conflict nif hdr a); [|now left]. cbn [fst snd].
    destruct (Z_lt_le_dec 0 (lastconflict a)) as [Hl | Hl].
    + unfold exec. rewrite handle_conflict_retreat by tauto.
      right. apply restart_num_conflicts.
    + left. open_acd a. subst. run_M; zbool; try lia; reflexivity.
  - rewrite arp_ongoing_phase by tauto.
    destruct (ongoing_conflict nif hdr a); [|now left]. cbn [fst snd].
    destruct (Z_lt_le_dec 0 (lastconflict a)) as [Hl | Hl].
    + unfold exec. rewrite handle_conflict_retreat by tauto.
      right. apply restart_num_conflicts.
    + left. open_acd a. subst. run_M; zbool; try lia; reflexivity.
  - rewrite arp_ongoing_phase by tauto.
    destruct (ongoing_conflict nif hdr a); [|now left]. cbn [fst snd].
    unfold exec. rewrite handle_conflict_passive by assumption. now left.
  - rewrite arp_ignored by tauto. now left.
Qed.

Lemma cycles_accumulate cfg nif RAND ip hdr k : forall a,
  sipaddr hdr = ip -> shwaddr hdr <> hwaddr nif ->
  0 <= num_conflicts a -> num_conflicts a + Z.of_nat k < 65536 ->
  num_conflicts (start_conflict_cycles cfg nif RAND ip hdr k a) =
  num_conflicts a + Z.of_nat k.
Proof.
  induction k as [|k IH]; intros a Hip Hmac H0 Hlt.
  - cbn. lia.
  - cbn [start_conflict_cycles].
    set (a1 := exec (acd_start cfg RAND ip) a).
    assert (E1 : a1 = _) by (unfold a1, exec; rewrite start_eq; reflexivity).
    assert (Hc : probe_conflict nif hdr a1 = true).
    { apply probe_conflict_spec. left. rewrite E1. cbn. auto. }
    assert (E2 : num_conflicts (exec (acd_arp_reply_one cfg nif hdr) a1) =
                 num_conflicts a + 1).
    { unfold exec. rewrite arp_probe_phase by (rewrite E1; cbn; tauto).
      rewrite Hc. cbn [fst snd]. rewrite restart_num_conflicts.
      rewrite E1. cbn [num_conflicts]. apply u16_id. lia. }
    rewrite IH; try assumption; rewrite E2; lia.
Qed.

(** C10: [acd_start] sets [sent_num] and [lastconflict] to 0, the
    address to the one given, the state to PROBE_WAIT and [ttw] to the
    initial wait; it leaves [num_conflicts] and the callback as they
    were and calls nothing.  Hence rounds of start followed by a
    conflicting frame raise the counter by one each.  No operation on a
    context lowers the counter except the timer branch that sets the
    state to ANNOUNCING (taken from ANNOUNCE_WAIT or ANNOUNCING with
    [sent_num] 0), which sets it to 0 before the first announce goes
    out; every other change is the restart's increment. *)
Theorem acd_start_frame cfg nif RAND ip (a : acd) :
  let a' := exec (acd_start cfg RAND ip) a in
  (sent_num a' = 0 /\ lastconflict a' = 0 /\ ipaddr a' = ip /\
   state a' = ACD_STATE_PROBE_WAIT /\
   ttw a' = u16 (ACD_RANDOM_PROBE_WAIT cfg
                   (RAND (Acd ip ACD_STATE_PROBE_WAIT 0 (ttw a) 0 (num_conflicts a)
                              (acd_conflict_callback a))))) /\
  num_conflicts a' = num_conflicts a /\
  acd_conflict_callback a' = acd_conflict_callback a /\
  log (acd_start cfg RAND ip) a = [] /\
  (forall hdr k,
     sipaddr hdr = ip -> shwaddr hdr <> hwaddr nif ->
     0 <= num_conflicts a -> num_conflicts a + Z.of_nat k < 65536 ->
     num_conflicts (start_conflict_cycles cfg nif RAND ip hdr k a) =
     num_conflicts a + Z.of_nat k) /\
  (forall op x,
     let x' := exec (acd_apply cfg nif op) x in
     num_conflicts x' = num_conflicts x \/
     (num_conflicts x' = u16 (num_conflicts x + 1) /\ exists hdr, op = OpArp hdr) \/
     (num_conflicts x' = 0 /\
      (exists R, op = OpTick R) /\
      (state x = ACD_STATE_ANNOUNCE_WAIT \/ state x = ACD_STATE_ANNOUNCING) /\
      sent_num x = 0 /\
      exists s rest,
        log (acd_apply cfg nif op) x =
          Obs (etharp_acd_announce (ipaddr x)) s :: rest /\
        state s = ACD_STATE_ANNOUNCING /\ num_conflicts s = 0)).
Proof.
  intros a'. unfold a', exec, log. rewrite start_eq. cbn [fst snd].
  split; [repeat split|]. split; [reflexivity|]. split; [reflexivity|].
  split; [reflexivity|]. split.
  { intros hdr k. apply cycles_accumulate. }
  intros op x. destruct op as [R i | | R | hdr |].
  - left. unfold exec. cbn [acd_apply]. cbv beta iota zeta delta [mbind M_bind mret M_ret].
    rewrite start_eq. reflexivity.
  - left. open_acd x. reflexivity.
  - cbn [acd_apply]. unfold exec, log. rewrite tick_split.
    pose proof (countdown_frame x) as Hf. cbv zeta in Hf.
    destruct Hf as (F1 & F2 & F3 & F4 & F5).
    destruct (switch_num_conflicts cfg R (exec acd_tmr_countdown x))
      as [H | (H1 & H2 & H3 & s & rest & H4 & H5 & H6)].
    + left. unfold exec in H at 1. rewrite H. exact F4.
    + right. right. unfold exec in H1 at 1. split; [exact H1|].
      split; [eauto|]. rewrite F2 in H2. rewrite F3 in H3.
      split; [exact H2|]. split; [exact H3|].
      exists s, rest. unfold log in H4. rewrite H4, F1. auto.
  - cbn [acd_apply]. destruct (arp_num_conflicts cfg nif hdr x) as [H | H].
    + now left.
    + right. left. split; [exact H | eauto].
  - left. open_acd x. destruct st; reflexivity.
Qed.

Lemma acd_start_frame_witness :
  (sipaddr sample_conflict_hdr = sample_ip /\
   shwaddr sample_conflict_hdr <> hwaddr sample_netif /\
   0 <= num_conflicts (sample_acd ACD_STATE_OFF 0 4) /\
   num_conflicts (sample_acd ACD_STATE_OFF 0 4) + Z.of_nat 3 < 65536) /\
  num_conflicts
    (exec (acd_start default_config (LWIP_ACD_RAND sample_netif) sample_ip)
          (sample_acd ACD_STATE_OFF 0 4)) = 4 /\
  num_conflicts
    (start_conflict_cycles default_config sample_netif (LWIP_ACD_RAND sample_netif)
       sample_ip sample_conflict_hdr 3 (sample_acd ACD_STATE_OFF 0 4)) = 7.
Proof.
  assert (H1 : sipaddr sample_conflict_hdr = sample_ip) by reflexivity.
  assert (H2 : shwaddr sample_conflict_hdr <> hwaddr sample_netif) by discriminate.
  assert (H3 : 0 <= num_conflicts (sample_acd ACD_STATE_OFF 0 4)) by (cbn; lia).
  assert (H4 : num_conflicts (sample_acd ACD_STATE_OFF 0 4) + Z.of_nat 3 < 65536)
    by (cbn; lia).
  split; [auto|].
  pose proof (acd_start_frame default_config sample_netif
                (LWIP_ACD_RAND sample_netif) sample_ip
                (sample_acd ACD_STATE_OFF 0 4)) as H.
  cbv zeta in H. destruct H as (_ & Hn & _ & _ & Hc & _).
  split; [exact Hn|].
  rewrite (Hc sample_conflict_hdr 3%nat H1 H2 H3 H4). reflexivity.
Defined.

(** ** Loops over the registry *)

Lemma acd_on_list_spec p l : acd_on_list p l = true <-> p ∈ l.
Proof.
  induction l as [|q l IH]; cbn.
  - split; [discriminate | intros H; inversion H].
  - destruct (decide (q = p)) as [-> | Hne].
    + split; [intros _; left | reflexivity].
    + rewrite IH. rewrite elem_of_cons. split; [tauto|].
      intros [-> | H]; [congruence | exact H].
Qed.

Lemma ctx_log_ext body (mem mem' : gmap acd_ptr acd) l :
  (forall q, q ∈ l -> mem' !! q = mem !! q) ->
  map (ctx_log body mem') l = map (ctx_log body mem) l.
Proof.
  induction l as [|q l IH]; intros H; [reflexivity|].
  cbn [map]. f_equal.
  - unfold ctx_log. rewrite H; [reflexivity | left].
  - apply IH. intros q' Hq'. apply H. now right.
Qed.

Lemma foreach_spec body l : forall (mem : gmap acd_ptr acd),
  NoDup l -> (forall p, p ∈ l -> is_Some (mem !! p)) ->
  exists mem' : gmap acd_ptr acd,
    acd_foreach body l mem = Some (mem', concat (map (ctx_log body mem) l)) /\
    (forall p a, p ∈ l -> mem !! p = Some a -> mem' !! p = Some (exec body a)) /\
    (forall p, p ∉ l -> mem' !! p = mem !! p).
Proof.
  induction l as [|p l IH]; intros mem Hnd Hall.
  - exists mem. cbn. split; [reflexivity|]. split; [|reflexivity].
    intros p a Hp. inversion Hp.
  - apply NoDup_cons in Hnd as [Hp Hnd].
    destruct (Hall p) as [a Ha]; [left|].
    set (mem1 := <[p := exec body a]> mem).
    assert (Hsame : forall q, q ∈ l -> mem1 !! q = mem !! q).
    { intros q Hq. unfold mem1. apply lookup_insert_ne. intros ->. contradiction. }
    destruct (IH mem1 Hnd) as (mem' & E & Hin & Hout).
    { intros q Hq. rewrite Hsame by exact Hq. apply Hall. now right. }
    exists mem'. split; [|split].
    + cbn [acd_foreach]. unfold on_ctx. rewrite Ha. cbn.
      fold (exec body a). fold mem1. rewrite E. cbn.
      rewrite (ctx_log_ext body mem mem1 l Hsame).
      unfold ctx_log at 2. rewrite Ha. reflexivity.
    + intros q b Hq Hb. apply elem_of_cons in Hq as [-> | Hq].
      * rewrite Hout by exact Hp. unfold mem1. rewrite lookup_insert_eq.
        congruence.
      * apply Hin; [exact Hq|]. now rewrite Hsame.
    + intros q Hq. apply not_elem_of_cons in Hq as [Hne Hq].
      rewrite Hout by exact Hq. unfold mem1. now apply lookup_insert_ne.
Qed.

Lemma log_of_other body (mem : gmap acd_ptr acd) p q :
  q <> p -> log_of p (ctx_log body mem q) = [].
Proof.
  intros Hne. unfold ctx_log, log_of. destruct (mem !! q) as [a|]; [|reflexivity].
  induction (log body a) as [|o t IH]; [reflexivity|].
  cbn [map List.filter fst].
  rewrite bool_decide_eq_false_2 by exact Hne. exact IH.
Qed.

Lemma log_of_self body (mem : gmap acd_ptr acd) p a :
  mem !! p = Some a -> log_of p (ctx_log body mem p) = map (pair p) (log body a).
Proof.
  intros Ha. unfold ctx_log, log_of. rewrite Ha.
  induction (log body a) as [|o t IH]; [reflexivity|].
  cbn [map List.filter fst].
  rewrite bool_decide_eq_true_2 by reflexivity. now rewrite IH.
Qed.

Lemma log_of_foreach body (mem : gmap acd_ptr acd) l p a :
  NoDup l -> p ∈ l -> mem !! p = Some a ->
  log_of p (concat (map (ctx_log body mem) l)) = map (pair p) (log body a).
Proof.
  intros Hnd Hp Ha. induction l as [|q l IH]; [inversion Hp|].
  apply NoDup_cons in Hnd as [Hq Hnd]. cbn [map concat].
  unfold log_of. rewrite List.filter_app. fold (log_of p (ctx_log body mem q)).
  fold (log_of p (concat (map (ctx_log body mem) l))).
  apply elem_of_cons in Hp as [-> | Hp].
  - rewrite (log_of_self body mem q a Ha).
    assert (E : log_of q (concat (map (ctx_log body mem) l)) = []).
    { clear IH. induction l as [|r l IHl]; [reflexivity|].
      cbn [map concat]. unfold log_of. rewrite List.filter_app.
      fold (log_of q (ctx_log body mem r)).
      fold (log_of q (concat (map (ctx_log body mem) l))).
      apply not_elem_of_cons in Hq as [Hne Hq].
      apply NoDup_cons in Hnd as [_ Hnd].
      rewrite log_of_other by congruence. rewrite IHl by assumption. reflexivity. }
    rewrite E. apply app_nil_r.
  - rewrite log_of_other by (intros ->; contradiction).
    rewrite IH by assumption. reflexivity.
Qed.

(** The interface-wide entry points act on each listed context as
    their loop body does on that context alone, and on nothing else. *)
Lemma acd_tmr_registry cfg RAND w :
  registry_ok w ->
  exists w',
    acd_tmr cfg RAND w =
      Some (w', concat (map (ctx_log (acd_tmr_one cfg RAND) (w_mem w))
                            (acd_list (w_netif w)))) /\
    w_netif w' = w_netif w /\
    (forall p a, p ∈ acd_list (w_netif w) -> w_mem w !! p = Some a ->
       w_mem w' !! p = Some (exec (acd_tmr_one cfg RAND) a)) /\
    (forall p, p ∉ acd_list (w_netif w) -> w_mem w' !! p = w_mem w !! p).
Proof.
  intros [Hnd Hall].
  destruct (foreach_spec (acd_tmr_one cfg RAND) _ (w_mem w) Hnd Hall)
    as (mem' & E & Hin & Hout).
  exists (World (w_netif w) mem'). unfold acd_tmr. rewrite E. cbn. auto.
Qed.

Lemma acd_arp_reply_registry cfg w hdr :
  registry_ok w ->
  exists w',
    acd_arp_reply cfg w hdr =
      Some (w', concat (map (ctx_log (acd_arp_reply_one cfg (w_netif w) hdr) (w_mem w))
                            (acd_list (w_netif w)))) /\
    w_netif w' = w_netif w /\
    (forall p a, p ∈ acd_list (w_netif w) -> w_mem w !! p = Some a ->
       w_mem w' !! p = Some (exec (acd_arp_reply_one cfg (w_netif w) hdr) a)) /\
    (forall p, p ∉ acd_list (w_netif w) -> w_mem w' !! p = w_mem w !! p).
Proof.
  intros [Hnd Hall].
  destruct (foreach_spec (acd_arp_reply_one cfg (w_netif w) hdr) _ (w_mem w) Hnd Hall)
    as (mem' & E & Hin & Hout).
  exists (World (w_netif w) mem'). unfold acd_arp_reply. rewrite E. cbn. auto.
Qed.

Lemma link_down_stops_all w :
  registry_ok w ->
  exists w',
    acd_network_changed_link_down w = Some w' /\
    w_netif w' = w_netif w /\
    (forall p a, p ∈ acd_list (w_netif w) -> w_mem w !! p = Some a ->
       w_mem w' !! p = Some (set_state ACD_STATE_OFF a)).
Proof.
  intros [Hnd Hall].
  destruct (foreach_spec (acd_stop;; mret tt) _ (w_mem w) Hnd Hall)
    as (mem' & E & Hin & _).
  exists (World (w_netif w) mem'). unfold acd_network_changed_link_down.
  rewrite E. cbn. split; [reflexivity|]. split; [reflexivity|].
  intros p a Hp Ha. now rewrite (Hin p a Hp Ha).
Qed.

(** [acd_add] keeps the registry well formed. *)
Lemma acd_add_registry_ok w p cb w' e :
  registry_ok w -> acd_add w p cb = Some (e, w') -> registry_ok w'.
Proof.
  intros [Hnd Hall]. unfold acd_add.
  destruct (w_mem w !! p) as [a|] eqn:Ha; [|discriminate]. cbn.
  destruct (acd_on_list p (acd_list (w_netif w))) eqn:Hon;
    intros E; injection E as <- <-; split; cbn.
  - exact Hnd.
  - intros q Hq. destruct (decide (q = p)) as [-> | Hne].
    + rewrite lookup_insert_eq. eauto.
    + rewrite lookup_insert_ne by congruence. now apply Hall.
  - apply NoDup_cons. split; [|exact Hnd].
    intros Hp. apply acd_on_list_spec in Hp. congruence.
  - intros q Hq. destruct (decide (q = p)) as [-> | Hne].
    + rewrite lookup_insert_eq. eauto.
    + rewrite lookup_insert_ne by congruence. apply Hall.
      apply elem_of_cons in Hq as [-> | Hq]; [congruence | exact Hq].
Qed.

(** ** Misuse of the registry interface *)

Lemma acd_add_listed w p cb a :
  w_mem w !! p = Some a -> p ∈ acd_list (w_netif w) ->
  acd_add w p cb =
  Some (ERR_OK, World (w_netif w) (<[p := set_acd_conflict_callback cb a]> (w_mem w))).
Proof.
  intros Ha Hp. unfold acd_add. rewrite Ha. cbn.
  apply acd_on_list_spec in Hp. now rewrite Hp.
Qed.

Lemma acd_stop_at_eq w p a :
  w_mem w !! p = Some a ->
  acd_stop_at w (Some p) =
  Some (ERR_OK, World (w_netif w) (<[p := set_state ACD_STATE_OFF a]> (w_mem w))).
Proof. intros Ha. unfold acd_stop_at, on_ctx. rewrite Ha. reflexivity. Qed.

Lemma sample_world_ok : registry_ok sample_world.
Proof.
  split; cbn.
  - apply NoDup_singleton.
  - intros p Hp. apply list_elem_of_singleton in Hp as ->.
    rewrite lookup_singleton_eq. eauto.
Qed.

Lemma ll_world_ok : registry_ok ll_world.
Proof.
  split; cbn.
  - apply NoDup_singleton.
  - intros p Hp. apply list_elem_of_singleton in Hp as ->.
    rewrite lookup_singleton_eq. eauto.
Qed.

(** C6, as the code has it: adding a context that is already listed
    and stopping a context that is not listed both return ERR_OK (no
    error is reported) and neither fails.  The duplicate add leaves the
    list and every other context alone and only stores the callback it
    was given in the context; the stop leaves the list and every
    listed context alone and sets the state of the context it was
    given to OFF; stopping NULL changes nothing. *)
Theorem registry_misuse_is_accepted w p cb (a : acd) :
  w_mem w !! p = Some a ->
  (p ∈ acd_list (w_netif w) ->
     exists w',
       acd_add w p cb = Some (ERR_OK, w') /\
       w_netif w' = w_netif w /\
       w_mem w' !! p = Some (set_acd_conflict_callback cb a) /\
       (forall q, q <> p -> w_mem w' !! q = w_mem w !! q) /\
       (acd_conflict_callback a = cb -> w' = w)) /\
  (p ∉ acd_list (w_netif w) ->
     exists w',
       acd_stop_at w (Some p) = Some (ERR_OK, w') /\
       w_netif w' = w_netif w /\
       w_mem w' !! p = Some (set_state ACD_STATE_OFF a) /\
       (forall q, q ∈ acd_list (w_netif w) -> w_mem w' !! q = w_mem w !! q)) /\
  acd_stop_at w None = Some (ERR_OK, w).
Proof.
  intros Ha. split; [|split].
  - intros Hp. eexists. split; [apply (acd_add_listed w p cb a Ha Hp)|].
    cbn. split; [reflexivity|]. split; [apply lookup_insert_eq|]. split.
    + intros q Hq. apply lookup_insert_ne. congruence.
    + intros Hcb. destruct w as [nif mem]. cbn in *. f_equal.
      apply insert_id. rewrite Ha. f_equal. open_acd a. subst. reflexivity.
  - intros Hp. eexists. split; [apply (acd_stop_at_eq w p a Ha)|].
    cbn. split; [reflexivity|]. split; [apply lookup_insert_eq|].
    intros q Hq. apply lookup_insert_ne. intros ->. contradiction.
  - reflexivity.
Qed.

Lemma registry_misuse_is_accepted_witness :
  (w_mem sample_world !! 1%positive = Some (sample_acd ACD_STATE_ONGOING 0 0) /\
   1%positive ∈ acd_list (w_netif sample_world)) /\
  exists w', acd_add sample_world 1%positive 7%positive = Some (ERR_OK, w') /\
             w' = sample_world.
Proof.
  assert (H1 : w_mem sample_world !! 1%positive =
               Some (sample_acd ACD_STATE_ONGOING 0 0))
    by apply lookup_singleton_eq.
  assert (H2 : 1%positive ∈ acd_list (w_netif sample_world)) by (cbn; left).
  split; [split; assumption|].
  destruct (registry_misuse_is_accepted sample_world 1%positive 7%positive _ H1)
    as (H & _).
  destruct (H H2) as (w' & E & _ & _ & _ & Hid).
  exists w'. split; [exact E | apply Hid; reflexivity].
Defined.

(** C6 as stated fails: on [misuse_world] a second [acd_add] of the
    listed context 1 and an [acd_stop] of the unlisted context 2 both
    return ERR_OK, and the stop changes the context it was given. *)
Lemma registry_misuse_returns_ok :
  (exists w', acd_add misuse_world 1%positive 9%positive = Some (ERR_OK, w') /\
              w' <> misuse_world) /\
  ((2%positive ∉ acd_list (w_netif misuse_world)) /\
   exists w', acd_stop_at misuse_world (Some 2%positive) = Some (ERR_OK, w') /\
              w_mem w' !! 2%positive <> w_mem misuse_world !! 2%positive).
Proof.
  assert (H1 : w_mem misuse_world !! 1%positive =
               Some (sample_acd ACD_STATE_PROBING 0 0)).
  { cbn. rewrite lookup_insert_ne by discriminate. apply lookup_singleton_eq. }
  assert (H2 : w_mem misuse_world !! 2%positive =
               Some (sample_acd ACD_STATE_ONGOING 0 0)).
  { cbn. apply lookup_insert_eq. }
  split.
  - eexists. split; [apply (acd_add_listed _ _ _ _ H1); cbn; left|].
    intros E. apply (f_equal (fun w => w_mem w !! 1%positive)) in E.
    cbn [w_mem] in E. rewrite lookup_insert_eq in E. rewrite H1 in E.
    discriminate E.
  - split.
    + cbn. intros H. apply list_elem_of_singleton in H. discriminate H.
    + eexists. split; [apply (acd_stop_at_eq _ _ _ H2)|].
      cbn [w_mem]. rewrite lookup_insert_eq. rewrite H2. discriminate.
Qed.

(** ** Address changes *)

Lemma addr_changed_body_eq o n a :
  acd_netif_ip_addr_changed_body o n a =
  if ip4_addr_eq (ipaddr a) o && (ip4_addr_islinklocal o && negb (ip4_addr_islinklocal n))
  then acd_put_in_passive_mode a
  else (tt, a, []).
Proof.
  unfold acd_netif_ip_addr_changed_body.
  cbv beta iota zeta delta [mbind M_bind get fst snd when mret M_ret].
  destruct (ip4_addr_eq (ipaddr a) o); [|reflexivity].
  destruct (ip4_addr_islinklocal o && negb (ip4_addr_islinklocal n)); [|reflexivity].
  cbn. now destruct (acd_put_in_passive_mode a) as [[[] ?] ?].
Qed.

Lemma passive_demote a :
  state a = ACD_STATE_ANNOUNCING \/ state a = ACD_STATE_ONGOING ->
  acd_put_in_passive_mode a = (tt, set_state ACD_STATE_PASSIVE_ONGOING a, []).
Proof. intros Hst. open_acd a. destruct Hst as [-> | ->]; reflexivity. Qed.

Lemma passive_stop a :
  state a = ACD_STATE_PROBE_WAIT \/ state a = ACD_STATE_PROBING \/
  state a = ACD_STATE_ANNOUNCE_WAIT ->
  acd_put_in_passive_mode a =
  (tt, set_state ACD_STATE_OFF a,
   [Obs (conflict_callback (acd_conflict_callback a) ACD_DECLINE)
        (set_state ACD_STATE_OFF a)]).
Proof. intros Hst. open_acd a. destruct Hst as [-> | [-> | ->]]; reflexivity. Qed.

Lemma addr_changed_run w o n :
  registry_ok w ->
  ip4_addr_isany_val o = false -> ip4_addr_isany_val n = false ->
  exists w',
    acd_netif_ip_addr_changed w (Some o) (Some n) =
      Some (w', concat (map (ctx_log (acd_netif_ip_addr_changed_body o n) (w_mem w))
                            (acd_list (w_netif w)))) /\
    w_netif w' = w_netif w /\
    (forall p a, p ∈ acd_list (w_netif w) -> w_mem w !! p = Some a ->
       w_mem w' !! p = Some (exec (acd_netif_ip_addr_changed_body o n) a)).
Proof.
  intros [Hnd Hall] Ho Hn.
  destruct (foreach_spec (acd_netif_ip_addr_changed_body o n) _ (w_mem w) Hnd Hall)
    as (mem' & E & Hin & _).
  exists (World (w_netif w) mem'). split; [|split; [reflexivity | exact Hin]].
  unfold acd_netif_ip_addr_changed. cbn [ip_addr_isany]. rewrite Ho, Hn.
  cbn [orb]. rewrite E. reflexivity.
Qed.

(** C5, as the code has it: when the address-changed entry point is
    told of a change from a link-local old address to a new address
    that is not link-local (neither being 0.0.0.0), every listed
    context whose candidate is the old address is demoted to
    PASSIVE_ONGOING, silently, if it was in ANNOUNCING or ONGOING, and
    is set to OFF with callback DECLINE if it was in PROBE_WAIT,
    PROBING or ANNOUNCE_WAIT.  A context demoted in this way answers a
    conflicting frame by going to OFF with DECLINE as its only
    callback and without any announce. *)
Theorem address_change_demotes cfg w o n p (a : acd) :
  registry_ok w ->
  p ∈ acd_list (w_netif w) -> w_mem w !! p = Some a -> ipaddr a = o ->
  o <> IPADDR_ANY -> n <> IPADDR_ANY ->
  ip4_addr_islinklocal o = true -> ip4_addr_islinklocal n = false ->
  exists w' t,
    acd_netif_ip_addr_changed w (Some o) (Some n) = Some (w', t) /\
    (state a = ACD_STATE_ANNOUNCING \/ state a = ACD_STATE_ONGOING ->
       w_mem w' !! p = Some (set_state ACD_STATE_PASSIVE_ONGOING a) /\
       log_of p t = [] /\
       forall hdr,
         sipaddr hdr = o -> shwaddr hdr <> hwaddr (w_netif w) ->
         let r := acd_arp_reply_one cfg (w_netif w) hdr
                    (set_state ACD_STATE_PASSIVE_ONGOING a) in
         state r.1.2 = ACD_STATE_OFF /\
         callbacks r.2 = [ACD_DECLINE] /\
         announces r.2 = []) /\
    (state a = ACD_STATE_PROBE_WAIT \/ state a = ACD_STATE_PROBING \/
     state a = ACD_STATE_ANNOUNCE_WAIT ->
       w_mem w' !! p = Some (set_state ACD_STATE_OFF a) /\
       log_of p t =
         [(p, Obs (conflict_callback (acd_conflict_callback a) ACD_DECLINE)
                  (set_state ACD_STATE_OFF a))]).
Proof.
  intros Hok Hp Ha Hip Ho Hn Hlo Hln.
  assert (Ho' : ip4_addr_isany_val o = false) by (apply Z.eqb_neq; exact Ho).
  assert (Hn' : ip4_addr_isany_val n = false) by (apply Z.eqb_neq; exact Hn).
  destruct (addr_changed_run w o n Hok Ho' Hn') as (w' & E & Hnif & Hin).
  exists w'. eexists. split; [exact E|].
  assert (Hbody : acd_netif_ip_addr_changed_body o n a = acd_put_in_passive_mode a).
  { rewrite addr_changed_body_eq. unfold ip4_addr_eq.
    rewrite Hip, Z.eqb_refl, Hlo, Hln. reflexivity. }
  rewrite (log_of_foreach _ _ _ p a (proj1 Hok) Hp Ha).
  rewrite (Hin p a Hp Ha). unfold exec, log. rewrite Hbody.
  split.
  - intros Hst. rewrite passive_demote by exact Hst. cbn [fst snd map].
    split; [reflexivity|]. split; [reflexivity|].
    intros hdr Hs Hm.
    assert (Hc : ongoing_conflict (w_netif w) hdr
                   (set_state ACD_STATE_PASSIVE_ONGOING a) = true).
    { apply ongoing_conflict_spec. cbn. split; congruence. }
    cbv zeta. rewrite arp_ongoing_phase by (cbn; tauto). rewrite Hc.
    unfold exec, log. rewrite handle_conflict_passive by reflexivity.
    cbn [fst snd]. repeat split.
  - intros Hst. rewrite passive_stop by exact Hst. cbn [fst snd map].
    split; reflexivity.
Qed.

Lemma address_change_demotes_witness :
  (registry_ok ll_world /\
   1%positive ∈ acd_list (w_netif ll_world) /\
   ll_ip <> IPADDR_ANY /\ routable_ip <> IPADDR_ANY /\
   ip4_addr_islinklocal ll_ip = true /\ ip4_addr_islinklocal routable_ip = false) /\
  exists w' t,
    acd_netif_ip_addr_changed ll_world (Some ll_ip) (Some routable_ip) = Some (w', t) /\
    state <$> (w_mem w' !! 1%positive) = Some ACD_STATE_PASSIVE_ONGOING.
Proof.
  assert (H1 : 1%positive ∈ acd_list (w_netif ll_world)) by (cbn; left).
  assert (H2 : w_mem ll_world !! 1%positive =
               Some (Acd ll_ip ACD_STATE_ONGOING 0 50 0 0 7%positive))
    by reflexivity.
  assert (H3 : ll_ip <> IPADDR_ANY) by discriminate.
  assert (H4 : routable_ip <> IPADDR_ANY) by discriminate.
  assert (H5 : ip4_addr_islinklocal ll_ip = true) by reflexivity.
  assert (H6 : ip4_addr_islinklocal routable_ip = false) by reflexivity.
  split; [repeat split; auto; apply ll_world_ok|].
  destruct (address_change_demotes default_config ll_world ll_ip routable_ip
              1%positive _ ll_world_ok H1 H2 eq_refl H3 H4 H5 H6)
    as (w' & t & E & Hd & _).
  exists w', t. split; [exact E|].
  destruct Hd as (Hm & _); [right; reflexivity|].
  rewrite Hm. reflexivity.
Defined.

(** C5 as stated fails: a change between two addresses that are not
    link-local leaves an ONGOING context for the old address in
    ONGOING, and nothing is called. *)
Lemma address_change_without_demotion :
  ipaddr (sample_acd ACD_STATE_ONGOING 0 0) = sample_ip /\
  acd_netif_ip_addr_changed sample_world (Some sample_ip) (Some routable_ip) =
    Some (sample_world, []).
Proof. split; [reflexivity | vm_compute; reflexivity]. Qed.

(** ** Order of capture and handling *)

Lemma etharp_hdr_raw_length hdr : length (etharp_hdr_raw hdr) = 28%nat.
Proof. reflexivity. Qed.

Lemma restart_no_capture cfg a :
  Forall (fun o => is_capture (what_call o) = false) (log (acd_restart cfg) a).
Proof.
  destruct (Z_lt_le_dec (u16 (num_conflicts a + 1)) (MAX_CONFLICTS cfg)) as [H | H];
    unfold log; [rewrite restart_below | rewrite restart_limit]; try exact H;
    cbn [snd]; repeat constructor.
Qed.

Lemma handle_no_capture cfg a :
  Forall (fun o => is_capture (what_call o) = false)
         (log (acd_handle_arp_conflict cfg) a).
Proof. open_acd a. run_M; repeat constructor. Qed.

Lemma arp_reply_shape cfg nif hdr a :
  acd_arp_reply_one cfg nif hdr a = (tt, a, []) \/
  exists rest,
    log (acd_arp_reply_one cfg nif hdr) a =
      Obs (CipTcpIpSetLastAcdMac (shwaddr hdr)) a ::
      Obs (CipTcpIpSetLastAcdRawData (etharp_hdr_raw hdr) SIZEOF_ETHARP_HDR) a ::
      rest /\
    Forall (fun o => is_capture (what_call o) = false) rest.
Proof.
  assert (Hp : state a = ACD_STATE_PROBE_WAIT \/ state a = ACD_STATE_PROBING \/
               state a = ACD_STATE_ANNOUNCE_WAIT ->
               acd_arp_reply_one cfg nif hdr a = (tt, a, []) \/
               exists rest,
                 log (acd_arp_reply_one cfg nif hdr) a =
                   Obs (CipTcpIpSetLastAcdMac (shwaddr hdr)) a ::
                   Obs (CipTcpIpSetLastAcdRawData (etharp_hdr_raw hdr)
                          SIZEOF_ETHARP_HDR) a :: rest /\
                 Forall (fun o => is_capture (what_call o) = false) rest).
  { intros Hst. unfold log. rewrite arp_probe_phase by exact Hst.
    destruct (probe_conflict nif hdr a); [right | now left].
    eexists. split; [reflexivity | apply restart_no_capture]. }
  assert (Ho : state a = ACD_STATE_ANNOUNCING \/ state a = ACD_STATE_ONGOING \/
               state a = ACD_STATE_PASSIVE_ONGOING ->
               acd_arp_reply_one cfg nif hdr a = (tt, a, []) \/
               exists rest,
                 log (acd_arp_reply_one cfg nif hdr) a =
                   Obs (CipTcpIpSetLastAcdMac (shwaddr hdr)) a ::
                   Obs (CipTcpIpSetLastAcdRawData (etharp_hdr_raw hdr)
                          SIZEOF_ETHARP_HDR) a :: rest /\
                 Forall (fun o => is_capture (what_call o) = false) rest).
  { intros Hst. unfold log. rewrite arp_ongoing_phase by exact Hst.
    destruct (ongoing_conflict nif hdr a); [right | now left].
    eexists. split; [reflexivity | apply handle_no_capture]. }
  destruct (state a) eqn:Hst; try (apply Hp; tauto); try (apply Ho; tauto);
    left; apply arp_ignored; tauto.
Qed.

Lemma arp_reply_quiet cfg nif hdr a :
  log (acd_arp_reply_one cfg nif hdr) a = [] ->
  exec (acd_arp_reply_one cfg nif hdr) a = a.
Proof.
  intros Hl. destruct (arp_reply_shape cfg nif hdr a) as [E | (rest & E & _)].
  - unfold exec. now rewrite E.
  - rewrite E in Hl. discriminate Hl.
Qed.

Lemma arp_first_event cfg nif hdr (mem : gmap acd_ptr acd) l :
  concat (map (ctx_log (acd_arp_reply_one cfg nif hdr) mem) l) = [] \/
  exists p a rest,
    p ∈ l /\ mem !! p = Some a /\
    concat (map (ctx_log (acd_arp_reply_one cfg nif hdr) mem) l) =
      (p, Obs (CipTcpIpSetLastAcdMac (shwaddr hdr)) a) ::
      (p, Obs (CipTcpIpSetLastAcdRawData (etharp_hdr_raw hdr) SIZEOF_ETHARP_HDR) a) ::
      rest.
Proof.
  induction l as [|q l IH]; [now left|].
  cbn [map concat]. unfold ctx_log at 1 3.
  destruct (mem !! q) as [b|] eqn:Hq.
  - destruct (arp_reply_shape cfg nif hdr b) as [E | (rest & E & _)].
    + unfold log. rewrite E. cbn [snd map app].
      destruct IH as [-> | (p & a & rest & Hp & Ha & ->)]; [now left | right].
      exists p, a, rest. split; [now right | auto].
    + right. rewrite E. cbn [map app]. exists q, b. eexists.
      split; [left | split; [exact Hq | reflexivity]].
  - cbn [app].
    destruct IH as [-> | (p & a & rest & Hp & Ha & ->)]; [now left | right].
    exists p, a, rest. split; [now right | auto].
Qed.

Lemma concat_nil_inv {A} (ls : list (list A)) x :
  concat ls = [] -> x ∈ ls -> x = [].
Proof.
  induction ls as [|y ls IH]; intros Hc Hx; [inversion Hx|].
  cbn in Hc. apply app_eq_nil in Hc as [Hy Hc].
  apply elem_of_cons in Hx as [-> | Hx]; [exact Hy | now apply IH].
Qed.

(** C8: in one [acd_arp_reply] step over the registry, either nothing
    is called and nothing changes, or the first two calls of the step
    are the two capture hooks, given the sender's MAC and the 28 raw
    bytes of the frame.  For every listed context, either the step
    makes no call about it and leaves it as it was, or the calls about
    it begin with the two capture hooks, both made while the context is
    still exactly as it was before the step, and every other call
    about it (the conflict callbacks and the announce) comes after
    them. *)
Theorem capture_precedes_handling cfg w hdr :
  registry_ok w ->
  exists w' t,
    acd_arp_reply cfg w hdr = Some (w', t) /\
    length (etharp_hdr_raw hdr) = 28%nat /\
    ((t = [] /\ w' = w) \/
     exists p a rest,
       w_mem w !! p = Some a /\
       t = (p, Obs (CipTcpIpSetLastAcdMac (shwaddr hdr)) a) ::
           (p, Obs (CipTcpIpSetLastAcdRawData (etharp_hdr_raw hdr)
                      SIZEOF_ETHARP_HDR) a) :: rest) /\
    (forall p a,
       p ∈ acd_list (w_netif w) -> w_mem w !! p = Some a ->
       (log_of p t = [] /\ w_mem w' !! p = Some a) \/
       exists rest,
         log_of p t =
           (p, Obs (CipTcpIpSetLastAcdMac (shwaddr hdr)) a) ::
           (p, Obs (CipTcpIpSetLastAcdRawData (etharp_hdr_raw hdr)
                      SIZEOF_ETHARP_HDR) a) :: map (pair p) rest /\
         Forall (fun o => is_capture (what_call o) = false) rest /\
         callbacks (log (acd_arp_reply_one cfg (w_netif w) hdr) a) = callbacks rest).
Proof.
  intros [Hnd Hall].
  destruct (foreach_spec (acd_arp_reply_one cfg (w_netif w) hdr) _ (w_mem w) Hnd Hall) as (mem' & E & Hin & Hout).
  exists (World (w_netif w) mem'). eexists.
  split; [unfold acd_arp_reply; rewrite E; reflexivity|].
  split; [reflexivity|]. cbn [fst snd w_mem]. split.
  - destruct (arp_first_event cfg (w_netif w) hdr (w_mem w) (acd_list (w_netif w)))
      as [Hnil | (p & a & rest & Hp & Ha & Ht)].
    + left. split; [exact Hnil|]. destruct w as [nif mem]. cbn in *. f_equal.
      apply map_eq. intros q.
      destruct (decide (q ∈ acd_list nif)) as [Hq | Hq]; [|now apply Hout].
      destruct (Hall q Hq) as [b Hb]. rewrite (Hin q b Hq Hb), Hb. f_equal.
      apply arp_reply_quiet.
      assert (Hc : ctx_log (acd_arp_reply_one cfg nif hdr) mem q = []).
      { apply (concat_nil_inv _ _ Hnil). apply list_elem_of_fmap.
        exists q. auto. }
      unfold ctx_log in Hc. rewrite Hb in Hc.
      destruct (log (acd_arp_reply_one cfg nif hdr) b); [reflexivity | discriminate Hc].
    + right. exists p, a, rest. auto.
  - intros p a Hp Ha. rewrite (log_of_foreach (acd_arp_reply_one cfg (w_netif w) hdr) _ _ p a Hnd Hp Ha).
    rewrite (Hin p a Hp Ha).
    destruct (arp_reply_shape cfg (w_netif w) hdr a) as [Eq | (rest & Eq & Hf)].
    + left. unfold log, exec. rewrite Eq. split; reflexivity.
    + right. exists rest. rewrite Eq. cbn [map]. split; [reflexivity|].
      split; [exact Hf | reflexivity].
Qed.

Lemma capture_precedes_handling_witness :
  registry_ok sample_world /\
  exists w' rest,
    acd_arp_reply default_config sample_world sample_conflict_hdr =
    Some (w',
          (1%positive,
           Obs (CipTcpIpSetLastAcdMac foreign_mac) (sample_acd ACD_STATE_ONGOING 0 0)) ::
          (1%positive,
           Obs (CipTcpIpSetLastAcdRawData (etharp_hdr_raw sample_conflict_hdr)
                  SIZEOF_ETHARP_HDR) (sample_acd ACD_STATE_ONGOING 0 0)) :: rest).
Proof.
  split; [apply sample_world_ok|].
  destruct (capture_precedes_handling default_config sample_world sample_conflict_hdr
              sample_world_ok) as (w' & t & E & _ & Hfirst & _).
  destruct Hfirst as [[Hnil _] | (p & a & rest & Ha & Ht)].
  - exfalso. subst t. revert E. vm_compute. discriminate.
  - exists w', rest. rewrite E, Ht. revert E. rewrite Ht. vm_compute.
    intros E. injection E as _ <- <- _. reflexivity.
Defined.

(** ** From start to ONGOING *)

Lemma probe_interval_bounds w z :
  10 <= u16 (ACD_RANDOM_PROBE_INTERVAL (with_probe_wait w default_config) z) <= 19.
Proof.
  change (ACD_RANDOM_PROBE_INTERVAL (with_probe_wait w default_config) z)
    with (u32 (u32 z mod 10 + 10)).
  pose proof (Z.mod_pos_bound (u32 z) 10 ltac:(lia)) as H.
  rewrite u32_id by lia. rewrite u16_id by lia. lia.
Qed.

Lemma fire_probe_wait w RAND ip l nc cb :
  acd_tmr_switch (with_probe_wait w default_config) RAND
    (Acd ip ACD_STATE_PROBE_WAIT 0 0 l nc cb) =
  (tt,
   Acd ip ACD_STATE_PROBING 1
       (u16 (ACD_RANDOM_PROBE_INTERVAL (with_probe_wait w default_config)
               (RAND (Acd ip ACD_STATE_PROBING 1 0 l nc cb))))
       l nc cb,
   [Obs (etharp_acd_probe ip) (Acd ip ACD_STATE_PROBING 0 0 l nc cb)]).
Proof. reflexivity. Qed.

Lemma fire_probing_1 w RAND ip l nc cb :
  acd_tmr_switch (with_probe_wait w default_config) RAND
    (Acd ip ACD_STATE_PROBING 1 0 l nc cb) =
  (tt,
   Acd ip ACD_STATE_PROBING 2
       (u16 (ACD_RANDOM_PROBE_INTERVAL (with_probe_wait w default_config)
               (RAND (Acd ip ACD_STATE_PROBING 2 0 l nc cb))))
       l nc cb,
   [Obs (etharp_acd_probe ip) (Acd ip ACD_STATE_PROBING 1 0 l nc cb)]).
Proof. reflexivity. Qed.

Lemma fire_probing_2 w RAND ip l nc cb :
  acd_tmr_switch (with_probe_wait w default_config) RAND
    (Acd ip ACD_STATE_PROBING 2 0 l nc cb) =
  (tt, Acd ip ACD_STATE_ANNOUNCE_WAIT 0 20 l nc cb,
   [Obs (etharp_acd_probe ip) (Acd ip ACD_STATE_PROBING 2 0 l nc cb)]).
Proof. reflexivity. Qed.

Lemma fire_announce_wait w RAND ip l nc cb :
  acd_tmr_switch (with_probe_wait w default_config) RAND
    (Acd ip ACD_STATE_ANNOUNCE_WAIT 0 0 l nc cb) =
  (tt, Acd ip ACD_STATE_ANNOUNCING 1 20 l 0 cb,
   [Obs (etharp_acd_announce ip) (Acd ip ACD_STATE_ANNOUNCING 0 0 l 0 cb)]).
Proof. reflexivity. Qed.

Lemma fire_announcing w RAND ip l nc cb :
  acd_tmr_switch (with_probe_wait w default_config) RAND
    (Acd ip ACD_STATE_ANNOUNCING 1 0 l nc cb) =
  (tt, Acd ip ACD_STATE_ONGOING 0 100 l nc cb,
   [Obs (etharp_acd_announce ip) (Acd ip ACD_STATE_ANNOUNCING 1 0 l nc cb);
    Obs (conflict_callback cb ACD_IP_OK) (Acd ip ACD_STATE_ONGOING 0 100 l nc cb)]).
Proof. reflexivity. Qed.

Lemma tick_progress w RAND a :
  probing_inv a ->
  (probing_inv (acd_tmr_one (with_probe_wait w default_config) RAND a).1.2 /\
   callbacks (acd_tmr_one (with_probe_wait w default_config) RAND a).2 = [] /\
   eta_lo a - 1 <= eta_lo (acd_tmr_one (with_probe_wait w default_config) RAND a).1.2 /\
   eta_hi (acd_tmr_one (with_probe_wait w default_config) RAND a).1.2 <= eta_hi a - 1)
  \/
  (acd_wf (acd_tmr_one (with_probe_wait w default_config) RAND a).1.2 /\
   state (acd_tmr_one (with_probe_wait w default_config) RAND a).1.2 = ACD_STATE_ONGOING /\
   callbacks (acd_tmr_one (with_probe_wait w default_config) RAND a).2 = [ACD_IP_OK] /\
   eta_lo a = 1 /\ eta_hi a = 1).
Proof.
  intros [Hwf Hinv].
  destruct (Z_le_gt_dec 2 (ttw a)) as [H2 | H2].
  - left. rewrite tick_idle by assumption. cbn [fst snd].
    destruct Hwf as (Hs & Ht & Hl & Hn). pose proof (tick_dec_range _ Hl).
    open_acd a. unfold probing_inv, acd_wf, eta_lo, eta_hi, fire_in. cbn.
    repeat split; try lia; try assumption.
  - rewrite tick_eq by assumption.
    assert (tick_dec (ttw a) = 0) as ->.
    { destruct Hwf as (_ & Ht & _). unfold tick_dec.
      destruct (ttw a >? 0) eqn:E; zbool; lia. }
    destruct Hwf as (Hs & Ht & Hl & Hn). pose proof (tick_dec_range _ Hl) as Hd.
    open_acd a. unfold set_ttw, set_lastconflict.
    cbn [ipaddr state sent_num ttw lastconflict num_conflicts acd_conflict_callback].
    destruct st; cbn in Hinv; try contradiction.
    + subst sn. left. rewrite fire_probe_wait. cbn [fst snd].
      pose proof (probe_interval_bounds w
        (RAND (Acd ip ACD_STATE_PROBING 1 0 (tick_dec lc) nc cb))) as Hb.
      unfold probing_inv, acd_wf, eta_lo, eta_hi, fire_in. cbn.
      repeat split; try lia; auto.
    + destruct Hinv as [-> | ->].
      * left. rewrite fire_probing_1. cbn [fst snd].
        pose proof (probe_interval_bounds w
          (RAND (Acd ip ACD_STATE_PROBING 2 0 (tick_dec lc) nc cb))) as Hb.
        unfold probing_inv, acd_wf, eta_lo, eta_hi, fire_in. cbn.
        repeat split; try lia; auto.
      * left. rewrite fire_probing_2. cbn [fst snd].
        unfold probing_inv, acd_wf, eta_lo, eta_hi, fire_in. cbn.
        repeat split; try lia; auto.
    + subst sn. left. rewrite fire_announce_wait. cbn [fst snd].
      unfold probing_inv, acd_wf, eta_lo, eta_hi, fire_in. cbn.
      repeat split; try lia; auto.
    + subst sn. right. rewrite fire_announcing. cbn [fst snd].
      unfold acd_wf, eta_lo, eta_hi, fire_in. cbn.
      repeat split; try lia; auto.
Qed.

Lemma switch_ongoing cfg RAND a :
  state a = ACD_STATE_ONGOING ->
  state (exec (acd_tmr_switch cfg RAND) a) = ACD_STATE_ONGOING /\
  callbacks (log (acd_tmr_switch cfg RAND) a) = [].
Proof.
  intros Hst. open_acd a. subst st.
  destruct (CONFIG_OPENER_ACD_PERIODIC_DEFEND_INTERVAL_MS cfg) eqn:EP;
    run_M; try rewrite EP; run_M; split; reflexivity.
Qed.

Lemma tick_ongoing cfg RAND a :
  state a = ACD_STATE_ONGOING ->
  state (acd_tmr_one cfg RAND a).1.2 = ACD_STATE_ONGOING /\
  callbacks (acd_tmr_one cfg RAND a).2 = [].
Proof.
  intros Hst. rewrite tick_split. apply switch_ongoing.
  pose proof (countdown_frame a) as Hf. cbv zeta in Hf.
  destruct Hf as (_ & -> & _). exact Hst.
Qed.

Lemma callbacks_app t1 t2 : callbacks (t1 ++ t2) = callbacks t1 ++ callbacks t2.
Proof. unfold callbacks. apply omap_app. Qed.

Lemma count_cb_cons what t ts :
  count_cb what (t :: ts) =
  (length (List.filter (fun c => bool_decide (c = what)) (callbacks t)) +
   count_cb what ts)%nat.
Proof.
  unfold count_cb. cbn [concat]. rewrite callbacks_app, List.filter_app.
  apply length_app.
Qed.

Lemma ticks_ongoing cfg m : forall rnd a,
  state a = ACD_STATE_ONGOING ->
  state (acd_ticks cfg rnd m a).1 = ACD_STATE_ONGOING /\
  count_cb ACD_IP_OK (acd_ticks cfg rnd m a).2 = 0%nat.
Proof.
  induction m as [|m IH]; intros rnd a Hst.
  - cbn. auto.
  - cbn [acd_ticks fst snd].
    destruct (tick_ongoing cfg (rnd O) a Hst) as [H1 H2].
    destruct (IH (fun i => rnd (S i)) _ H1) as [H3 H4].
    split; [exact H3|]. rewrite count_cb_cons, H2, H4. reflexivity.
Qed.

Lemma probing_inv_not_ongoing a : probing_inv a -> state a <> ACD_STATE_ONGOING.
Proof. intros [_ H] E. rewrite E in H. exact H. Qed.

Lemma eta_hi_pos a : 1 <= eta_hi a.
Proof.
  unfold eta_hi, fire_in. destruct (state a); try lia.
  destruct (sent_num a =? 1); lia.
Qed.

Lemma reach_ongoing w (n : nat) : forall rnd a,
  probing_inv a -> eta_hi a <= Z.of_nat n ->
  exists T : nat,
    eta_lo a <= Z.of_nat T <= eta_hi a /\
    (forall m, (m < T)%nat ->
       state (acd_ticks (with_probe_wait w default_config) rnd m a).1
         <> ACD_STATE_ONGOING /\
       count_cb ACD_IP_OK (acd_ticks (with_probe_wait w default_config) rnd m a).2
         = 0%nat) /\
    (forall m, (T <= m)%nat ->
       state (acd_ticks (with_probe_wait w default_config) rnd m a).1
         = ACD_STATE_ONGOING /\
       count_cb ACD_IP_OK (acd_ticks (with_probe_wait w default_config) rnd m a).2
         = 1%nat).
Proof.
  induction n as [|n IH]; intros rnd a Hinv Hhi.
  - pose proof (eta_hi_pos a). lia.
  - destruct (tick_progress w (rnd O) a Hinv)
      as [(Hinv1 & Hcb & Hlo & Hhi1) | (Hwf1 & Hst1 & Hcb & Hlo & Hhi1)].
    + destruct (IH (fun i => rnd (S i)) _ Hinv1) as (T & HT & Hbefore & Hafter);
        [lia|].
      exists (S T). split; [lia|]. split.
      * intros [|m] Hm.
        -- cbn. split; [now apply probing_inv_not_ongoing | reflexivity].
        -- cbn [acd_ticks fst snd]. destruct (Hbefore m) as [H1 H2]; [lia|].
           split; [exact H1|]. rewrite count_cb_cons, Hcb, H2. reflexivity.
      * intros [|m] Hm; [lia|].
        cbn [acd_ticks fst snd]. destruct (Hafter m) as [H1 H2]; [lia|].
        split; [exact H1|]. rewrite count_cb_cons, Hcb, H2. reflexivity.
    + exists 1%nat. split; [lia|]. split.
      * intros [|m] Hm; [|lia].
        cbn. split; [now apply probing_inv_not_ongoing | reflexivity].
      * intros [|m] Hm; [lia|].
        cbn [acd_ticks fst snd].
        destruct (ticks_ongoing (with_probe_wait w default_config) m
                    (fun i => rnd (S i)) _ Hst1) as [H1 H2].
        split; [exact H1|]. rewrite count_cb_cons, Hcb, H2. reflexivity.
Qed.

Lemma initial_wait_bounds w z :
  0 <= w <= 1000 ->
  0 <= u16 (ACD_RANDOM_PROBE_WAIT (with_probe_wait w default_config) z) <= 9 /\
  (w = 0 -> u16 (ACD_RANDOM_PROBE_WAIT (with_probe_wait w default_config) z) = 0).
Proof.
  intros Hw. unfold ACD_RANDOM_PROBE_WAIT. cbn [CONFIG_OPENER_ACD_PROBE_WAIT_MS
    with_probe_wait].
  destruct (w =? 0) eqn:E; zbool.
  - change (u16 0) with 0. split; [lia | reflexivity].
  - split; [|lia].
    assert (Hm : 1 <= probe_wait_modulus (with_probe_wait w default_config) <= 10).
    { unfold probe_wait_modulus, OPENER_ACD_PROBE_WAIT_TICKS, OPENER_ACD_MS_TO_TICKS.
      cbn [CONFIG_OPENER_ACD_PROBE_WAIT_MS ACD_TMR_INTERVAL with_probe_wait
           default_config].
      rewrite (proj2 (Z.eqb_neq w 0) E). unfold cdiv.
      rewrite Z.quot_div_nonneg by lia.
      assert (Hq : 1 <= (w + (100 - 1)) / 100 <= 10).
      { split.
        - apply Z.div_le_lower_bound; lia.
        - assert ((w + (100 - 1)) / 100 < 11)
            by (apply Z.div_lt_upper_bound; lia).
          lia. }
      rewrite u16_id by lia.
      destruct ((w + (100 - 1)) / 100 >? 0) eqn:E'; zbool; lia. }
    pose proof (Z.mod_pos_bound (u32 z)
                  (probe_wait_modulus (with_probe_wait w default_config))
                  ltac:(lia)) as Hb.
    rewrite u16_id by lia. lia.
Qed.

(** C1, as the code has it: after [acd_start] under the defaults (tick
    of 100 ms, three probes 1000 to 2000 ms apart, announce wait and
    announce interval 2000 ms, two announces) and an initial probe wait
    of at most 1000 ms, ticks alone take the context to ONGOING at a
    tick T with 61 <= T <= 87 (T <= 79 when the probe wait is 0),
    whatever the random source returns: before tick T the state is not
    ONGOING and IP_OK has not been delivered, from tick T on the state
    is ONGOING and IP_OK has been delivered exactly once.  So ONGOING
    is reached within 110 ticks, but possibly after 61 ticks already,
    not only after 90. *)
Theorem start_reaches_ongoing (w : Z) (R0 : acd -> Z) (rnd : nat -> acd -> Z)
    (ip : ip4_addr_t) (a0 : acd) :
  0 <= w <= 1000 -> acd_wf a0 ->
  exists T : nat,
    (61 <= T <= 87)%nat /\ (T <= 110)%nat /\ (w = 0 -> (T <= 79)%nat) /\
    (forall m, (m < T)%nat ->
       state (acd_ticks (with_probe_wait w default_config) rnd m
                (exec (acd_start (with_probe_wait w default_config) R0 ip) a0)).1
         <> ACD_STATE_ONGOING /\
       count_cb ACD_IP_OK
         (acd_ticks (with_probe_wait w default_config) rnd m
            (exec (acd_start (with_probe_wait w default_config) R0 ip) a0)).2
         = 0%nat) /\
    (forall m, (T <= m)%nat ->
       state (acd_ticks (with_probe_wait w default_config) rnd m
                (exec (acd_start (with_probe_wait w default_config) R0 ip) a0)).1
         = ACD_STATE_ONGOING /\
       count_cb ACD_IP_OK
         (acd_ticks (with_probe_wait w default_config) rnd m
            (exec (acd_start (with_probe_wait w default_config) R0 ip) a0)).2
         = 1%nat).
Proof.
  intros Hw Hwf. unfold exec. rewrite start_eq. cbn [fst snd].
  set (z := R0 _).
  destruct (initial_wait_bounds w z Hw) as [Hb H0].
  set (t0 := u16 (ACD_RANDOM_PROBE_WAIT (with_probe_wait w default_config) z)) in *.
  set (a1 := Acd ip ACD_STATE_PROBE_WAIT 0 t0 0 (num_conflicts a0)
                 (acd_conflict_callback a0)).
  assert (Hinv : probing_inv a1).
  { destruct Hwf as (_ & _ & _ & Hn). unfold probing_inv, acd_wf, a1. cbn.
    repeat split; lia. }
  assert (Hlo : eta_lo a1 = Z.max 1 t0 + 60) by reflexivity.
  assert (Hhi : eta_hi a1 = Z.max 1 t0 + 78) by reflexivity.
  destruct (reach_ongoing w 87 rnd a1 Hinv) as (T & HT & Hbefore & Hafter);
    [lia|].
  exists T. split; [lia|]. split; [lia|]. split.
  - intros Hw0. rewrite (H0 Hw0) in Hhi. lia.
  - split; assumption.
Qed.

Lemma start_reaches_ongoing_witness :
  (0 <= 0 <= 1000 /\ acd_wf (sample_acd ACD_STATE_OFF 0 0)) /\
  exists T : nat,
    (61 <= T <= 79)%nat /\
    state (acd_ticks (with_probe_wait 0 default_config)
             (fun _ => LWIP_ACD_RAND sample_netif) T
             (exec (acd_start (with_probe_wait 0 default_config)
                      (LWIP_ACD_RAND sample_netif) sample_ip)
                   (sample_acd ACD_STATE_OFF 0 0))).1 = ACD_STATE_ONGOING.
Proof.
  assert (Hw : 0 <= 0 <= 1000) by lia.
  assert (Hwf : acd_wf (sample_acd ACD_STATE_OFF 0 0))
    by (unfold acd_wf; cbn; lia).
  split; [split; assumption|].
  destruct (start_reaches_ongoing 0 (LWIP_ACD_RAND sample_netif)
              (fun _ => LWIP_ACD_RAND sample_netif) sample_ip
              (sample_acd ACD_STATE_OFF 0 0) Hw Hwf)
    as (T & HT & _ & H79 & _ & Hafter).
  exists T. split; [specialize (H79 eq_refl); lia|].
  apply (Hafter T). lia.
Defined.

(** C1 as stated fails: on the sample interface, with the built-in
    random source, the context is in ONGOING and IP_OK has been
    delivered after 68 ticks, which is fewer than 90. *)
Lemma ip_ok_before_90_ticks :
  (68 < 90)%nat /\
  state (acd_ticks default_config (fun _ => LWIP_ACD_RAND sample_netif) 68
           (exec (acd_start default_config (LWIP_ACD_RAND sample_netif) sample_ip)
                 (sample_acd ACD_STATE_OFF 0 0))).1 = ACD_STATE_ONGOING /\
  count_cb ACD_IP_OK
    (acd_ticks default_config (fun _ => LWIP_ACD_RAND sample_netif) 68
       (exec (acd_start default_config (LWIP_ACD_RAND sample_netif) sample_ip)
             (sample_acd ACD_STATE_OFF 0 0))).2 = 1%nat.
Proof. split; [lia|]. vm_compute. split; reflexivity. Qed.

(** Both ends of the range are met: tick 61 with a source that always
    returns 0 and no probe wait, tick 87 with a source that always
    returns 9 and a probe wait of 1000 ms. *)
Example ongoing_at_tick_61 :
  state (acd_ticks default_config (fun _ _ => 0) 60
           (exec (acd_start default_config (fun _ => 0) sample_ip)
                 (sample_acd ACD_STATE_OFF 0 0))).1 = ACD_STATE_ANNOUNCING /\
  state (acd_ticks default_config (fun _ _ => 0) 61
           (exec (acd_start default_config (fun _ => 0) sample_ip)
                 (sample_acd ACD_STATE_OFF 0 0))).1 = ACD_STATE_ONGOING.
Proof. vm_compute. split; reflexivity. Qed.

Example ongoing_at_tick_87 :
  state (acd_ticks (with_probe_wait 1000 default_config) (fun _ _ => 9) 86
           (exec (acd_start (with_probe_wait 1000 default_config) (fun _ => 9)
                    sample_ip)
                 (sample_acd ACD_STATE_OFF 0 0))).1 = ACD_STATE_ANNOUNCING /\
  state (acd_ticks (with_probe_wait 1000 default_config) (fun _ _ => 9) 87
           (exec (acd_start (with_probe_wait 1000 default_config) (fun _ => 9)
                    sample_ip)
                 (sample_acd ACD_STATE_OFF 0 0))).1 = ACD_STATE_ONGOING.
Proof. vm_compute. split; reflexivity. Qed.

(** * Further properties of the registry *)

Lemma unlink_absent p l : p ∉ l -> acd_unlink p l = None.
Proof.
  induction l as [|q l IH]; intros Hp; [reflexivity|].
  apply not_elem_of_cons in Hp as [Hne Hp]. cbn.
  destruct (decide (q = p)) as [E | _]; [congruence|].
  now rewrite IH.
Qed.

Lemma filter_absent p (l : list acd_ptr) :
  p ∉ l -> List.filter (fun q => negb (bool_decide (q = p))) l = l.
Proof.
  induction l as [|q l IH]; intros Hp; [reflexivity|].
  apply not_elem_of_cons in Hp as [Hne Hp]. cbn.
  rewrite bool_decide_eq_false_2 by congruence. cbn. now rewrite IH.
Qed.

Lemma unlink_listed p l :
  NoDup l -> p ∈ l ->
  acd_unlink p l = Some (List.filter (fun q => negb (bool_decide (q = p))) l).
Proof.
  induction l as [|q l IH]; intros Hnd Hp; [inversion Hp|].
  apply NoDup_cons in Hnd as [Hq Hnd]. cbn.
  destruct (decide (q = p)) as [-> | Hne].
  - rewrite bool_decide_eq_true_2 by reflexivity. cbn.
    now rewrite filter_absent.
  - rewrite bool_decide_eq_false_2 by exact Hne. cbn.
    apply elem_of_cons in Hp as [-> | Hp]; [congruence|].
    now rewrite IH.
Qed.

Lemma filter_other_elem p (l : list acd_ptr) q :
  q ∈ List.filter (fun r => negb (bool_decide (r = p))) l <-> q ∈ l /\ q <> p.
Proof.
  rewrite !list_elem_of_In, List.filter_In, negb_true_iff.
  rewrite bool_decide_eq_false. reflexivity.
Qed.

Lemma filter_other_nodup p (l : list acd_ptr) :
  NoDup l -> NoDup (List.filter (fun r => negb (bool_decide (r = p))) l).
Proof.
  induction 1 as [|q l Hq Hnd IH]; cbn; [constructor|].
  destruct (negb (bool_decide (q = p))); [|exact IH].
  constructor; [|exact IH]. rewrite filter_other_elem. tauto.
Qed.

Lemma filter_other_length p (l : list acd_ptr) :
  NoDup l -> p ∈ l ->
  length l = S (length (List.filter (fun r => negb (bool_decide (r = p))) l)).
Proof.
  induction l as [|q l IH]; intros Hnd Hp; [inversion Hp|].
  apply NoDup_cons in Hnd as [Hq Hnd]. cbn.
  destruct (decide (q = p)) as [-> | Hne].
  - rewrite bool_decide_eq_true_2 by reflexivity. cbn.
    now rewrite filter_absent.
  - rewrite bool_decide_eq_false_2 by exact Hne. cbn.
    apply elem_of_cons in Hp as [-> | Hp]; [congruence|].
    now rewrite <- IH.
Qed.

(** X1: on a well-formed registry [acd_add] of a context that is in
    memory always returns ERR_OK and leaves a well-formed registry that
    lists the context; every context listed before is still listed, a
    context that was not listed is put at the head of the list, the
    callback given is stored in the context, and no other context is
    touched. *)
Theorem acd_add_lists_once w p cb (a : acd) :
  registry_ok w -> w_mem w !! p = Some a ->
  exists w',
    acd_add w p cb = Some (ERR_OK, w') /\
    registry_ok w' /\
    p ∈ acd_list (w_netif w') /\
    (forall q, q ∈ acd_list (w_netif w) -> q ∈ acd_list (w_netif w')) /\
    (p ∉ acd_list (w_netif w) ->
       acd_list (w_netif w') = p :: acd_list (w_netif w)) /\
    (p ∈ acd_list (w_netif w) -> acd_list (w_netif w') = acd_list (w_netif w)) /\
    hwaddr (w_netif w') = hwaddr (w_netif w) /\
    w_mem w' !! p = Some (set_acd_conflict_callback cb a) /\
    (forall q, q <> p -> w_mem w' !! q = w_mem w !! q).
Proof.
  intros Hok Ha.
  assert (E : exists w', acd_add w p cb = Some (ERR_OK, w')).
  { unfold acd_add. rewrite Ha. cbn.
    destruct (acd_on_list p (acd_list (w_netif w))); eauto. }
  destruct E as (w' & E). exists w'. split; [exact E|].
  split; [exact (acd_add_registry_ok w p cb w' ERR_OK Hok E)|].
  revert E. unfold acd_add. rewrite Ha. cbn.
  destruct (acd_on_list p (acd_list (w_netif w))) eqn:Hon;
    intros E; injection E as <-; cbn.
  - apply acd_on_list_spec in Hon.
    split; [exact Hon|]. split; [auto|]. split; [intros Hn; contradiction|].
    split; [reflexivity|]. split; [reflexivity|].
    split; [apply lookup_insert_eq|].
    intros q Hq. apply lookup_insert_ne. congruence.
  - assert (Hn : p ∉ acd_list (w_netif w)).
    { intros Hp. apply acd_on_list_spec in Hp. congruence. }
    split; [left|]. split; [intros q Hq; now right|].
    split; [reflexivity|]. split; [intros Hp; contradiction|].
    split; [reflexivity|]. split; [apply lookup_insert_eq|].
    intros q Hq. apply lookup_insert_ne. congruence.
Qed.

Lemma acd_add_lists_once_witness :
  (registry_ok sample_world /\
   w_mem sample_world !! 1%positive = Some (sample_acd ACD_STATE_ONGOING 0 0)) /\
  exists w',
    acd_add sample_world 1%positive 9%positive = Some (ERR_OK, w') /\
    acd_list (w_netif w') = [1%positive].
Proof.
  assert (Ha : w_mem sample_world !! 1%positive =
               Some (sample_acd ACD_STATE_ONGOING 0 0)) by reflexivity.
  split; [split; [apply sample_world_ok | exact Ha]|].
  destruct (acd_add_lists_once sample_world 1%positive 9%positive _
              sample_world_ok Ha) as (w' & E & _ & _ & _ & _ & Hl & _).
  exists w'. split; [exact E|]. apply Hl. cbn. left.
Defined.

(** X2: [acd_remove] of a listed context unlinks exactly that context:
    the other contexts stay listed in their order, the list gets one
    shorter, the registry stays well formed, memory is not touched and
    the assertion is not reached.  For a context that is not listed
    the loop ends in the assertion and nothing is changed. *)
Theorem acd_remove_unlinks w p :
  registry_ok w ->
  (p ∈ acd_list (w_netif w) ->
     acd_remove w p =
       (World (Netif (hwaddr (w_netif w))
                 (List.filter (fun q => negb (bool_decide (q = p)))
                              (acd_list (w_netif w))))
              (w_mem w), false) /\
     (p ∉ acd_list (w_netif (acd_remove w p).1)) /\
     (forall q, q ∈ acd_list (w_netif (acd_remove w p).1) <->
                q ∈ acd_list (w_netif w) /\ q <> p) /\
     length (acd_list (w_netif w)) =
       S (length (acd_list (w_netif (acd_remove w p).1))) /\
     registry_ok (acd_remove w p).1) /\
  (p ∉ acd_list (w_netif w) -> acd_remove w p = (w, true)).
Proof.
  intros [Hnd Hall]. split.
  - intros Hp. unfold acd_remove. rewrite (unlink_listed p _ Hnd Hp). cbn.
    split; [reflexivity|]. split.
    { rewrite filter_other_elem. tauto. }
    split; [intros q; apply filter_other_elem|].
    split; [now apply filter_other_length|].
    split; cbn.
    + now apply filter_other_nodup.
    + intros q Hq. apply filter_other_elem in Hq as [Hq _]. now apply Hall.
  - intros Hp. unfold acd_remove. now rewrite unlink_absent.
Qed.

Lemma acd_remove_unlinks_witness :
  (registry_ok sample_world /\ 1%positive ∈ acd_list (w_netif sample_world)) /\
  acd_list (w_netif (acd_remove sample_world 1%positive).1) = [] /\
  (acd_remove sample_world 1%positive).2 = false.
Proof.
  assert (Hp : 1%positive ∈ acd_list (w_netif sample_world)) by (cbn; left).
  split; [split; [apply sample_world_ok | exact Hp]|].
  destruct (acd_remove_unlinks sample_world 1%positive sample_world_ok) as [H _].
  destruct (H Hp) as (E & _). rewrite E. split; reflexivity.
Defined.

(** X3: adding a context that was not listed and removing it again
    gives back the list as it was, without reaching the assertion; the
    memory differs only in the callback stored by the add. *)
Theorem acd_add_remove_roundtrip w p cb (a : acd) :
  w_mem w !! p = Some a -> p ∉ acd_list (w_netif w) ->
  exists w',
    acd_add w p cb = Some (ERR_OK, w') /\
    acd_remove w' p =
      (World (w_netif w) (<[p := set_acd_conflict_callback cb a]> (w_mem w)), false).
Proof.
  intros Ha Hp. unfold acd_add. rewrite Ha. cbn.
  assert (Hon : acd_on_list p (acd_list (w_netif w)) = false).
  { apply not_true_iff_false. intros H. apply acd_on_list_spec in H. contradiction. }
  rewrite Hon. eexists. split; [reflexivity|].
  unfold acd_remove. cbn. destruct (decide (p = p)) as [_ | Hne]; [|congruence].
  destruct w as [[hw l] mem]. reflexivity.
Qed.

Lemma acd_add_remove_roundtrip_witness :
  (w_mem misuse_world !! 2%positive = Some (sample_acd ACD_STATE_ONGOING 0 0) /\
   (2%positive ∉ acd_list (w_netif misuse_world))) /\
  exists w',
    acd_add misuse_world 2%positive 7%positive = Some (ERR_OK, w') /\
    acd_list (w_netif (acd_remove w' 2%positive).1) = [1%positive].
Proof.
  assert (Ha : w_mem misuse_world !! 2%positive =
               Some (sample_acd ACD_STATE_ONGOING 0 0)) by reflexivity.
  assert (Hp : 2%positive ∉ acd_list (w_netif misuse_world)).
  { cbn. intros H. apply list_elem_of_singleton in H. discriminate H. }
  split; [split; assumption|].
  destruct (acd_add_remove_roundtrip misuse_world 2%positive 7%positive _ Ha Hp)
    as (w' & E & Er).
  exists w'. split; [exact E|]. rewrite Er. reflexivity.
Defined.

(** * Further properties of the state machine *)

(** ** What a single step may do *)

Lemma switch_audit cfg RAND a :
  ipaddr (exec (acd_tmr_switch cfg RAND) a) = ipaddr a /\
  acd_conflict_callback (exec (acd_tmr_switch cfg RAND) a) = acd_conflict_callback a /\
  Forall (fun o => call_for a (what_call o)) (log (acd_tmr_switch cfg RAND) a) /\
  forallb callback_state_ok (log (acd_tmr_switch cfg RAND) a) = true /\
  (length (sends (log (acd_tmr_switch cfg RAND) a)) <= 1)%nat /\
  (length (callbacks (log (acd_tmr_switch cfg RAND) a)) <= 1)%nat /\
  (In ACD_IP_OK (callbacks (log (acd_tmr_switch cfg RAND) a)) ->
     (state a = ACD_STATE_ANNOUNCE_WAIT \/ state a = ACD_STATE_ANNOUNCING) /\
     state (exec (acd_tmr_switch cfg RAND) a) = ACD_STATE_ONGOING /\
     calls (log (acd_tmr_switch cfg RAND) a) =
       [etharp_acd_announce (ipaddr a);
        conflict_callback (acd_conflict_callback a) ACD_IP_OK]) /\
  (In ACD_RESTART_CLIENT (callbacks (log (acd_tmr_switch cfg RAND) a)) ->
     state a = ACD_STATE_RATE_LIMIT /\
     state (exec (acd_tmr_switch cfg RAND) a) = ACD_STATE_OFF) /\
  ~ In ACD_DECLINE (callbacks (log (acd_tmr_switch cfg RAND) a)).
Proof.
  open_acd a.
  destruct (CONFIG_OPENER_ACD_PERIODIC_DEFEND_INTERVAL_MS cfg) eqn:EP;
    destruct st; run_M; try rewrite EP; run_M; cbn;
    repeat split; try (repeat constructor; fail); try lia; auto;
    try (intros H; repeat destruct H as [H | H]; try discriminate H;
         try contradiction; fail);
    try tauto;
    match goal with
    | H : _ \/ _ |- _ =>
        exfalso; repeat (destruct H as [H | H]); try discriminate H; contradiction
    end.
Qed.

Ltac kill_decide :=
  try match goal with
      | e : _ = _ :> acd_state_enum_t |- _ => discriminate e
      | n : _ <> _ :> acd_state_enum_t |- _ => exfalso; apply n; reflexivity
      end.

Lemma arp_audit cfg nif hdr a :
  ipaddr (exec (acd_arp_reply_one cfg nif hdr) a) = ipaddr a /\
  acd_conflict_callback (exec (acd_arp_reply_one cfg nif hdr) a) =
    acd_conflict_callback a /\
  Forall (fun o => call_for a (what_call o)) (log (acd_arp_reply_one cfg nif hdr) a) /\
  forallb callback_state_ok (log (acd_arp_reply_one cfg nif hdr) a) = true /\
  (length (sends (log (acd_arp_reply_one cfg nif hdr) a)) <= 1)%nat /\
  (length (callbacks (log (acd_arp_reply_one cfg nif hdr) a)) <= 2)%nat /\
  ~ In ACD_IP_OK (callbacks (log (acd_arp_reply_one cfg nif hdr) a)) /\
  (In ACD_RESTART_CLIENT (callbacks (log (acd_arp_reply_one cfg nif hdr) a)) ->
     state (exec (acd_arp_reply_one cfg nif hdr) a) = ACD_STATE_OFF) /\
  (length (List.filter is_capture (calls (log (acd_arp_reply_one cfg nif hdr) a))) = 0%nat \/
   length (List.filter is_capture (calls (log (acd_arp_reply_one cfg nif hdr) a))) = 2%nat).
Proof.
  open_acd a.
  destruct st; run_M; kill_decide; cbn;
    repeat split; try (repeat constructor; fail); try lia; auto;
    try tauto;
    try intro;
    match goal with
    | H : _ \/ _ |- _ =>
        exfalso; repeat (destruct H as [H | H]); try discriminate H; contradiction
    | H : False |- _ => contradiction
    end.
Qed.

Lemma passive_audit a :
  ipaddr (exec acd_put_in_passive_mode a) = ipaddr a /\
  acd_conflict_callback (exec acd_put_in_passive_mode a) = acd_conflict_callback a /\
  Forall (fun o => call_for a (what_call o)) (log acd_put_in_passive_mode a) /\
  forallb callback_state_ok (log acd_put_in_passive_mode a) = true /\
  sends (log acd_put_in_passive_mode a) = [] /\
  (callbacks (log acd_put_in_passive_mode a) = [] \/
   callbacks (log acd_put_in_passive_mode a) = [ACD_DECLINE]) /\
  (state (exec acd_put_in_passive_mode a) = ACD_STATE_OFF \/
   state (exec acd_put_in_passive_mode a) = ACD_STATE_PASSIVE_ONGOING).
Proof.
  open_acd a. destruct st; cbn; repeat split; try (repeat constructor; fail); auto.
Qed.

Lemma tick_audit cfg RAND a :
  ipaddr (exec (acd_tmr_one cfg RAND) a) = ipaddr a /\
  acd_conflict_callback (exec (acd_tmr_one cfg RAND) a) = acd_conflict_callback a /\
  Forall (fun o => call_for a (what_call o)) (log (acd_tmr_one cfg RAND) a) /\
  forallb callback_state_ok (log (acd_tmr_one cfg RAND) a) = true /\
  (length (sends (log (acd_tmr_one cfg RAND) a)) <= 1)%nat /\
  (length (callbacks (log (acd_tmr_one cfg RAND) a)) <= 1)%nat /\
  (In ACD_IP_OK (callbacks (log (acd_tmr_one cfg RAND) a)) ->
     (state a = ACD_STATE_ANNOUNCE_WAIT \/ state a = ACD_STATE_ANNOUNCING) /\
     state (exec (acd_tmr_one cfg RAND) a) = ACD_STATE_ONGOING /\
     calls (log (acd_tmr_one cfg RAND) a) =
       [etharp_acd_announce (ipaddr a);
        conflict_callback (acd_conflict_callback a) ACD_IP_OK]) /\
  (In ACD_RESTART_CLIENT (callbacks (log (acd_tmr_one cfg RAND) a)) ->
     state a = ACD_STATE_RATE_LIMIT /\
     state (exec (acd_tmr_one cfg RAND) a) = ACD_STATE_OFF) /\
  ~ In ACD_DECLINE (callbacks (log (acd_tmr_one cfg RAND) a)).
Proof.
  pose proof (countdown_frame a) as Hf. cbv zeta in Hf.
  destruct Hf as (F1 & F2 & _ & _ & F5).
  assert (Elog : log (acd_tmr_one cfg RAND) a =
                 log (acd_tmr_switch cfg RAND) (exec acd_tmr_countdown a))
    by (unfold log; now rewrite tick_split).
  assert (Eexec : exec (acd_tmr_one cfg RAND) a =
                  exec (acd_tmr_switch cfg RAND) (exec acd_tmr_countdown a))
    by (unfold exec at 1 2; now rewrite tick_split).
  rewrite Elog, Eexec.
  destruct (switch_audit cfg RAND (exec acd_tmr_countdown a))
    as (H1 & H2 & H3 & H4 & H5 & H6 & H7 & H8 & H9).
  rewrite F1 in H1, H7. rewrite F5 in H2, H7. rewrite F2 in H7, H8.
  repeat split; try assumption; try (apply H7; assumption);
    try (apply H8; assumption).
  eapply Forall_impl; [exact H3|]. intros o Ho. unfold call_for in *.
  rewrite F1, F5 in Ho. exact Ho.
Qed.

(** X4: a callback always finds the context in the state it
    announces.  IP_OK is delivered only by a timer tick taken in
    ANNOUNCE_WAIT or ANNOUNCING, directly after an announce for the
    candidate and with the context already in ONGOING.  RESTART_CLIENT
    is delivered only with the context already OFF, by the tick that
    ends a rate limit or by an ARP conflict.  DECLINE is never delivered
    by a tick, a start or a stop. *)
Theorem callbacks_match_state cfg nif op (a : acd) :
  forallb callback_state_ok (log (acd_apply cfg nif op) a) = true /\
  (In ACD_IP_OK (callbacks (log (acd_apply cfg nif op) a)) ->
     (exists R, op = OpTick R) /\
     (state a = ACD_STATE_ANNOUNCE_WAIT \/ state a = ACD_STATE_ANNOUNCING) /\
     state (exec (acd_apply cfg nif op) a) = ACD_STATE_ONGOING /\
     calls (log (acd_apply cfg nif op) a) =
       [etharp_acd_announce (ipaddr a);
        conflict_callback (acd_conflict_callback a) ACD_IP_OK]) /\
  (In ACD_RESTART_CLIENT (callbacks (log (acd_apply cfg nif op) a)) ->
     state (exec (acd_apply cfg nif op) a) = ACD_STATE_OFF /\
     (((exists R, op = OpTick R) /\ state a = ACD_STATE_RATE_LIMIT) \/
      exists hdr, op = OpArp hdr)) /\
  (In ACD_DECLINE (callbacks (log (acd_apply cfg nif op) a)) ->
     (exists hdr, op = OpArp hdr) \/ op = OpPassive).
Proof.
  destruct op as [R i | | R | hdr |]; cbn [acd_apply].
  - assert (E : log (acd_start cfg R i;; mret tt) a = []).
    { unfold log. cbv beta iota zeta delta [mbind M_bind mret M_ret].
      rewrite start_eq. reflexivity. }
    rewrite E. cbn. tauto.
  - assert (E : log (acd_stop;; mret tt) a = []) by reflexivity.
    rewrite E. cbn. tauto.
  - destruct (tick_audit cfg R a) as (_ & _ & _ & H4 & _ & _ & H7 & H8 & H9).
    split; [exact H4|]. split; [|split].
    + intros H. destruct (H7 H) as (A & B & C). eauto.
    + intros H. destruct (H8 H) as (A & B). split; [exact B|]. left. eauto.
    + intros H. contradiction.
  - destruct (arp_audit cfg nif hdr a) as (_ & _ & _ & H4 & _ & _ & H7 & H8 & _).
    split; [exact H4|]. split; [|split].
    + intros H. contradiction.
    + intros H. split; [now apply H8 | right; eauto].
    + intros _. left. eauto.
  - destruct (passive_audit a) as (_ & _ & _ & H4 & _ & H6 & _).
    split; [exact H4|]. split; [|split].
    + intros H. destruct H6 as [E | E]; rewrite E in H; cbn in H;
        intuition discriminate.
    + intros H. destruct H6 as [E | E]; rewrite E in H; cbn in H;
        intuition discriminate.
    + intros _. now right.
Qed.

Lemma callbacks_match_state_witness :
  In ACD_IP_OK
     (callbacks (log (acd_apply default_config sample_netif (OpTick (fun _ => 0)))
                     (Acd sample_ip ACD_STATE_ANNOUNCING 1 1 0 0 7%positive))) /\
  state (exec (acd_apply default_config sample_netif (OpTick (fun _ => 0)))
              (Acd sample_ip ACD_STATE_ANNOUNCING 1 1 0 0 7%positive)) =
    ACD_STATE_ONGOING.
Proof.
  assert (H : In ACD_IP_OK
     (callbacks (log (acd_apply default_config sample_netif (OpTick (fun _ => 0)))
                     (Acd sample_ip ACD_STATE_ANNOUNCING 1 1 0 0 7%positive))))
    by (vm_compute; left; reflexivity).
  split; [exact H|].
  destruct (callbacks_match_state default_config sample_netif (OpTick (fun _ => 0))
              (Acd sample_ip ACD_STATE_ANNOUNCING 1 1 0 0 7%positive))
    as (_ & Hok & _).
  destruct (Hok H) as (_ & _ & Hst & _). exact Hst.
Defined.



Lemma switch_no_capture cfg RAND a :
  List.filter is_capture (calls (log (acd_tmr_switch cfg RAND) a)) = [].
Proof.
  open_acd a.
  destruct (CONFIG_OPENER_ACD_PERIODIC_DEFEND_INTERVAL_MS cfg) eqn:EP;
    destruct st; run_M; try rewrite EP; run_M; reflexivity.
Qed.

(** X6: the work of one step is bounded.  A timer tick sends at most
    one ARP frame and makes at most one callback for a context, and
    never calls the capture hooks; an ARP frame makes a context send at
    most one announce and receive at most two callbacks, and the
    capture hooks are called either not at all or exactly twice; start,
    stop and the passive demotion send nothing. *)
Theorem step_work_bounded cfg nif op (a : acd) :
  (length (sends (log (acd_apply cfg nif op) a)) <= 1)%nat /\
  (length (callbacks (log (acd_apply cfg nif op) a)) <= 2)%nat /\
  ((exists R, op = OpTick R) ->
     (length (callbacks (log (acd_apply cfg nif op) a)) <= 1)%nat /\
     List.filter is_capture (calls (log (acd_apply cfg nif op) a)) = []) /\
  ((forall hdr, op <> OpArp hdr) -> (forall R, op <> OpTick R) ->
     sends (log (acd_apply cfg nif op) a) = []) /\
  (length (List.filter is_capture (calls (log (acd_apply cfg nif op) a))) = 0%nat \/
   length (List.filter is_capture (calls (log (acd_apply cfg nif op) a))) = 2%nat).
Proof.
  destruct op as [R i | | R | hdr |]; cbn [acd_apply].
  - assert (E : log (acd_start cfg R i;; mret tt) a = []).
    { unfold log. cbv beta iota zeta delta [mbind M_bind mret M_ret].
      rewrite start_eq. reflexivity. }
    rewrite E. cbn. repeat split; try lia; auto.
  - assert (E : log (acd_stop;; mret tt) a = []) by reflexivity.
    rewrite E. cbn. repeat split; try lia; auto.
  - destruct (tick_audit cfg R a) as (_ & _ & _ & _ & H5 & H6 & _).
    assert (Hc : List.filter is_capture (calls (log (acd_tmr_one cfg R) a)) = []).
    { unfold log. rewrite tick_split. apply switch_no_capture. }
    rewrite Hc. cbn. repeat split; try lia; auto.
    intros _ Hn. exfalso. apply (Hn R). reflexivity.
  - destruct (arp_audit cfg nif hdr a) as (_ & _ & _ & _ & H5 & H6 & _ & _ & H9).
    split; [exact H5|]. split; [exact H6|]. split; [|split; [|exact H9]].
    + intros [R H]. discriminate H.
    + intros Hn. exfalso. apply (Hn hdr). reflexivity.
  - destruct (passive_audit a) as (_ & _ & _ & _ & H5 & H6 & _).
    assert (Hc : List.filter is_capture (calls (log acd_put_in_passive_mode a)) = []).
    { open_acd a. destruct st; reflexivity. }
    rewrite H5, Hc. cbn. split; [lia|]. split.
    { destruct H6 as [E | E]; rewrite E; cbn; lia. }
    split; [intros [R H]; discriminate H|]. auto.
Qed.

Lemma step_work_bounded_witness :
  (exists R, OpTick (fun _ => 0%Z) = OpTick R) /\
  (length (callbacks (log (acd_apply default_config sample_netif (OpTick (fun _ => 0%Z)))
                          (Acd sample_ip ACD_STATE_ANNOUNCING 1%Z 1%Z 0%Z 0%Z 7%positive)))
   <= 1)%nat.
Proof.
  assert (H : exists R, OpTick (fun _ : acd => 0%Z) = OpTick R) by eauto.
  split; [exact H|].
  destruct (step_work_bounded default_config sample_netif (OpTick (fun _ => 0%Z))
              (Acd sample_ip ACD_STATE_ANNOUNCING 1%Z 1%Z 0%Z 0%Z 7%positive))
    as (_ & _ & Ht & _).
  destruct (Ht H) as (Hc & _). exact Hc.
Defined.

(** ** States without scheduled action *)

Lemma switch_quiet cfg RAND a :
  state a = ACD_STATE_OFF \/ state a = ACD_STATE_PASSIVE_ONGOING ->
  acd_tmr_switch cfg RAND a = (tt, a, []).
Proof. intros Hst. open_acd a. destruct Hst as [-> | ->]; reflexivity. Qed.

Lemma tick_quiet cfg RAND a :
  state a = ACD_STATE_OFF \/ state a = ACD_STATE_PASSIVE_ONGOING ->
  (acd_tmr_one cfg RAND a).2 = [] /\
  state (acd_tmr_one cfg RAND a).1.2 = state a /\
  ipaddr (acd_tmr_one cfg RAND a).1.2 = ipaddr a /\
  num_conflicts (acd_tmr_one cfg RAND a).1.2 = num_conflicts a /\
  acd_conflict_callback (acd_tmr_one cfg RAND a).1.2 = acd_conflict_callback a.
Proof.
  intros Hst. rewrite tick_split.
  pose proof (countdown_frame a) as Hf. cbv zeta in Hf.
  destruct Hf as (F1 & F2 & _ & F4 & F5).
  rewrite switch_quiet by (rewrite F2; exact Hst). cbn [fst snd]. auto.
Qed.

Lemma feed_off cfg nif ins : forall a,
  state a = ACD_STATE_OFF ->
  state (acd_feed cfg nif ins a).1 = ACD_STATE_OFF /\
  concat (acd_feed cfg nif ins a).2 = [] /\
  ipaddr (acd_feed cfg nif ins a).1 = ipaddr a /\
  num_conflicts (acd_feed cfg nif ins a).1 = num_conflicts a.
Proof.
  induction ins as [|i ins IH]; intros a Hst; [cbn; auto|].
  cbn [acd_feed fst snd concat]. destruct i as [R | hdr]; cbn [acd_input].
  - destruct (tick_quiet cfg R a (or_introl Hst)) as (E1 & E2 & E3 & E4 & _).
    rewrite Hst in E2. destruct (IH _ E2) as (H1 & H2 & H3 & H4).
    rewrite E1, H2, H3, H4. auto.
  - rewrite arp_ignored by (left; exact Hst). cbn [fst snd app].
    apply IH. exact Hst.
Qed.

Lemma ticks_passive cfg n : forall rnd a,
  state a = ACD_STATE_PASSIVE_ONGOING ->
  state (acd_ticks cfg rnd n a).1 = ACD_STATE_PASSIVE_ONGOING /\
  concat (acd_ticks cfg rnd n a).2 = [] /\
  ipaddr (acd_ticks cfg rnd n a).1 = ipaddr a /\
  acd_conflict_callback (acd_ticks cfg rnd n a).1 = acd_conflict_callback a.
Proof.
  induction n as [|n IH]; intros rnd a Hst; [cbn; auto|].
  cbn [acd_ticks fst snd concat].
  destruct (tick_quiet cfg (rnd O) a (or_intror Hst)) as (E1 & E2 & E3 & _ & E5).
  rewrite Hst in E2. destruct (IH (fun i => rnd (S i)) _ E2) as (H1 & H2 & H3 & H4).
  rewrite E1, H2, H3, H4. auto.
Qed.

(** X7: when the link goes down every listed context is set to OFF,
    without any call, and contexts that are not listed are left alone.
    A context that is OFF stays OFF and causes no call whatever mix of
    timer ticks and ARP frames follows, conflicting ones included:
    only a new [acd_start] brings it back. *)
Theorem link_down_silences cfg w :
  registry_ok w ->
  exists w',
    acd_network_changed_link_down w = Some w' /\
    w_netif w' = w_netif w /\
    (forall p, p ∉ acd_list (w_netif w) -> w_mem w' !! p = w_mem w !! p) /\
    (forall p a, p ∈ acd_list (w_netif w) -> w_mem w !! p = Some a ->
       w_mem w' !! p = Some (set_state ACD_STATE_OFF a) /\
       log (acd_stop;; mret tt) a = [] /\
       forall ins,
         state (acd_feed cfg (w_netif w) ins (set_state ACD_STATE_OFF a)).1
           = ACD_STATE_OFF /\
         concat (acd_feed cfg (w_netif w) ins (set_state ACD_STATE_OFF a)).2 = []).
Proof.
  intros [Hnd Hall].
  destruct (foreach_spec (acd_stop;; mret tt) _ (w_mem w) Hnd Hall)
    as (mem' & E & Hin & Hout).
  exists (World (w_netif w) mem'). unfold acd_network_changed_link_down.
  rewrite E. cbn. split; [reflexivity|]. split; [reflexivity|].
  split; [exact Hout|].
  intros p a Hp Ha. split; [now rewrite (Hin p a Hp Ha)|].
  split; [reflexivity|]. intros ins.
  destruct (feed_off cfg (w_netif w) ins (set_state ACD_STATE_OFF a) eq_refl)
    as (H1 & H2 & _). auto.
Qed.

Lemma link_down_silences_witness :
  registry_ok sample_world /\
  exists w',
    acd_network_changed_link_down sample_world = Some w' /\
    state <$> (w_mem w' !! 1%positive) = Some ACD_STATE_OFF.
Proof.
  split; [apply sample_world_ok|].
  destruct (link_down_silences default_config sample_world sample_world_ok)
    as (w' & E & _ & _ & Hin).
  exists w'. split; [exact E|].
  destruct (Hin 1%positive (sample_acd ACD_STATE_ONGOING 0 0)) as (Hm & _);
    [cbn; left | reflexivity |].
  rewrite Hm. reflexivity.
Defined.

(** X8: a context in PASSIVE_ONGOING has no scheduled action and never
    times out: any number of ticks leaves it in PASSIVE_ONGOING and
    makes no call, and a conflicting frame arriving after them still
    sets it to OFF with DECLINE as its only callback and without any
    announce. *)
Theorem passive_never_times_out cfg nif hdr rnd n (a : acd) :
  state a = ACD_STATE_PASSIVE_ONGOING ->
  state (acd_ticks cfg rnd n a).1 = ACD_STATE_PASSIVE_ONGOING /\
  concat (acd_ticks cfg rnd n a).2 = [] /\
  (sipaddr hdr = ipaddr a -> shwaddr hdr <> hwaddr nif ->
     state (acd_arp_reply_one cfg nif hdr (acd_ticks cfg rnd n a).1).1.2
       = ACD_STATE_OFF /\
     callbacks (acd_arp_reply_one cfg nif hdr (acd_ticks cfg rnd n a).1).2
       = [ACD_DECLINE] /\
     sends (acd_arp_reply_one cfg nif hdr (acd_ticks cfg rnd n a).1).2 = []).
Proof.
  intros Hst. destruct (ticks_passive cfg n rnd a Hst) as (H1 & H2 & H3 & _).
  split; [exact H1|]. split; [exact H2|]. intros Hip Hmac.
  assert (Hc : ongoing_conflict nif hdr (acd_ticks cfg rnd n a).1 = true).
  { apply ongoing_conflict_spec. rewrite H3. auto. }
  rewrite arp_ongoing_phase by tauto. rewrite Hc. unfold exec, log.
  rewrite handle_conflict_passive by exact H1. cbn [fst snd]. repeat split.
Qed.

Lemma passive_never_times_out_witness :
  state (sample_acd ACD_STATE_PASSIVE_ONGOING 0 0) = ACD_STATE_PASSIVE_ONGOING /\
  state (acd_ticks default_config (fun _ _ => 0) 500
           (sample_acd ACD_STATE_PASSIVE_ONGOING 0 0)).1 = ACD_STATE_PASSIVE_ONGOING.
Proof.
  split; [reflexivity|].
  destruct (passive_never_times_out default_config sample_netif sample_conflict_hdr
              (fun _ _ => 0) 500 (sample_acd ACD_STATE_PASSIVE_ONGOING 0 0) eq_refl)
    as (H & _).
  exact H.
Defined.

(** ** Periodic defence *)

Lemma ticks_add cfg n : forall m rnd a,
  acd_ticks cfg rnd (n + m) a =
  ((acd_ticks cfg (fun i => rnd (n + i)%nat) m (acd_ticks cfg rnd n a).1).1,
   (acd_ticks cfg rnd n a).2 ++
   (acd_ticks cfg (fun i => rnd (n + i)%nat) m (acd_ticks cfg rnd n a).1).2).
Proof.
  induction n as [|n IH]; intros m rnd a.
  - cbn. now destruct (acd_ticks cfg _ m a).
  - cbn [Nat.add acd_ticks fst snd]. rewrite IH. reflexivity.
Qed.

Lemma ticks_frame cfg n : forall rnd a,
  ipaddr (acd_ticks cfg rnd n a).1 = ipaddr a /\
  acd_conflict_callback (acd_ticks cfg rnd n a).1 = acd_conflict_callback a.
Proof.
  induction n as [|n IH]; intros rnd a; [cbn; auto|].
  cbn [acd_ticks fst snd].
  destruct (tick_audit cfg (rnd O) a) as (E1 & E2 & _).
  destruct (IH (fun i => rnd (S i)) (acd_tmr_one cfg (rnd O) a).1.2) as (H1 & H2).
  unfold exec in E1, E2. rewrite H1, H2. auto.
Qed.

Lemma calls_concat_app (l1 l2 : list trace) :
  calls (concat (l1 ++ l2)) = calls (concat l1) ++ calls (concat l2).
Proof. unfold calls. now rewrite concat_app, map_app. Qed.

Lemma switch_ongoing_fire cfg RAND a :
  periodic_defence_enabled cfg ->
  state a = ACD_STATE_ONGOING -> ttw a = 0 ->
  acd_tmr_switch cfg RAND a =
  (tt, set_ttw (u16 (ACD_PERIODIC_DEFEND_INTERVAL_TICKS cfg)) a,
   [Obs (etharp_acd_probe (ipaddr a)) a]).
Proof.
  unfold periodic_defence_enabled. intros Hen Hst Ht. open_acd a. subst.
  unfold acd_tmr_switch, acd_tmr_ongoing.
  cbv beta iota zeta delta [mbind M_bind get fst snd state ttw when].
  destruct (CONFIG_OPENER_ACD_PERIODIC_DEFEND_INTERVAL_MS cfg) as [ms|] eqn:EP.
  - assert (E : (ms >? 0) && (0 =? 0) = true).
    { rewrite Z.gtb_ltb. apply andb_true_iff. split; [now apply Z.ltb_lt | reflexivity]. }
    rewrite E. reflexivity.
  - reflexivity.
Qed.

Lemma ongoing_period cfg (k : nat) : forall rnd a,
  periodic_defence_enabled cfg ->
  ACD_PERIODIC_DEFEND_INTERVAL_TICKS cfg = Z.of_nat (S k) ->
  Z.of_nat (S k) < 65536 ->
  acd_wf a -> state a = ACD_STATE_ONGOING -> ttw a = Z.of_nat (S k) ->
  acd_wf (acd_ticks cfg rnd (S k) a).1 /\
  state (acd_ticks cfg rnd (S k) a).1 = ACD_STATE_ONGOING /\
  ttw (acd_ticks cfg rnd (S k) a).1 = Z.of_nat (S k) /\
  ipaddr (acd_ticks cfg rnd (S k) a).1 = ipaddr a /\
  calls (concat (acd_ticks cfg rnd (S k) a).2) = [etharp_acd_probe (ipaddr a)].
Proof.
  intros rnd a Hen HP Hlt Hwf Hst Httw.
  assert (E : acd_ticks cfg rnd (S k) a = acd_ticks cfg rnd (k + 1) a)
    by (f_equal; lia).
  rewrite E. clear E.
  rewrite ticks_add. cbn [fst snd].
  pose proof (ticks_idle cfg k rnd a Hwf ltac:(lia)) as Hi. cbv zeta in Hi.
  destruct Hi as (I1 & I2 & I3 & _ & _ & I6).
  destruct (ticks_frame cfg k rnd a) as (I7 & _).
  set (b := (acd_ticks cfg rnd k a).1) in *.
  assert (Hb1 : ttw b = 1) by lia.
  cbn [acd_ticks fst snd].
  rewrite tick_eq by exact I3.
  assert (tick_dec (ttw b) = 0) as -> by (rewrite Hb1; reflexivity).
  rewrite switch_ongoing_fire; [|exact Hen | cbn; congruence | reflexivity].
  cbn [fst snd]. rewrite calls_concat_app. unfold calls at 1. rewrite I6.
  rewrite HP, u16_id by lia.
  destruct I3 as (Ws & Wt & Wl & Wn). pose proof (tick_dec_range _ Wl).
  open_acd b. unfold acd_wf. cbn in *. subst.
  repeat split; try lia; try assumption; try congruence.
Qed.

Lemma ongoing_periods cfg (k : nat) (j : nat) : forall rnd a,
  periodic_defence_enabled cfg ->
  ACD_PERIODIC_DEFEND_INTERVAL_TICKS cfg = Z.of_nat (S k) ->
  Z.of_nat (S k) < 65536 ->
  acd_wf a -> state a = ACD_STATE_ONGOING -> ttw a = Z.of_nat (S k) ->
  acd_wf (acd_ticks cfg rnd (j * S k) a).1 /\
  state (acd_ticks cfg rnd (j * S k) a).1 = ACD_STATE_ONGOING /\
  ttw (acd_ticks cfg rnd (j * S k) a).1 = Z.of_nat (S k) /\
  ipaddr (acd_ticks cfg rnd (j * S k) a).1 = ipaddr a /\
  calls (concat (acd_ticks cfg rnd (j * S k) a).2) =
    repeat (etharp_acd_probe (ipaddr a)) j.
Proof.
  induction j as [|j IH]; intros rnd a Hen HP Hlt Hwf Hst Httw.
  - cbn. auto.
  - change (S j * S k)%nat with (S k + j * S k)%nat.
    rewrite ticks_add. cbn [fst snd].
    destruct (ongoing_period cfg k rnd a Hen HP Hlt Hwf Hst Httw)
      as (P1 & P2 & P3 & P4 & P5).
    destruct (IH (fun i => rnd (S k + i)%nat) _ Hen HP Hlt P1 P2 P3)
      as (Q1 & Q2 & Q3 & Q4 & Q5).
    split; [exact Q1|]. split; [exact Q2|]. split; [exact Q3|].
    split; [congruence|].
    rewrite calls_concat_app, P5, Q5, P4. reflexivity.
Qed.

(** X9: with periodic defence switched on and a period of P ticks
    (1 <= P < 65536), a context that has just entered ONGOING (so that
    [ttw] is P) sends, under ticks alone, exactly one ARP probe for its
    address every P ticks and nothing else: after n ticks it has made
    n / P probe calls and no other call, and it is still in ONGOING. *)
Theorem periodic_defence_cadence cfg rnd (n : nat) (a : acd) :
  periodic_defence_enabled cfg ->
  1 <= ACD_PERIODIC_DEFEND_INTERVAL_TICKS cfg < 65536 ->
  acd_wf a -> state a = ACD_STATE_ONGOING ->
  ttw a = ACD_PERIODIC_DEFEND_INTERVAL_TICKS cfg ->
  state (acd_ticks cfg rnd n a).1 = ACD_STATE_ONGOING /\
  calls (concat (acd_ticks cfg rnd n a).2) =
    repeat (etharp_acd_probe (ipaddr a))
           (n / Z.to_nat (ACD_PERIODIC_DEFEND_INTERVAL_TICKS cfg))%nat.
Proof.
  intros Hen HP Hwf Hst Httw.
  destruct (Z.to_nat (ACD_PERIODIC_DEFEND_INTERVAL_TICKS cfg)) as [|k] eqn:Ek; [lia|].
  assert (HP' : ACD_PERIODIC_DEFEND_INTERVAL_TICKS cfg = Z.of_nat (S k)) by lia.
  rewrite HP' in Httw, HP.
  pose proof (Nat.div_mod_eq n (S k)) as Hdm.
  pose proof (Nat.mod_upper_bound n (S k) ltac:(lia)) as Hr.
  set (q := (n / S k)%nat) in *. set (r := (n mod S k)%nat) in *.
  assert (E : acd_ticks cfg rnd n a = acd_ticks cfg rnd (q * S k + r) a)
    by (f_equal; lia).
  rewrite E. clear E.
  rewrite ticks_add. cbn [fst snd].
  destruct (ongoing_periods cfg k q rnd a Hen HP' ltac:(lia) Hwf Hst Httw)
    as (Q1 & Q2 & Q3 & Q4 & Q5).
  pose proof (ticks_idle cfg r (fun i => rnd (q * S k + i)%nat) _ Q1 ltac:(lia)) as Hi.
  cbv zeta in Hi. destruct Hi as (_ & I2 & _ & _ & _ & I6).
  split; [congruence|].
  rewrite calls_concat_app, Q5. unfold calls at 1. rewrite I6. cbn [map].
  apply app_nil_r.
Qed.

Lemma periodic_defence_cadence_witness :
  (periodic_defence_enabled default_config /\
   1 <= ACD_PERIODIC_DEFEND_INTERVAL_TICKS default_config < 65536 /\
   acd_wf (Acd sample_ip ACD_STATE_ONGOING 0 100 0 0 7%positive) /\
   ttw (Acd sample_ip ACD_STATE_ONGOING 0 100 0 0 7%positive) =
     ACD_PERIODIC_DEFEND_INTERVAL_TICKS default_config) /\
  calls (concat (acd_ticks default_config (fun _ _ => 0) 250
                   (Acd sample_ip ACD_STATE_ONGOING 0 100 0 0 7%positive)).2) =
    [etharp_acd_probe sample_ip; etharp_acd_probe sample_ip].
Proof.
  assert (H1 : periodic_defence_enabled default_config) by (cbn; lia).
  assert (H2 : 1 <= ACD_PERIODIC_DEFEND_INTERVAL_TICKS default_config < 65536)
    by (vm_compute; split; [discriminate | reflexivity]).
  assert (H3 : acd_wf (Acd sample_ip ACD_STATE_ONGOING 0 100 0 0 7%positive))
    by (unfold acd_wf; cbn; lia).
  assert (H4 : ttw (Acd sample_ip ACD_STATE_ONGOING 0 100 0 0 7%positive) =
               ACD_PERIODIC_DEFEND_INTERVAL_TICKS default_config) by reflexivity.
  split; [auto|].
  destruct (periodic_defence_cadence default_config (fun _ _ => 0) 250
              (Acd sample_ip ACD_STATE_ONGOING 0 100 0 0 7%positive)
              H1 H2 H3 eq_refl H4) as (_ & H).
  rewrite H. reflexivity.
Defined.

Lemma switch_ongoing_disabled cfg RAND a ms :
  CONFIG_OPENER_ACD_PERIODIC_DEFEND_INTERVAL_MS cfg = Some ms -> ms <= 0 ->
  state a = ACD_STATE_ONGOING ->
  acd_tmr_switch cfg RAND a = (tt, a, []).
Proof.
  intros EP Hms Hst. open_acd a. subst.
  unfold acd_tmr_switch, acd_tmr_ongoing.
  cbv beta iota zeta delta [mbind M_bind get fst snd state ttw when].
  rewrite EP.
  assert (E : (ms >? 0) = false) by (rewrite Z.gtb_ltb; apply Z.ltb_ge; lia).
  rewrite E. reflexivity.
Qed.

(** X10: with the periodic defence interval configured as 0 (or less)
    a context in ONGOING never sends anything on its own: any number
    of ticks leaves it in ONGOING and makes no call at all. *)
Theorem periodic_defence_disabled cfg ms rnd (n : nat) (a : acd) :
  CONFIG_OPENER_ACD_PERIODIC_DEFEND_INTERVAL_MS cfg = Some ms -> ms <= 0 ->
  state a = ACD_STATE_ONGOING ->
  state (acd_ticks cfg rnd n a).1 = ACD_STATE_ONGOING /\
  concat (acd_ticks cfg rnd n a).2 = [].
Proof.
  intros EP Hms. revert rnd a.
  induction n as [|n IH]; intros rnd a Hst; [cbn; auto|].
  cbn [acd_ticks fst snd concat]. rewrite tick_split.
  pose proof (countdown_frame a) as Hf. cbv zeta in Hf.
  destruct Hf as (_ & F2 & _).
  rewrite (switch_ongoing_disabled cfg (rnd O) _ ms EP Hms) by congruence.
  cbn [fst snd app]. apply IH. congruence.
Qed.

Lemma periodic_defence_disabled_witness :
  (CONFIG_OPENER_ACD_PERIODIC_DEFEND_INTERVAL_MS
     (with_periodic_defend (Some 0) default_config) = Some 0 /\
   0 <= 0 /\
   state (Acd sample_ip ACD_STATE_ONGOING 0 0 0 0 7%positive) = ACD_STATE_ONGOING) /\
  concat (acd_ticks (with_periodic_defend (Some 0) default_config) (fun _ _ => 0) 300
            (Acd sample_ip ACD_STATE_ONGOING 0 0 0 0 7%positive)).2 = [].
Proof.
  split; [repeat split; lia|].
  destruct (periodic_defence_disabled (with_periodic_defend (Some 0) default_config)
              0 (fun _ _ => 0) 300
              (Acd sample_ip ACD_STATE_ONGOING 0 0 0 0 7%positive)
              eq_refl ltac:(lia) eq_refl) as (_ & H).
  exact H.
Defined.

(** ** Frames that are no conflict *)

Lemma foreach_id body l (mem : gmap acd_ptr acd) :
  (forall p, p ∈ l -> exists a, mem !! p = Some a /\ body a = (tt, a, [])) ->
  acd_foreach body l mem = Some (mem, []).
Proof.
  induction l as [|p l IH]; intros H; [reflexivity|].
  destruct (H p) as (a & Ha & Hb); [left|].
  cbn [acd_foreach]. unfold on_ctx. rewrite Ha. cbn. rewrite Hb. cbn.
  rewrite (insert_id mem p a Ha). rewrite IH; [reflexivity|].
  intros q Hq. apply H. now right.
Qed.

Lemma arp_no_conflict cfg nif hdr a :
  probe_conflict nif hdr a = false -> ongoing_conflict nif hdr a = false ->
  acd_arp_reply_one cfg nif hdr a = (tt, a, []).
Proof.
  intros Hp Ho. destruct (state a) eqn:Hst.
  - apply arp_ignored; tauto.
  - rewrite arp_probe_phase by tauto. now rewrite Hp.
  - rewrite arp_probe_phase by tauto. now rewrite Hp.
  - rewrite arp_probe_phase by tauto. now rewrite Hp.
  - rewrite arp_ongoing_phase by tauto. now rewrite Ho.
  - rewrite arp_ongoing_phase by tauto. now rewrite Ho.
  - rewrite arp_ongoing_phase by tauto. now rewrite Ho.
  - apply arp_ignored; tauto.
Qed.

(** X11: an ARP frame sent from the interface's own hardware address,
    and a frame that for every listed context neither has the
    candidate as its sender address nor is a probe (sender 0.0.0.0) for
    the candidate, is no conflict in any state: [acd_arp_reply] leaves
    the whole registry as it was and calls nothing. *)
Theorem unrelated_frames_ignored cfg w hdr :
  registry_ok w ->
  (shwaddr hdr = hwaddr (w_netif w) \/
   forall p a, p ∈ acd_list (w_netif w) -> w_mem w !! p = Some a ->
     sipaddr hdr <> ipaddr a /\
     (sipaddr hdr <> IPADDR_ANY \/ dipaddr hdr <> ipaddr a)) ->
  acd_arp_reply cfg w hdr = Some (w, []).
Proof.
  intros [Hnd Hall] Hno. unfold acd_arp_reply.
  rewrite (foreach_id (acd_arp_reply_one cfg (w_netif w) hdr)).
  - destruct w. reflexivity.
  - intros p Hp. destruct (Hall p Hp) as [a Ha]. exists a. split; [exact Ha|].
    apply arp_no_conflict.
    + apply not_true_iff_false. rewrite probe_conflict_spec.
      destruct Hno as [Hown | Hother].
      * intros [[_ H] | (_ & _ & H)]; contradiction.
      * destruct (Hother p a Hp Ha) as (H1 & H2).
        intros [[H _] | (H3 & H4 & _)]; [contradiction|]. tauto.
    + apply not_true_iff_false. rewrite ongoing_conflict_spec.
      destruct Hno as [Hown | Hother].
      * intros [_ H]; contradiction.
      * destruct (Hother p a Hp Ha) as (H1 & _). intros [H _]; contradiction.
Qed.

Lemma unrelated_frames_ignored_witness :
  (registry_ok sample_world /\
   shwaddr own_frame_hdr = hwaddr (w_netif sample_world)) /\
  acd_arp_reply default_config sample_world own_frame_hdr = Some (sample_world, []).
Proof.
  split; [split; [apply sample_world_ok | reflexivity]|].
  apply (unrelated_frames_ignored default_config sample_world own_frame_hdr
           sample_world_ok).
  left. reflexivity.
Defined.

(** X12: a probe by another host for the candidate address (sender
    0.0.0.0, target the candidate, foreign MAC) counts as a conflict
    only while the context itself is still probing: in PROBE_WAIT,
    PROBING and ANNOUNCE_WAIT it raises the conflict counter and
    delivers DECLINE, in ANNOUNCING, ONGOING and PASSIVE_ONGOING it is
    ignored altogether. *)
Theorem foreign_probe_by_phase cfg nif hdr (a : acd) :
  sipaddr hdr = IPADDR_ANY -> dipaddr hdr = ipaddr a ->
  ipaddr a <> IPADDR_ANY -> shwaddr hdr <> hwaddr nif ->
  (state a = ACD_STATE_ANNOUNCING \/ state a = ACD_STATE_ONGOING \/
   state a = ACD_STATE_PASSIVE_ONGOING ->
     acd_arp_reply_one cfg nif hdr a = (tt, a, [])) /\
  (state a = ACD_STATE_PROBE_WAIT \/ state a = ACD_STATE_PROBING \/
   state a = ACD_STATE_ANNOUNCE_WAIT ->
     num_conflicts (acd_arp_reply_one cfg nif hdr a).1.2 = u16 (num_conflicts a + 1) /\
     hd_error (callbacks (acd_arp_reply_one cfg nif hdr a).2) = Some ACD_DECLINE /\
     state (acd_arp_reply_one cfg nif hdr a).1.2 <> state a).
Proof.
  intros Hs Hd Hne Hmac. split.
  - intros Hst. rewrite arp_ongoing_phase by exact Hst.
    assert (Ho : ongoing_conflict nif hdr a = false).
    { apply not_true_iff_false. rewrite ongoing_conflict_spec.
      intros [H _]. congruence. }
    now rewrite Ho.
  - intros Hst. rewrite arp_probe_phase by exact Hst.
    assert (Hp : probe_conflict nif hdr a = true).
    { apply probe_conflict_spec. right. auto. }
    rewrite Hp. cbn [fst snd].
    destruct (Z_lt_le_dec (u16 (num_conflicts a + 1)) (MAX_CONFLICTS cfg)) as [H | H];
      unfold exec, log; [rewrite restart_below | rewrite restart_limit];
      try exact H; cbn [fst snd];
      (split; [reflexivity|]); (split; [reflexivity|]);
      open_acd a; cbn; destruct Hst as [-> | [-> | ->]]; discriminate.
Qed.

Lemma foreign_probe_by_phase_witness :
  (sipaddr sample_probe_hdr = IPADDR_ANY /\
   dipaddr sample_probe_hdr = ipaddr (sample_acd ACD_STATE_ONGOING 0 0) /\
   ipaddr (sample_acd ACD_STATE_ONGOING 0 0) <> IPADDR_ANY /\
   shwaddr sample_probe_hdr <> hwaddr sample_netif) /\
  acd_arp_reply_one default_config sample_netif sample_probe_hdr
    (sample_acd ACD_STATE_ONGOING 0 0) = (tt, sample_acd ACD_STATE_ONGOING 0 0, []).
Proof.
  assert (H1 : sipaddr sample_probe_hdr = IPADDR_ANY) by reflexivity.
  assert (H2 : dipaddr sample_probe_hdr = ipaddr (sample_acd ACD_STATE_ONGOING 0 0))
    by reflexivity.
  assert (H3 : ipaddr (sample_acd ACD_STATE_ONGOING 0 0) <> IPADDR_ANY)
    by discriminate.
  assert (H4 : shwaddr sample_probe_hdr <> hwaddr sample_netif) by discriminate.
  split; [auto|].
  destruct (foreign_probe_by_phase default_config sample_netif sample_probe_hdr
              (sample_acd ACD_STATE_ONGOING 0 0) H1 H2 H3 H4) as (H & _).
  apply H. right. left. reflexivity.
Defined.

(** ** The defence window *)

Lemma tick_lastconflict cfg RAND a :
  acd_wf a ->
  lastconflict (acd_tmr_one cfg RAND a).1.2 = tick_dec (lastconflict a).
Proof.
  intros Hwf. rewrite tick_eq by exact Hwf.
  pose proof (switch_lastconflict cfg RAND
                (set_ttw (tick_dec (ttw a))
                   (set_lastconflict (tick_dec (lastconflict a)) a))) as H.
  unfold exec in H. rewrite H. reflexivity.
Qed.

Lemma ticks_ongoing_cooldown cfg n : forall rnd a,
  acd_wf a -> state a = ACD_STATE_ONGOING ->
  acd_wf (acd_ticks cfg rnd n a).1 /\
  state (acd_ticks cfg rnd n a).1 = ACD_STATE_ONGOING /\
  lastconflict (acd_ticks cfg rnd n a).1 = Z.max 0 (lastconflict a - Z.of_nat n).
Proof.
  induction n as [|n IH]; intros rnd a Hwf Hst.
  - cbn. split; [exact Hwf|]. split; [exact Hst|]. destruct Hwf as (_ & _ & Hl & _). lia.
  - cbn [acd_ticks fst snd].
    pose proof (tick_wf cfg (rnd O) a Hwf) as Hwf1. unfold exec in Hwf1.
    destruct (tick_ongoing cfg (rnd O) a Hst) as (Hst1 & _).
    destruct (IH (fun i => rnd (S i)) _ Hwf1 Hst1) as (H1 & H2 & H3).
    split; [exact H1|]. split; [exact H2|].
    rewrite H3, tick_lastconflict by exact Hwf.
    destruct Hwf as (_ & _ & Hl & _). unfold tick_dec.
    destruct (lastconflict a >? 0) eqn:E; zbool; lia.
Qed.

(** X13: the defence window is counted in ticks.  Once an ONGOING
    context has defended its address against a conflicting frame, a
    second conflicting frame that arrives after fewer than
    DEFEND_INTERVAL (in ticks, as a 16 bit value) timer ticks makes it
    give the address up (DECLINE, no announce, state no longer
    ONGOING); one that arrives after that many ticks or more is
    defended again with one announce and no callback. *)
Theorem defend_window cfg nif hdr rnd (n : nat) (a : acd) :
  acd_wf a -> state a = ACD_STATE_ONGOING ->
  sipaddr hdr = ipaddr a -> shwaddr hdr <> hwaddr nif ->
  lastconflict a = 0 ->
  (Z.of_nat n < u16 (DEFEND_INTERVAL cfg * ACD_TICKS_PER_SECOND cfg) ->
     hd_error (callbacks
       (acd_arp_reply_one cfg nif hdr
          (acd_ticks cfg rnd n (exec (acd_arp_reply_one cfg nif hdr) a)).1).2)
       = Some ACD_DECLINE /\
     sends (acd_arp_reply_one cfg nif hdr
              (acd_ticks cfg rnd n (exec (acd_arp_reply_one cfg nif hdr) a)).1).2 = [] /\
     state (acd_arp_reply_one cfg nif hdr
              (acd_ticks cfg rnd n (exec (acd_arp_reply_one cfg nif hdr) a)).1).1.2
       <> ACD_STATE_ONGOING) /\
  (u16 (DEFEND_INTERVAL cfg * ACD_TICKS_PER_SECOND cfg) <= Z.of_nat n ->
     state (acd_arp_reply_one cfg nif hdr
              (acd_ticks cfg rnd n (exec (acd_arp_reply_one cfg nif hdr) a)).1).1.2
       = ACD_STATE_ONGOING /\
     callbacks (acd_arp_reply_one cfg nif hdr
                  (acd_ticks cfg rnd n (exec (acd_arp_reply_one cfg nif hdr) a)).1).2
       = [] /\
     sends (acd_arp_reply_one cfg nif hdr
              (acd_ticks cfg rnd n (exec (acd_arp_reply_one cfg nif hdr) a)).1).2
       = [etharp_acd_announce (ipaddr a)]).
Proof.
  intros Hwf Hst Hip Hmac Hlc.
  assert (Hc : ongoing_conflict nif hdr a = true)
    by (apply ongoing_conflict_spec; auto).
  assert (Eb : exec (acd_arp_reply_one cfg nif hdr) a =
               set_lastconflict (u16 (DEFEND_INTERVAL cfg * ACD_TICKS_PER_SECOND cfg)) a).
  { unfold exec. rewrite arp_ongoing_phase by tauto. rewrite Hc. cbn [fst snd].
    unfold exec. rewrite handle_conflict_defend by tauto. reflexivity. }
  rewrite Eb.
  set (D := u16 (DEFEND_INTERVAL cfg * ACD_TICKS_PER_SECOND cfg)) in *.
  assert (HD : 0 <= D < 65536) by apply u16_range.
  assert (Hwfb : acd_wf (set_lastconflict D a)).
  { destruct Hwf as (Ws & Wt & Wl & Wn). unfold acd_wf. cbn. auto. }
  destruct (ticks_ongoing_cooldown cfg n rnd (set_lastconflict D a) Hwfb Hst)
    as (C1 & C2 & C3).
  destruct (ticks_frame cfg n rnd (set_lastconflict D a)) as (C4 & _).
  set (c := (acd_ticks cfg rnd n (set_lastconflict D a)).1) in *.
  cbn [lastconflict set_lastconflict ipaddr] in C3, C4.
  assert (Hcc : ongoing_conflict nif hdr c = true).
  { apply ongoing_conflict_spec. rewrite C4. auto. }
  rewrite arp_ongoing_phase by tauto. rewrite Hcc. unfold exec, log. split.
  - intros Hn. rewrite handle_conflict_retreat by (try tauto; lia).
    destruct (Z_lt_le_dec (u16 (num_conflicts c + 1)) (MAX_CONFLICTS cfg)) as [H | H];
      [rewrite restart_below | rewrite restart_limit]; try exact H; cbn [fst snd];
      (split; [reflexivity|]); (split; [reflexivity|]);
      open_acd c; cbn; discriminate.
  - intros Hn. rewrite handle_conflict_defend by (try tauto; lia). cbn [fst snd].
    split; [exact C2|]. split; [reflexivity|]. cbn. now rewrite C4.
Qed.

Lemma defend_window_witness :
  (acd_wf (sample_acd ACD_STATE_ONGOING 0 0) /\
   sipaddr sample_conflict_hdr = ipaddr (sample_acd ACD_STATE_ONGOING 0 0) /\
   shwaddr sample_conflict_hdr <> hwaddr sample_netif /\
   99 < u16 (DEFEND_INTERVAL default_config * ACD_TICKS_PER_SECOND default_config)) /\
  hd_error (callbacks
    (acd_arp_reply_one default_config sample_netif sample_conflict_hdr
       (acd_ticks default_config (fun _ _ => 0) 99
          (exec (acd_arp_reply_one default_config sample_netif sample_conflict_hdr)
                (sample_acd ACD_STATE_ONGOING 0 0))).1).2) = Some ACD_DECLINE.
Proof.
  assert (H1 : acd_wf (sample_acd ACD_STATE_ONGOING 0 0)) by (unfold acd_wf; cbn; lia).
  assert (H2 : sipaddr sample_conflict_hdr = ipaddr (sample_acd ACD_STATE_ONGOING 0 0))
    by reflexivity.
  assert (H3 : shwaddr sample_conflict_hdr <> hwaddr sample_netif) by discriminate.
  assert (H4 : 99 < u16 (DEFEND_INTERVAL default_config *
                         ACD_TICKS_PER_SECOND default_config))
    by (vm_compute; reflexivity).
  split; [auto|].
  destruct (defend_window default_config sample_netif sample_conflict_hdr
              (fun _ _ => 0) 99 (sample_acd ACD_STATE_ONGOING 0 0)
              H1 eq_refl H2 H3 eq_refl) as (H & _).
  destruct (H H4) as (Hd & _). exact Hd.
Defined.

(** ** Passive demotion *)

(** X14: [acd_put_in_passive_mode] is idempotent: whatever the state,
    the context ends in OFF or PASSIVE_ONGOING, and applying the
    demotion again changes nothing and makes no further call, so
    DECLINE is delivered at most once. *)
Theorem passive_mode_idempotent (a : acd) :
  acd_put_in_passive_mode (exec acd_put_in_passive_mode a) =
    (tt, exec acd_put_in_passive_mode a, []) /\
  (state (exec acd_put_in_passive_mode a) = ACD_STATE_OFF \/
   state (exec acd_put_in_passive_mode a) = ACD_STATE_PASSIVE_ONGOING) /\
  (callbacks (log acd_put_in_passive_mode a) = [ACD_DECLINE] <->
   state a = ACD_STATE_PROBE_WAIT \/ state a = ACD_STATE_PROBING \/
   state a = ACD_STATE_ANNOUNCE_WAIT \/ state a = ACD_STATE_RATE_LIMIT).
Proof.
  open_acd a. destruct st; cbn; (split; [reflexivity|]); (split; [tauto|]);
    split; intros H; try discriminate H; try tauto;
    repeat (destruct H as [H | H]); discriminate H.
Qed.

(** X15: demoting a context that is being rate limited cancels the
    restart: it goes to OFF with DECLINE, and no later tick or ARP
    frame delivers the RESTART_CLIENT that the end of the rate limit
    would have brought, or makes any other call. *)
Theorem passive_mode_cancels_rate_limit cfg nif ins (a : acd) :
  state a = ACD_STATE_RATE_LIMIT ->
  acd_put_in_passive_mode a =
    (tt, set_state ACD_STATE_OFF a,
     [Obs (conflict_callback (acd_conflict_callback a) ACD_DECLINE)
          (set_state ACD_STATE_OFF a)]) /\
  state (acd_feed cfg nif ins (exec acd_put_in_passive_mode a)).1 = ACD_STATE_OFF /\
  concat (acd_feed cfg nif ins (exec acd_put_in_passive_mode a)).2 = [].
Proof.
  intros Hst.
  assert (E : acd_put_in_passive_mode a =
    (tt, set_state ACD_STATE_OFF a,
     [Obs (conflict_callback (acd_conflict_callback a) ACD_DECLINE)
          (set_state ACD_STATE_OFF a)])).
  { open_acd a. subst. reflexivity. }
  split; [exact E|]. unfold exec. rewrite E. cbn [fst snd].
  destruct (feed_off cfg nif ins (set_state ACD_STATE_OFF a) eq_refl) as (H1 & H2 & _).
  auto.
Qed.

Lemma passive_mode_cancels_rate_limit_witness :
  state (Acd sample_ip ACD_STATE_RATE_LIMIT 0 3 0 10 7%positive) =
    ACD_STATE_RATE_LIMIT /\
  concat (acd_feed default_config sample_netif
            [Tick (fun _ => 0); Tick (fun _ => 0); Tick (fun _ => 0);
             Tick (fun _ => 0)]
            (exec acd_put_in_passive_mode
                  (Acd sample_ip ACD_STATE_RATE_LIMIT 0 3 0 10 7%positive))).2 = [].
Proof.
  split; [reflexivity|].
  destruct (passive_mode_cancels_rate_limit default_config sample_netif
              [Tick (fun _ => 0); Tick (fun _ => 0); Tick (fun _ => 0);
               Tick (fun _ => 0)]
              (Acd sample_ip ACD_STATE_RATE_LIMIT 0 3 0 10 7%positive) eq_refl)
    as (_ & _ & H).
  exact H.
Defined.

(** X16: [acd_netif_ip_addr_changed] does nothing at all (no context
    changes, no call is made) when either address is NULL or 0.0.0.0,
    when the old address is not link-local, when the new address is
    link-local too, and when no listed context has the old address as
    its candidate. *)
Theorem address_change_noop w old_addr new_addr :
  registry_ok w ->
  (ip_addr_isany old_addr = true \/ ip_addr_isany new_addr = true \/
   exists o n,
     old_addr = Some o /\ new_addr = Some n /\
     (ip4_addr_islinklocal o = false \/ ip4_addr_islinklocal n = true \/
      forall p a, p ∈ acd_list (w_netif w) -> w_mem w !! p = Some a ->
                  ipaddr a <> o)) ->
  acd_netif_ip_addr_changed w old_addr new_addr = Some (w, []).
Proof.
  intros [Hnd Hall] H. unfold acd_netif_ip_addr_changed.
  destruct (ip_addr_isany old_addr || ip_addr_isany new_addr) eqn:Hany;
    [reflexivity|].
  apply orb_false_iff in Hany as [Ho Hn].
  destruct H as [H | [H | (o & n & -> & -> & H)]]; try congruence.
  rewrite (foreach_id (acd_netif_ip_addr_changed_body o n)).
  - destruct w. reflexivity.
  - intros p Hp. destruct (Hall p Hp) as [a Ha]. exists a. split; [exact Ha|].
    rewrite addr_changed_body_eq.
    destruct H as [H | [H | H]].
    + rewrite H. cbn. now rewrite andb_false_r.
    + rewrite H. cbn. now rewrite !andb_false_r.
    + assert (E : ip4_addr_eq (ipaddr a) o = false).
      { apply Z.eqb_neq. exact (H p a Hp Ha). }
      now rewrite E.
Qed.

Lemma address_change_noop_witness :
  (registry_ok ll_world /\ ip_addr_isany None = true) /\
  acd_netif_ip_addr_changed ll_world (Some ll_ip) None = Some (ll_world, []).
Proof.
  split; [split; [apply ll_world_ok | reflexivity]|].
  apply (address_change_noop ll_world (Some ll_ip) None ll_world_ok).
  right. left. reflexivity.
Defined.

(** ** Conversion of durations and jitter *)

(** X17: [OPENER_ACD_MS_TO_TICKS] rounds up and never down: 0 ms is 0
    ticks, and for a positive tick length and a positive duration that
    fits 16 bits of ticks the result t is at least 1 and is the least
    number of ticks that covers the duration, (t-1)*interval < ms <=
    t*interval. *)
Theorem ms_to_ticks_ceiling cfg ms :
  0 < ACD_TMR_INTERVAL cfg -> 0 < ms ->
  ms + (ACD_TMR_INTERVAL cfg - 1) < 65536 * ACD_TMR_INTERVAL cfg ->
  OPENER_ACD_MS_TO_TICKS cfg 0 = 0 /\
  1 <= OPENER_ACD_MS_TO_TICKS cfg ms < 65536 /\
  ms <= OPENER_ACD_MS_TO_TICKS cfg ms * ACD_TMR_INTERVAL cfg /\
  (OPENER_ACD_MS_TO_TICKS cfg ms - 1) * ACD_TMR_INTERVAL cfg < ms.
Proof.
  intros HT Hms Hfit. split; [reflexivity|].
  unfold OPENER_ACD_MS_TO_TICKS.
  assert (E : (ms =? 0) = false) by (apply Z.eqb_neq; lia). rewrite E.
  unfold cdiv. rewrite Z.quot_div_nonneg by lia.
  set (T := ACD_TMR_INTERVAL cfg) in *.
  pose proof (Z.mul_div_le (ms + (T - 1)) T HT) as H1.
  pose proof (Z.mul_succ_div_gt (ms + (T - 1)) T HT) as H2.
  set (q := (ms + (T - 1)) / T) in *.
  assert (Hq : 1 <= q < 65536) by nia.
  rewrite u16_id by lia. split; [exact Hq|]. split; nia.
Qed.

Lemma ms_to_ticks_ceiling_witness :
  (0 < ACD_TMR_INTERVAL default_config /\ 0 < 1001 /\
   1001 + (ACD_TMR_INTERVAL default_config - 1) <
     65536 * ACD_TMR_INTERVAL default_config) /\
  OPENER_ACD_MS_TO_TICKS default_config 1001 = 11.
Proof.
  assert (H1 : 0 < ACD_TMR_INTERVAL default_config) by (cbn; lia).
  assert (H2 : 0 < 1001) by lia.
  assert (H3 : 1001 + (ACD_TMR_INTERVAL default_config - 1) <
               65536 * ACD_TMR_INTERVAL default_config) by (cbn; lia).
  split; [auto|].
  destruct (ms_to_ticks_ceiling default_config 1001 H1 H2 H3) as (_ & Hr & Hle & Hgt).
  change (ACD_TMR_INTERVAL default_config) with 100 in Hle, Hgt. lia.
Defined.

(** X18: the jitter stays inside its interval for every configuration
    and every value of the random source.  The probe interval written
    to [ttw] is at least PROBE_MIN and strictly below PROBE_MAX (in
    ticks) when PROBE_MAX exceeds PROBE_MIN, and is PROBE_MIN
    otherwise; the initial wait is strictly below the probe wait when
    that is positive, and 0 when it is 0. *)
Theorem jitter_within_bounds cfg rnd :
  (OPENER_ACD_PROBE_MAX_TICKS cfg > OPENER_ACD_PROBE_MIN_TICKS cfg ->
     OPENER_ACD_PROBE_MIN_TICKS cfg <= u16 (ACD_RANDOM_PROBE_INTERVAL cfg rnd)
       < OPENER_ACD_PROBE_MAX_TICKS cfg) /\
  (OPENER_ACD_PROBE_MAX_TICKS cfg <= OPENER_ACD_PROBE_MIN_TICKS cfg ->
     u16 (ACD_RANDOM_PROBE_INTERVAL cfg rnd) = OPENER_ACD_PROBE_MIN_TICKS cfg) /\
  (0 < OPENER_ACD_PROBE_WAIT_TICKS cfg ->
     0 <= u16 (ACD_RANDOM_PROBE_WAIT cfg rnd) < OPENER_ACD_PROBE_WAIT_TICKS cfg) /\
  (OPENER_ACD_PROBE_WAIT_TICKS cfg = 0 -> u16 (ACD_RANDOM_PROBE_WAIT cfg rnd) = 0).
Proof.
  pose proof (ms_to_ticks_range cfg (CONFIG_OPENER_ACD_PROBE_MIN_MS cfg)) as Hmin.
  pose proof (ms_to_ticks_range cfg (CONFIG_OPENER_ACD_PROBE_MAX_MS cfg)) as Hmax.
  pose proof (ms_to_ticks_range cfg (CONFIG_OPENER_ACD_PROBE_WAIT_MS cfg)) as Hw.
  fold (OPENER_ACD_PROBE_MIN_TICKS cfg) in Hmin.
  fold (OPENER_ACD_PROBE_MAX_TICKS cfg) in Hmax.
  fold (OPENER_ACD_PROBE_WAIT_TICKS cfg) in Hw.
  unfold ACD_RANDOM_PROBE_INTERVAL, ACD_RANDOM_PROBE_WAIT, probe_interval_modulus,
    probe_wait_modulus.
  set (lo := OPENER_ACD_PROBE_MIN_TICKS cfg) in *.
  set (hi := OPENER_ACD_PROBE_MAX_TICKS cfg) in *.
  set (pw := OPENER_ACD_PROBE_WAIT_TICKS cfg) in *.
  split; [|split; [|split]].
  - intros Hgt. assert (E : (hi >? lo) = true) by (rewrite Z.gtb_ltb; apply Z.ltb_lt; lia).
    rewrite E. pose proof (Z.mod_pos_bound (u32 rnd) (hi - lo) ltac:(lia)) as Hm.
    rewrite u32_id by lia. rewrite u16_id by lia. lia.
  - intros Hle. assert (E : (hi >? lo) = false) by (rewrite Z.gtb_ltb; apply Z.ltb_ge; lia).
    rewrite E. apply u16_id. lia.
  - intros Hpos. assert (E : (pw >? 0) = true) by (rewrite Z.gtb_ltb; apply Z.ltb_lt; lia).
    rewrite E. destruct (CONFIG_OPENER_ACD_PROBE_WAIT_MS cfg =? 0).
    + change (u16 0) with 0. lia.
    + pose proof (Z.mod_pos_bound (u32 rnd) pw Hpos) as Hm.
      rewrite u16_id by lia. lia.
  - intros H0. rewrite H0. cbn.
    destruct (CONFIG_OPENER_ACD_PROBE_WAIT_MS cfg =? 0); [reflexivity|].
    rewrite Z.mod_1_r. reflexivity.
Qed.

Lemma jitter_within_bounds_witness :
  OPENER_ACD_PROBE_MAX_TICKS default_config > OPENER_ACD_PROBE_MIN_TICKS default_config /\
  10 <= u16 (ACD_RANDOM_PROBE_INTERVAL default_config 123456789) < 20.
Proof.
  assert (H : OPENER_ACD_PROBE_MAX_TICKS default_config >
              OPENER_ACD_PROBE_MIN_TICKS default_config) by reflexivity.
  split; [exact H|].
  destruct (jitter_within_bounds default_config 123456789) as (Hb & _).
  exact (Hb H).
Defined.

(** ** The timer on the registry *)

(** X19: one [acd_tmr] pass over a well-formed registry never fails,
    advances every listed context exactly as the loop body would
    advance it alone, whatever else is listed and wherever it stands in
    the list, logs for each context exactly the calls of its own step,
    leaves contexts that are not listed untouched and leaves the
    registry well formed. *)
Theorem timer_acts_per_context cfg RAND w :
  registry_ok w ->
  exists w' t,
    acd_tmr cfg RAND w = Some (w', t) /\
    w_netif w' = w_netif w /\
    registry_ok w' /\
    (forall p a, p ∈ acd_list (w_netif w) -> w_mem w !! p = Some a ->
       w_mem w' !! p = Some (exec (acd_tmr_one cfg RAND) a) /\
       log_of p t = map (pair p) (log (acd_tmr_one cfg RAND) a)) /\
    (forall p, p ∉ acd_list (w_netif w) ->
       w_mem w' !! p = w_mem w !! p /\ log_of p t = []).
Proof.
  intros [Hnd Hall].
  destruct (foreach_spec (acd_tmr_one cfg RAND) _ (w_mem w) Hnd Hall)
    as (mem' & E & Hin & Hout).
  exists (World (w_netif w) mem'). eexists. unfold acd_tmr. rewrite E. cbn.
  split; [reflexivity|]. split; [reflexivity|]. split; [|split].
  - split; cbn; [exact Hnd|]. intros p Hp. destruct (Hall p Hp) as [a Ha].
    rewrite (Hin p a Hp Ha). eauto.
  - intros p a Hp Ha. split; [now apply Hin|]. now apply log_of_foreach.
  - intros p Hp. split; [now apply Hout|].
    clear -Hp. induction (acd_list (w_netif w)) as [|q l IH]; [reflexivity|].
    apply not_elem_of_cons in Hp as [Hne Hp]. cbn [map concat].
    unfold log_of. rewrite List.filter_app.
    fold (log_of p (ctx_log (acd_tmr_one cfg RAND) (w_mem w) q)).
    fold (log_of p (concat (map (ctx_log (acd_tmr_one cfg RAND) (w_mem w)) l))).
    rewrite log_of_other by congruence. rewrite IH by exact Hp. reflexivity.
Qed.

Lemma timer_acts_per_context_witness :
  registry_ok sample_world /\
  exists w' t,
    acd_tmr default_config (LWIP_ACD_RAND sample_netif) sample_world = Some (w', t) /\
    ttw <$> (w_mem w' !! 1%positive) = Some 4.
Proof.
  split; [apply sample_world_ok|].
  destruct (timer_acts_per_context default_config (LWIP_ACD_RAND sample_netif)
              sample_world sample_world_ok) as (w' & t & E & _ & _ & Hin & _).
  exists w', t. split; [exact E|].
  destruct (Hin 1%positive (sample_acd ACD_STATE_ONGOING 0 0)) as (Hm & _);
    [cbn; left | reflexivity |].
  rewrite Hm. reflexivity.
Defined.

(** ** The calls between start and ONGOING *)

(** X20: with a configured probe wait of 0 ms the very first tick
    after [acd_start] sends the first probe, for every configuration
    and random source; that tick leaves the context in ANNOUNCE_WAIT
    exactly when PROBE_NUM is at most 1 and in PROBING otherwise, so at
    least one probe is sent even with PROBE_NUM set to 0. *)
Theorem first_probe_without_wait cfg R0 R ip (a : acd) :
  CONFIG_OPENER_ACD_PROBE_WAIT_MS cfg = 0 ->
  calls (acd_tmr_one cfg R (exec (acd_start cfg R0 ip) a)).2 = [etharp_acd_probe ip] /\
  (PROBE_NUM cfg <= 1 ->
     state (acd_tmr_one cfg R (exec (acd_start cfg R0 ip) a)).1.2
       = ACD_STATE_ANNOUNCE_WAIT) /\
  (1 < PROBE_NUM cfg ->
     state (acd_tmr_one cfg R (exec (acd_start cfg R0 ip) a)).1.2
       = ACD_STATE_PROBING /\
     sent_num (acd_tmr_one cfg R (exec (acd_start cfg R0 ip) a)).1.2 = 1).
Proof.
  intros H0. unfold exec. rewrite start_eq. cbn [fst snd].
  assert (E : forall r, ACD_RANDOM_PROBE_WAIT cfg r = 0).
  { intros r. unfold ACD_RANDOM_PROBE_WAIT. now rewrite H0. }
  rewrite E. change (u16 0) with 0.
  rewrite tick_split.
  change (exec acd_tmr_countdown
            (Acd ip ACD_STATE_PROBE_WAIT 0 0 0 (num_conflicts a)
                 (acd_conflict_callback a)))
    with (Acd ip ACD_STATE_PROBE_WAIT 0 0 0 (num_conflicts a)
              (acd_conflict_callback a)).
  unfold acd_tmr_switch, acd_tmr_probe.
  cbv beta iota zeta delta [mbind M_bind get modify extern assign when fst snd app
    state ttw sent_num ipaddr set_state set_sent_num set_ttw lastconflict
    num_conflicts acd_conflict_callback mret M_ret].
  change (0 =? 0) with true. cbv beta iota.
  change (u16 (0 + 1)) with 1.
  destruct (1 >=? PROBE_NUM cfg) eqn:Hn; zbool; cbn; repeat split; intros; try lia;
    reflexivity.
Qed.

Lemma first_probe_without_wait_witness :
  CONFIG_OPENER_ACD_PROBE_WAIT_MS default_config = 0 /\
  calls (acd_tmr_one default_config (LWIP_ACD_RAND sample_netif)
           (exec (acd_start default_config (LWIP_ACD_RAND sample_netif) sample_ip)
                 (sample_acd ACD_STATE_OFF 0 0))).2 = [etharp_acd_probe sample_ip].
Proof.
  split; [reflexivity|].
  destruct (first_probe_without_wait default_config (LWIP_ACD_RAND sample_netif)
              (LWIP_ACD_RAND sample_netif) sample_ip (sample_acd ACD_STATE_OFF 0 0)
              eq_refl) as (H & _).
  exact H.
Defined.

Lemma tick_calls w RAND a :
  probing_inv a ->
  calls (acd_tmr_one (with_probe_wait w default_config) RAND a).2 ++
  calls_to_ongoing (acd_tmr_one (with_probe_wait w default_config) RAND a).1.2 =
  calls_to_ongoing a.
Proof.
  intros [Hwf Hinv].
  destruct (Z_le_gt_dec 2 (ttw a)) as [H2 | H2].
  - rewrite tick_idle by assumption. cbn [fst snd]. open_acd a. reflexivity.
  - rewrite tick_eq by assumption.
    assert (tick_dec (ttw a) = 0) as ->.
    { destruct Hwf as (_ & Ht & _). unfold tick_dec.
      destruct (ttw a >? 0) eqn:E; zbool; lia. }
    open_acd a. unfold set_ttw, set_lastconflict.
    cbn [ipaddr state sent_num ttw lastconflict num_conflicts acd_conflict_callback].
    destruct st; cbn in Hinv; try contradiction.
    + subst sn. rewrite fire_probe_wait. reflexivity.
    + destruct Hinv as [-> | ->].
      * rewrite fire_probing_1. reflexivity.
      * rewrite fire_probing_2. reflexivity.
    + subst sn. rewrite fire_announce_wait. reflexivity.
    + subst sn. rewrite fire_announcing. reflexivity.
Qed.

Lemma reach_ongoing_calls w (n : nat) : forall rnd a,
  probing_inv a -> eta_hi a <= Z.of_nat n ->
  exists T : nat,
    state (acd_ticks (with_probe_wait w default_config) rnd T a).1
      = ACD_STATE_ONGOING /\
    (forall m, (m < T)%nat ->
       state (acd_ticks (with_probe_wait w default_config) rnd m a).1
         <> ACD_STATE_ONGOING) /\
    calls (concat (acd_ticks (with_probe_wait w default_config) rnd T a).2) =
      calls_to_ongoing a.
Proof.
  induction n as [|n IH]; intros rnd a Hinv Hhi.
  - pose proof (eta_hi_pos a). lia.
  - pose proof (tick_calls w (rnd O) a Hinv) as Hc.
    destruct (tick_progress w (rnd O) a Hinv)
      as [(Hinv1 & _ & _ & Hhi1) | (_ & Hst1 & _)].
    + destruct (IH (fun i => rnd (S i)) _ Hinv1) as (T & HT & Hbefore & Hcalls);
        [lia|].
      exists (S T). cbn [acd_ticks fst snd concat]. split; [exact HT|]. split.
      * intros [|m] Hm; [cbn; now apply probing_inv_not_ongoing|].
        cbn [acd_ticks fst snd]. apply Hbefore. lia.
      * unfold calls in *. rewrite map_app, Hcalls. exact Hc.
    + exists 1%nat. cbn [acd_ticks fst snd concat]. split; [exact Hst1|]. split.
      * intros [|m] Hm; [cbn; now apply probing_inv_not_ongoing | lia].
      * assert (E : calls_to_ongoing
                      (acd_tmr_one (with_probe_wait w default_config) (rnd O) a).1.2 = []).
        { unfold calls_to_ongoing. now rewrite Hst1. }
        rewrite E, app_nil_r in Hc. rewrite app_nil_r. exact Hc.
Qed.

(** X21: under the defaults (and a probe wait of at most 1000 ms) the
    calls made between [acd_start] and the tick that enters ONGOING
    are, for every random source, exactly three probes for the
    address, then two announces for it, then IP_OK to the context's
    callback, and nothing else; that tick is the first at which the
    state is ONGOING and it is tick 61 at the earliest and tick 87 at
    the latest. *)
Theorem start_to_ongoing_calls (w : Z) (R0 : acd -> Z) (rnd : nat -> acd -> Z)
    (ip : ip4_addr_t) (a0 : acd) :
  0 <= w <= 1000 -> acd_wf a0 ->
  exists T : nat,
    (61 <= T <= 87)%nat /\
    state (acd_ticks (with_probe_wait w default_config) rnd T
             (exec (acd_start (with_probe_wait w default_config) R0 ip) a0)).1
      = ACD_STATE_ONGOING /\
    (forall m, (m < T)%nat ->
       state (acd_ticks (with_probe_wait w default_config) rnd m
                (exec (acd_start (with_probe_wait w default_config) R0 ip) a0)).1
         <> ACD_STATE_ONGOING) /\
    calls (concat (acd_ticks (with_probe_wait w default_config) rnd T
                     (exec (acd_start (with_probe_wait w default_config) R0 ip) a0)).2) =
      [etharp_acd_probe ip; etharp_acd_probe ip; etharp_acd_probe ip;
       etharp_acd_announce ip; etharp_acd_announce ip;
       conflict_callback (acd_conflict_callback a0) ACD_IP_OK].
Proof.
  intros Hw Hwf. unfold exec. rewrite start_eq. cbn [fst snd].
  set (z := R0 _).
  destruct (initial_wait_bounds w z Hw) as [Hb _].
  set (t0 := u16 (ACD_RANDOM_PROBE_WAIT (with_probe_wait w default_config) z)) in *.
  set (a1 := Acd ip ACD_STATE_PROBE_WAIT 0 t0 0 (num_conflicts a0)
                 (acd_conflict_callback a0)).
  assert (Hinv : probing_inv a1).
  { destruct Hwf as (_ & _ & _ & Hn). unfold probing_inv, acd_wf, a1. cbn.
    repeat split; lia. }
  assert (Hlo : eta_lo a1 = Z.max 1 t0 + 60) by reflexivity.
  assert (Hhi : eta_hi a1 = Z.max 1 t0 + 78) by reflexivity.
  destruct (reach_ongoing w 87 rnd a1 Hinv ltac:(lia)) as (T & HT & Hbefore & Hafter).
  destruct (reach_ongoing_calls w 87 rnd a1 Hinv ltac:(lia))
    as (T' & HT' & Hbefore' & Hcalls).
  assert (T' = T).
  { destruct (Nat.lt_trichotomy T' T) as [Hlt | [Heq | Hgt]]; [|exact Heq|].
    - destruct (Hbefore T' Hlt) as [Hne _]. contradiction.
    - destruct (Hafter T ltac:(lia)) as [Hon _].
      exfalso. exact (Hbefore' T Hgt Hon). }
  subst T'. exists T. split; [lia|]. split; [exact HT'|]. split; [exact Hbefore'|].
  rewrite Hcalls. reflexivity.
Qed.

Lemma start_to_ongoing_calls_witness :
  (0 <= 0 <= 1000 /\ acd_wf (sample_acd ACD_STATE_OFF 0 0)) /\
  exists T : nat,
    (61 <= T <= 87)%nat /\
    calls (concat (acd_ticks (with_probe_wait 0 default_config)
                     (fun _ => LWIP_ACD_RAND sample_netif) T
                     (exec (acd_start (with_probe_wait 0 default_config)
                              (LWIP_ACD_RAND sample_netif) sample_ip)
                           (sample_acd ACD_STATE_OFF 0 0))).2) =
      [etharp_acd_probe sample_ip; etharp_acd_probe sample_ip;
       etharp_acd_probe sample_ip;
       etharp_acd_announce sample_ip; etharp_acd_announce sample_ip;
       conflict_callback 7%positive ACD_IP_OK].
Proof.
  assert (Hw : 0 <= 0 <= 1000) by lia.
  assert (Hwf : acd_wf (sample_acd ACD_STATE_OFF 0 0)) by (unfold acd_wf; cbn; lia).
  split; [split; assumption|].
  destruct (start_to_ongoing_calls 0 (LWIP_ACD_RAND sample_netif)
              (fun _ => LWIP_ACD_RAND sample_netif) sample_ip
              (sample_acd ACD_STATE_OFF 0 0) Hw Hwf) as (T & HT & _ & _ & Hc).
  exists T. split; [exact HT | exact Hc].
Defined.
